(** * nipoppy dataset layout: schema, resolver and validation

    A shallow embedding of [nipoppy/layout.py]: the pydantic models
    [PathInfo] / [LayoutConfig] and the class [DatasetLayout], together with
    the fragment of [pathlib.PurePosixPath] the module relies on. *)

From Stdlib Require Import String Ascii List Bool Arith.
Import ListNotations.

Set Warnings "-register-all".
Local Open Scope string_scope.
Local Open Scope list_scope.

(** ** [pathlib]: pure POSIX paths *)

Module Pathlib.

(** The separator of the POSIX flavour. *)
Definition sep : ascii := "/"%char.

(** A parsed path: [root] is [""], ["/"] or ["//"]; [tail] holds the
    components after the root (pathlib's [_root] and [_tail]; the drive is
    always empty on POSIX). *)
Record Path : Type := mkPath { root : string; tail : list string }.

(** [str.lstrip("/")]. *)
Fixpoint lstrip_sep (s : string) : string :=
  match s with
  | String c s' => if Ascii.eqb c sep then lstrip_sep s' else s
  | EmptyString => EmptyString
  end.

(** [str.split("/")]. *)
Fixpoint split_sep (s : string) : list string :=
  match s with
  | EmptyString => [EmptyString]
  | String c s' =>
      if Ascii.eqb c sep then EmptyString :: split_sep s'
      else match split_sep s' with
           | x :: xs => String c x :: xs
           | [] => [String c EmptyString]
           end
  end.

(** [_PosixFlavour.splitroot]: exactly two leading slashes are kept as the
    root ["//"], any other number of them collapses to ["/"]. *)
Definition splitroot (part : string) : string * string :=
  match part with
  | String c _ =>
      if Ascii.eqb c sep then
        let stripped := lstrip_sep part in
        if Nat.eqb (String.length part - String.length stripped) 2
        then ("//", stripped) else ("/", stripped)
      else ("", part)
  | EmptyString => ("", part)
  end.

(** A component survives parsing when it is neither empty nor ["."]. *)
Definition keeps (x : string) : bool :=
  negb (String.eqb x "") && negb (String.eqb x ".").

(** [Path(s)] for a string [s]. *)
Definition of_string (s : string) : Path :=
  let (r, rel) := splitroot s in
  mkPath r (filter keeps (split_sep rel)).

(** The constructor accepts a string or a path ([Path | str]). *)
Inductive PathLike : Type :=
| OfStr (s : string)
| OfPath (p : Path).

Definition make (x : PathLike) : Path :=
  match x with
  | OfStr s => of_string s
  | OfPath p => p
  end.

Definition is_absolute (p : Path) : bool := negb (String.eqb (root p) "").

(** [p / q]: an anchored right operand replaces the left one. *)
Definition truediv (p q : Path) : Path :=
  if is_absolute q then q else mkPath (root p) (tail p ++ tail q).

(** [p / s] for a string [s]. *)
Definition truediv_str (p : Path) (s : string) : Path :=
  truediv p (of_string s).

(** [str(p)]. *)
Definition str (p : Path) : string :=
  match root p, tail p with
  | EmptyString, [] => "."
  | r, t => r ++ String.concat "/" t
  end.

Fixpoint list_eqb (l1 l2 : list string) : bool :=
  match l1, l2 with
  | [], [] => true
  | x :: l1', y :: l2' => String.eqb x y && list_eqb l1' l2'
  | _, _ => false
  end.

(** [p == q]. *)
Definition eqb (p q : Path) : bool :=
  String.eqb (root p) (root q) && list_eqb (tail p) (tail q).

Fixpoint is_prefix (l1 l2 : list string) : bool :=
  match l1, l2 with
  | [], _ => true
  | x :: l1', y :: l2' => String.eqb x y && is_prefix l1' l2'
  | _ :: _, [] => false
  end.

(** [q.is_relative_to(p)]: [q] is [p] or lies below it. *)
Definition is_relative_to (q p : Path) : bool :=
  String.eqb (root p) (root q) && is_prefix (tail p) (tail q).

(** Paths that parsing can produce. *)
Fixpoint has_sep (s : string) : bool :=
  match s with
  | EmptyString => false
  | String c s' => Ascii.eqb c sep || has_sep s'
  end.

Definition valid_name (x : string) : bool := keeps x && negb (has_sep x).

Definition valid_root (r : string) : bool :=
  String.eqb r "" || String.eqb r "/" || String.eqb r "//".

Definition wf (p : Path) : bool :=
  valid_root (root p) && forallb valid_name (tail p).

End Pathlib.

Abbreviation Path := Pathlib.Path.

Declare Scope path_scope.
Delimit Scope path_scope with path.
Bind Scope path_scope with Pathlib.Path.
Infix "/" := Pathlib.truediv : path_scope.

(** ** Python values used by the module *)

(** What [json.load] yields.  Numbers keep their literal: the module never
    computes with them. *)
Inductive json : Type :=
| JNull
| JBool (b : bool)
| JNumber (literal : string)
| JString (s : string)
| JArray (items : list json)
| JObject (members : list (string * json)).

(** A [dict] with string keys, in insertion order. *)
Definition dict (V : Type) : Type := list (string * V).

Fixpoint dict_get {V : Type} (d : dict V) (key : string) : option V :=
  match d with
  | [] => None
  | (k, v) :: d' => if String.eqb k key then Some v else dict_get d' key
  end.

Definition dict_keys {V : Type} (d : dict V) : list string := map fst d.
Definition dict_values {V : Type} (d : dict V) : list V := map snd d.

(** [d[key] = v] on an existing key keeps the key's position. *)
Fixpoint dict_set {V : Type} (d : dict V) (key : string) (v : V) : dict V :=
  match d with
  | [] => [(key, v)]
  | (k, w) :: d' =>
      if String.eqb k key then (k, v) :: d' else (k, w) :: dict_set d' key v
  end.

(** [x in l] for a list of strings. *)
Definition str_in (x : string) (l : list string) : bool :=
  existsb (String.eqb x) l.

(** ** Exceptions *)

(** One line of a pydantic [ValidationError]. *)
Inductive ErrorType : Type :=
| missing
| extra_forbidden
| model_type
| path_type
| string_type
| frozen_instance.

Record ErrorDetail : Type := mkError { loc : list string; type : ErrorType }.

(** The two messages the module formats.  Each is an f-string; the
    constructor carries the interpolated values. *)
Inductive Message : Type :=
| LayoutConfigNotFound (fpath_config : string)
| MissingPaths (count : nat) (paths : list string)
| NoSuchFile (filename : string).

Inductive Exception : Type :=
| FileNotFoundError (msg : Message)
| ValidationError (errors : list ErrorDetail)
| AttributeError (name : string)
| TypeError
| ValueError
| IsADirectoryError
| JSONDecodeError.

(** The result of a call: a value or a raised exception. *)
Inductive Outcome (A : Type) : Type :=
| Return (a : A)
| Raise (e : Exception).
Arguments Return {A} a.
Arguments Raise {A} e.

(** ** The schema: [PathInfo] and [LayoutConfig] *)

(** The three concrete entry classes.  [_is_directory] and [_is_required]
    are private attributes whose defaults are fixed by the class. *)
Inductive InfoClass : Type :=
| DpathInfo
| FpathInfo
| OptionalFpathInfo.

Record PathInfo : Type := mkPathInfo {
  info_class : InfoClass;
  path : Path;
  description : option string
}.

Definition _is_directory (i : PathInfo) : bool :=
  match info_class i with
  | DpathInfo => true
  | FpathInfo | OptionalFpathInfo => false
  end.

Definition _is_required (i : PathInfo) : bool :=
  match info_class i with
  | DpathInfo | FpathInfo => true
  | OptionalFpathInfo => false
  end.

(** [ConfigDict] is a partial mapping: an absent key means pydantic's
    default ([extra="ignore"], [frozen=False]). *)
Inductive Extra : Type := allow | ignore | forbid.

Record ConfigDict : Type := mkConfigDict {
  extra : option Extra;
  frozen : option bool
}.

Module LayoutConfig.

(** [model_config = ConfigDict(extra="forbid")]. *)
Definition model_config : ConfigDict :=
  {| extra := Some forbid; frozen := None |}.

(** The annotated fields, in declaration order. *)
Definition model_fields : list (string * InfoClass) :=
  [ ("dpath_bids", DpathInfo);
    ("dpath_derivatives", DpathInfo);
    ("dpath_sourcedata", DpathInfo);
    ("dpath_downloads", DpathInfo);
    ("dpath_proc", DpathInfo);
    ("dpath_releases", DpathInfo);
    ("dpath_containers", DpathInfo);
    ("dpath_descriptors", DpathInfo);
    ("dpath_invocations", DpathInfo);
    ("dpath_scripts", DpathInfo);
    ("dpath_pybids", DpathInfo);
    ("dpath_bids_db", DpathInfo);
    ("dpath_bids_ignore_patterns", DpathInfo);
    ("dpath_scratch", DpathInfo);
    ("dpath_raw_dicom", DpathInfo);
    ("dpath_logs", DpathInfo);
    ("dpath_tabular", DpathInfo);
    ("dpath_assessments", DpathInfo);
    ("dpath_demographics", DpathInfo);
    ("fpath_config", FpathInfo);
    ("fpath_manifest", FpathInfo);
    ("fpath_doughnut", OptionalFpathInfo);
    ("fpath_imaging_bagel", OptionalFpathInfo) ].

(** An instance: the field values in declaration order, and the two
    [cached_property] slots. *)
Record t : Type := mk {
  field_values : dict PathInfo;
  path_labels_cache : option (list string);
  path_infos_cache : option (list PathInfo)
}.

End LayoutConfig.

Abbreviation LayoutConfig := LayoutConfig.t.

(** *** Validation (pydantic) *)

Inductive Validated (A : Type) : Type :=
| Valid (a : A)
| Invalid (errors : list ErrorDetail).
Arguments Valid {A} a.
Arguments Invalid {A} errors.

(** [path: Path]: a string is parsed, anything else is rejected. *)
Definition validate_path (loc : list string) (v : option json)
  : Validated Path :=
  match v with
  | None => Invalid [mkError (loc ++ ["path"]) missing]
  | Some (JString s) => Valid (Pathlib.of_string s)
  | Some _ => Invalid [mkError (loc ++ ["path"]) path_type]
  end.

(** [description: Optional[str] = None]. *)
Definition validate_description (loc : list string) (v : option json)
  : Validated (option string) :=
  match v with
  | None => Valid None
  | Some JNull => Valid None
  | Some (JString s) => Valid (Some s)
  | Some _ => Invalid [mkError (loc ++ ["description"]) string_type]
  end.

Definition errors_of {A : Type} (v : Validated A) : list ErrorDetail :=
  match v with
  | Valid _ => []
  | Invalid es => es
  end.

(** A field of class [cls]: the input must be a mapping; keys other than
    [path] and [description] are ignored (the entry classes do not forbid
    extras), so the private attributes cannot be set from the document. *)
Definition validate_PathInfo (cls : InfoClass) (loc : list string) (v : json)
  : Validated PathInfo :=
  match v with
  | JObject members =>
      let vp := validate_path loc (dict_get members "path") in
      let vd := validate_description loc (dict_get members "description") in
      match vp, vd with
      | Valid p, Valid d => Valid (mkPathInfo cls p d)
      | _, _ => Invalid (errors_of vp ++ errors_of vd)
      end
  | _ => Invalid [mkError loc model_type]
  end.

(** The fields are validated in declaration order; every error is
    collected. *)
Fixpoint validate_fields (fields : list (string * InfoClass))
    (data : dict json) : list ErrorDetail * dict PathInfo :=
  match fields with
  | [] => ([], [])
  | (name, cls) :: rest =>
      let (errs, vals) := validate_fields rest data in
      match dict_get data name with
      | None => (mkError [name] missing :: errs, vals)
      | Some v =>
          match validate_PathInfo cls [name] v with
          | Valid i => (errs, (name, i) :: vals)
          | Invalid es => (es ++ errs, vals)
          end
      end
  end.

(** [extra="forbid"]: every key that is not a field is an error. *)
Definition extra_errors (config : ConfigDict)
    (fields : list (string * InfoClass)) (data : dict json)
  : list ErrorDetail :=
  match extra config with
  | Some forbid =>
      map (fun k => mkError [k] extra_forbidden)
          (filter (fun k => negb (str_in k (map fst fields))) (dict_keys data))
  | _ => []
  end.

(** The constructor, called with the members of the document as keyword
    arguments. *)
Definition LayoutConfig_init (data : dict json) : Outcome LayoutConfig :=
  let (errs, vals) := validate_fields LayoutConfig.model_fields data in
  match errs ++ extra_errors LayoutConfig.model_config
                             LayoutConfig.model_fields data with
  | [] => Return (LayoutConfig.mk vals None None)
  | es => Raise (ValidationError es)
  end.

(** [BaseModel.__setattr__] for a public name on a model that neither
    validates assignments nor allows extras: a frozen model rejects the
    assignment, a name that is not a field is rejected, a field is
    overwritten in place. *)
Definition LayoutConfig_setattr (c : LayoutConfig) (name : string)
    (value : PathInfo) : Outcome LayoutConfig :=
  match frozen LayoutConfig.model_config with
  | Some true => Raise (ValidationError [mkError [name] frozen_instance])
  | _ =>
      if str_in name (map fst LayoutConfig.model_fields)
      then Return (LayoutConfig.mk
                     (dict_set (LayoutConfig.field_values c) name value)
                     (LayoutConfig.path_labels_cache c)
                     (LayoutConfig.path_infos_cache c))
      else Raise ValueError
  end.

(** *** Derived views of the schema *)

(** [model_dump()]: one entry per field, in declaration order. *)
Inductive Dumped : Type :=
| DumpedPath (p : Path)
| DumpedStr (s : string)
| DumpedNone.

Definition PathInfo_dump (i : PathInfo) : dict Dumped :=
  [ ("path", DumpedPath (path i));
    ("description", match description i with
                    | Some s => DumpedStr s
                    | None => DumpedNone
                    end) ].

Definition model_dump (c : LayoutConfig) : dict (dict Dumped) :=
  map (fun kv => (fst kv, PathInfo_dump (snd kv))) (LayoutConfig.field_values c).

(** [path_labels] ([cached_property]): computed on first access, stored in
    the instance, read back afterwards. *)
Definition path_labels (c : LayoutConfig) : list string * LayoutConfig :=
  match LayoutConfig.path_labels_cache c with
  | Some labels => (labels, c)
  | None =>
      let labels := dict_keys (model_dump c) in
      (labels, LayoutConfig.mk (LayoutConfig.field_values c) (Some labels)
                               (LayoutConfig.path_infos_cache c))
  end.

(** [get_path_info(path_label)], that is [getattr(self, path_label)],
    for the names that hold an entry: the fields.  On the name of a field
    [getattr] reads the instance, and the resolver calls the method with
    labels only.  A name that is no field gives [AttributeError] here, as
    [getattr] does for a name the object does not have; the other
    attributes that a model object has ([path_labels], [path_infos], the
    methods of [BaseModel]) are not entries and are left out of the
    result type. *)
Definition get_path_info (c : LayoutConfig) (path_label : string)
  : Outcome PathInfo :=
  match dict_get (LayoutConfig.field_values c) path_label with
  | Some i => Return i
  | None => Raise (AttributeError path_label)
  end.

Fixpoint getattr_each (c : LayoutConfig) (labels : list string)
  : Outcome (list PathInfo) :=
  match labels with
  | [] => Return []
  | label :: rest =>
      match get_path_info c label with
      | Raise e => Raise e
      | Return i =>
          match getattr_each c rest with
          | Raise e => Raise e
          | Return infos => Return (i :: infos)
          end
      end
  end.

(** [path_infos] ([cached_property]). *)
Definition path_infos (c : LayoutConfig)
  : Outcome (list PathInfo) * LayoutConfig :=
  match LayoutConfig.path_infos_cache c with
  | Some infos => (Return infos, c)
  | None =>
      let (labels, c1) := path_labels c in
      match getattr_each c1 labels with
      | Raise e => (Raise e, c1)
      | Return infos =>
          (Return infos,
           LayoutConfig.mk (LayoutConfig.field_values c1)
                           (LayoutConfig.path_labels_cache c1) (Some infos))
      end
  end.

(** ** The file system *)

Inductive FileContent : Type :=
| JsonDocument (document : json)
| NotJson.

Inductive Node : Type :=
| Directory
| File (content : FileContent).

Definition FileSystem : Type := Path -> option Node.

(** [p.exists()]. *)
Definition Path_exists (fs : FileSystem) (p : Path) : bool :=
  match fs p with
  | Some _ => true
  | None => false
  end.

(** Modelled from the spec: [nipoppy.utils.load_json], the document loader,
    which "reads the structured document from disk into an in-memory
    mapping"; a malformed document and an I/O failure are its own error
    modes. *)
Definition load_json (fs : FileSystem) (fpath : Path) : Outcome json :=
  match fs fpath with
  | Some (File (JsonDocument document)) => Return document
  | Some (File NotJson) => Raise JSONDecodeError
  | Some Directory => Raise IsADirectoryError
  | None => Raise (FileNotFoundError (NoSuchFile (Pathlib.str fpath)))
  end.

(** ** The resolver: [DatasetLayout] *)

Module DatasetLayout.

(** The instance attributes set by [__init__], and one slot per
    [cached_property] of the class. *)
Record t : Type := mk {
  dpath_root : Path;
  fpath_spec : Path;
  config : LayoutConfig;
  dname_pipeline_work : string;
  dname_pipeline_output : string;
  dpaths_cache : option (list Path);
  fpaths_cache : option (list Path);
  dpath_descriptions_cache : option (list (Path * string))
}.

Definition set_config (l : t) (c : LayoutConfig) : t :=
  mk (dpath_root l) (fpath_spec l) c (dname_pipeline_work l)
     (dname_pipeline_output l) (dpaths_cache l) (fpaths_cache l)
     (dpath_descriptions_cache l).

Definition set_dpaths (l : t) (v : list Path) : t :=
  mk (dpath_root l) (fpath_spec l) (config l) (dname_pipeline_work l)
     (dname_pipeline_output l) (Some v) (fpaths_cache l)
     (dpath_descriptions_cache l).

Definition set_fpaths (l : t) (v : list Path) : t :=
  mk (dpath_root l) (fpath_spec l) (config l) (dname_pipeline_work l)
     (dname_pipeline_output l) (dpaths_cache l) (Some v)
     (dpath_descriptions_cache l).

Definition set_dpath_descriptions (l : t) (v : list (Path * string)) : t :=
  mk (dpath_root l) (fpath_spec l) (config l) (dname_pipeline_work l)
     (dname_pipeline_output l) (dpaths_cache l) (fpaths_cache l) (Some v).

End DatasetLayout.

Abbreviation DatasetLayout := DatasetLayout.t.

(** Methods run against the object and may fill its caches: a computation
    takes the object and gives back an outcome and the object afterwards. *)
Definition M (A : Type) : Type := DatasetLayout -> Outcome A * DatasetLayout.

Definition ret {A : Type} (a : A) : M A := fun l => (Return a, l).

Definition raise {A : Type} (e : Exception) : M A := fun l => (Raise e, l).

Definition bind {A B : Type} (m : M A) (k : A -> M B) : M B :=
  fun l =>
    match m l with
    | (Return a, l') => k a l'
    | (Raise e, l') => (Raise e, l')
    end.

Definition read {A : Type} (f : DatasetLayout -> A) : M A :=
  fun l => (Return (f l), l).

Definition lift {A : Type} (o : Outcome A) : M A := fun l => (o, l).

Declare Scope layout_scope.
Delimit Scope layout_scope with layout.
Notation "x <- m ;; k" := (bind m (fun x => k))
  (at level 61, m at next level, right associativity) : layout_scope.
Local Open Scope layout_scope.

(** [self.config.path_labels] and [self.config.path_infos]: the caches they
    fill belong to the schema object held by the resolver. *)
Definition config_path_labels : M (list string) :=
  fun l =>
    let (labels, c) := path_labels (DatasetLayout.config l) in
    (Return labels, DatasetLayout.set_config l c).

Definition config_path_infos : M (list PathInfo) :=
  fun l =>
    let (r, c) := path_infos (DatasetLayout.config l) in
    (r, DatasetLayout.set_config l c).

(** What attribute lookup on the resolver can give back. *)
Inductive Value : Type :=
| VPath (p : Path)
| VStr (s : string)
| VConfig (c : LayoutConfig)
| VPaths (paths : list Path)
| VDescriptions (descriptions : list (Path * string))
| VMethod (name : string)
| VInherited (name : string).

(** The left operand of [/] must be a path. *)
Definition as_path (v : Value) : Outcome Path :=
  match v with
  | VPath p => Return p
  | _ => Raise TypeError
  end.

(** ** Sequences of calls *)

(** The calls a client can make on a resolver.  The two calls that look
    at the disk take the file system as it is at that moment. *)
Inductive Op : Type :=
| Getattr (name : string)
| GetFullPath (path : Pathlib.PathLike)
| GetPaths (directory include_optional : bool)
| FindMissingPaths (fs : FileSystem)
| Validate (fs : FileSystem)
| GetDpathPipeline (pipeline_name pipeline_version : string)
| GetDpathPipelineWork (pipeline_name pipeline_version : string)
                       (participant session : option string)
| GetDpathPipelineOutput (pipeline_name pipeline_version : string)
| GetDpathBidsDb (pipeline_name pipeline_version : string)
                 (participant session : option string).

(** ** A dataset on disk *)

(** An instance of what the package provides around the module: a base
    class that adds nothing to the attributes of [object], a tag formatter
    that joins its components with dashes, and a default document that
    gives every label a path and a description. *)
Definition example_Base (name : string) : bool :=
  str_in name ["__class__"; "__dict__"; "__repr__"; "__str__"].

Definition example_tag (pipeline_name pipeline_version : string)
    (participant session : option string) : string :=
  String.concat "-"
    ([pipeline_name; pipeline_version]
     ++ match participant with Some p => [p] | None => [] end
     ++ match session with Some s => [s] | None => [] end).

Definition example_default : Pathlib.PathLike :=
  Pathlib.OfStr "/opt/nipoppy/data/layouts/layout-default.json".

Definition example_entry (relative : string) : json :=
  JObject [("path", JString relative);
           ("description", JString ("Location of " ++ relative)%string)].

Definition example_document : dict json :=
  [ ("dpath_bids", example_entry "bids");
    ("dpath_derivatives", example_entry "derivatives");
    ("dpath_sourcedata", example_entry "sourcedata");
    ("dpath_downloads", example_entry "downloads");
    ("dpath_proc", example_entry "proc");
    ("dpath_releases", example_entry "releases");
    ("dpath_containers", example_entry "proc/containers");
    ("dpath_descriptors", example_entry "proc/descriptors");
    ("dpath_invocations", example_entry "proc/invocations");
    ("dpath_scripts", example_entry "proc/scripts");
    ("dpath_pybids", example_entry "proc/pybids");
    ("dpath_bids_db", example_entry "proc/pybids/bids_db");
    ("dpath_bids_ignore_patterns", example_entry "proc/pybids/ignore_patterns");
    ("dpath_scratch", example_entry "scratch");
    ("dpath_raw_dicom", example_entry "scratch/raw_dicom");
    ("dpath_logs", example_entry "scratch/logs");
    ("dpath_tabular", example_entry "tabular");
    ("dpath_assessments", example_entry "tabular/assessments");
    ("dpath_demographics", example_entry "tabular/demographics");
    ("fpath_config", example_entry "proc/global_configs.json");
    ("fpath_manifest", example_entry "tabular/manifest.csv");
    ("fpath_doughnut", example_entry "scratch/raw_dicom/doughnut.csv");
    ("fpath_imaging_bagel", example_entry "tabular/bagel.csv") ].

(** A disk that holds the default document and nothing else: the dataset
    root does not exist. *)
Definition example_disk : FileSystem :=
  fun p =>
    if Pathlib.eqb p (Pathlib.make example_default)
    then Some (File (JsonDocument (JObject example_document)))
    else None.

(** A disk on which every path exists. *)
Definition full_disk : FileSystem := fun _ => Some Directory.

Definition example_root : Pathlib.PathLike := Pathlib.OfStr "/data/study1".

(** The resolver that construction yields for [/data/study1] with the
    default document. *)
Definition example_layout : DatasetLayout :=
  DatasetLayout.mk
    (Pathlib.make example_root) (Pathlib.make example_default)
    (LayoutConfig.mk
       (snd (validate_fields LayoutConfig.model_fields example_document))
       None None)
    "work" "output" None None None.

(** Some calls made before the one of interest. *)
Definition example_calls : list Op :=
  [ Getattr "dpaths"; Validate example_disk; Getattr "dpath_bids";
    GetDpathPipelineWork "fmriprep" "23.1.3" (Some "sub-01") (Some "ses-1");
    GetPaths false true; Getattr "not_a_real_label" ].

(** A base class that defines an attribute with the name of a label. *)
Definition shadowing_Base (name : string) : bool :=
  String.eqb name "dpath_bids".

(** A disk on which every path exists but the manifest. *)
Definition disk_without_manifest : FileSystem :=
  fun p =>
    if Pathlib.eqb p (Pathlib.of_string "/data/study1/tabular/manifest.csv")
    then None
    else Some Directory.

(** The same document as [example_document], with a comment added to the
    entry of [dpath_bids]. *)
Definition commented_document : dict json :=
  dict_set example_document "dpath_bids"
    (JObject ([("path", JString "bids");
               ("description", JString "Location of bids")]
              ++ [("comment", JString "raw data")])).

(** ** The methods *)

Section Resolver.

(** Code of the package that the module imports: the names that the base
    class [nipoppy.base.Base] (and [object]) provide, the tag formatter
    [nipoppy.utils.get_pipeline_tag], and the location of the packaged
    default schema document. *)
Variable Base_attribute : string -> bool.
Variable get_pipeline_tag :
  string -> string -> option string -> option string -> string.
Variable FPATH_DEFAULT_LAYOUT : Pathlib.PathLike.

(** [DatasetLayout.__init__].  The annotated statements
    [self.dpath_bids: Path] ... [self.fpath_imaging_bagel: Path] declare
    types only and bind nothing. *)
Definition DatasetLayout_init (fs : FileSystem)
    (dpath_root : Pathlib.PathLike) (fpath_config : option Pathlib.PathLike)
  : Outcome DatasetLayout :=
  let fpath_config :=
    match fpath_config with
    | None => FPATH_DEFAULT_LAYOUT
    | Some given => given
    end in
  let fpath_config := Pathlib.make fpath_config in
  if negb (Path_exists fs fpath_config) then
    Raise (FileNotFoundError (LayoutConfigNotFound (Pathlib.str fpath_config)))
  else
    match load_json fs fpath_config with
    | Raise e => Raise e
    | Return (JObject data) =>
        match LayoutConfig_init data with
        | Raise e => Raise e
        | Return config =>
            Return (DatasetLayout.mk (Pathlib.make dpath_root) fpath_config
                      config "work" "output" None None None)
        end
    | Return _ => Raise TypeError
    end.

(** [get_full_path]. *)
Definition get_full_path (path : Pathlib.PathLike) : M Path :=
  read (fun l => (DatasetLayout.dpath_root l / Pathlib.make path)%path).

(** [get_paths]. *)
Definition get_paths (directory include_optional : bool) : M (list Path) :=
  infos <- config_path_infos ;;
  read (fun l =>
    map (fun path_info =>
           (DatasetLayout.dpath_root l / path path_info)%path)
        (filter (fun path_info =>
                   Bool.eqb directory (_is_directory path_info)
                   && (include_optional || _is_required path_info))
                infos)).

(** A [cached_property]: the stored value if there is one, otherwise the
    computed value, which is then stored. *)
Definition cached_property {A : Type} (slot : DatasetLayout -> option A)
    (store : DatasetLayout -> A -> DatasetLayout) (compute : M A) : M A :=
  fun l =>
    match slot l with
    | Some v => (Return v, l)
    | None =>
        match compute l with
        | (Return v, l') => (Return v, store l' v)
        | (Raise e, l') => (Raise e, l')
        end
    end.

Definition dpaths : M (list Path) :=
  cached_property DatasetLayout.dpaths_cache DatasetLayout.set_dpaths
                  (get_paths true false).

Definition fpaths : M (list Path) :=
  cached_property DatasetLayout.fpaths_cache DatasetLayout.set_fpaths
                  (get_paths false false).

Definition describe (root : Path) (infos : list PathInfo)
  : list (Path * string) :=
  flat_map (fun path_info =>
              if _is_directory path_info then
                match description path_info with
                | Some d => [((root / path path_info)%path, d)]
                | None => []
                end
              else [])
           infos.

Definition dpath_descriptions : M (list (Path * string)) :=
  cached_property DatasetLayout.dpath_descriptions_cache
                  DatasetLayout.set_dpath_descriptions
                  (infos <- config_path_infos ;;
                   read (fun l => describe (DatasetLayout.dpath_root l) infos)).

(** The instance dictionary. *)
Definition instance_dict (l : DatasetLayout) (name : string) : option Value :=
  if name =? "dpath_root" then Some (VPath (DatasetLayout.dpath_root l))
  else if name =? "fpath_spec" then Some (VPath (DatasetLayout.fpath_spec l))
  else if name =? "config" then Some (VConfig (DatasetLayout.config l))
  else if name =? "dname_pipeline_work"
    then Some (VStr (DatasetLayout.dname_pipeline_work l))
  else if name =? "dname_pipeline_output"
    then Some (VStr (DatasetLayout.dname_pipeline_output l))
  else if name =? "dpaths"
    then option_map VPaths (DatasetLayout.dpaths_cache l)
  else if name =? "fpaths"
    then option_map VPaths (DatasetLayout.fpaths_cache l)
  else if name =? "dpath_descriptions"
    then option_map VDescriptions (DatasetLayout.dpath_descriptions_cache l)
  else None.

(** The functions defined in the class body. *)
Definition methods : list string :=
  [ "__init__"; "get_full_path"; "__getattribute__"; "get_paths";
    "_find_missing_paths"; "validate"; "get_dpath_pipeline";
    "get_dpath_pipeline_work"; "get_dpath_pipeline_output";
    "get_dpath_bids_db" ].

(** [super().__getattribute__(name)]: the instance dictionary, then the
    class, then what is inherited. *)
Definition object_getattribute (name : string) : M Value :=
  fun l =>
    match instance_dict l name with
    | Some v => (Return v, l)
    | None =>
        if name =? "dpaths" then (v <- dpaths ;; ret (VPaths v)) l
        else if name =? "fpaths" then (v <- fpaths ;; ret (VPaths v)) l
        else if name =? "dpath_descriptions"
          then (v <- dpath_descriptions ;; ret (VDescriptions v)) l
        else if str_in name methods then (Return (VMethod name), l)
        else if Base_attribute name then (Return (VInherited name), l)
        else (Raise (AttributeError name), l)
    end.

(** [DatasetLayout.__getattribute__]: only an [AttributeError] of the
    ordinary lookup reaches the schema. *)
Definition __getattribute__ (name : string) : M Value :=
  fun l =>
    match object_getattribute name l with
    | (Raise (AttributeError a), l1) =>
        (labels <- config_path_labels ;;
         if str_in name labels then
           info <- (fun l => (get_path_info (DatasetLayout.config l) name, l)) ;;
           p <- get_full_path (Pathlib.OfPath (path info)) ;;
           ret (VPath p)
         else raise (AttributeError a)) l1
    | other => other
    end.

(** [_find_missing_paths]: a comprehension over the directories, then a
    loop that appends the files. *)
Definition _find_missing_paths (fs : FileSystem) : M (list Path) :=
  ds <- dpaths ;;
  let missing := filter (fun dpath => negb (Path_exists fs dpath)) ds in
  fs_ <- fpaths ;;
  ret (fold_left (fun missing fpath =>
                    if negb (Path_exists fs fpath)
                    then missing ++ [fpath] else missing)
                 fs_ missing).

(** [validate]. *)
Definition validate (fs : FileSystem) : M bool :=
  missing_paths <- _find_missing_paths fs ;;
  if negb (length missing_paths =? 0)%nat then
    raise (FileNotFoundError
             (MissingPaths (length missing_paths)
                           (map Pathlib.str missing_paths)))
  else ret true.

(** [get_dpath_pipeline]. *)
Definition get_dpath_pipeline (pipeline_name pipeline_version : string)
  : M Path :=
  v <- __getattribute__ "dpath_derivatives" ;;
  d <- lift (as_path v) ;;
  ret (d / Pathlib.of_string pipeline_name
         / Pathlib.of_string pipeline_version)%path.

(** [get_dpath_pipeline_work]. *)
Definition get_dpath_pipeline_work (pipeline_name pipeline_version : string)
    (participant session : option string) : M Path :=
  d <- get_dpath_pipeline pipeline_name pipeline_version ;;
  w <- read DatasetLayout.dname_pipeline_work ;;
  ret (d / Pathlib.of_string w
         / Pathlib.of_string
             (get_pipeline_tag pipeline_name pipeline_version
                               participant session))%path.

(** [get_dpath_pipeline_output]. *)
Definition get_dpath_pipeline_output (pipeline_name pipeline_version : string)
  : M Path :=
  d <- get_dpath_pipeline pipeline_name pipeline_version ;;
  o <- read DatasetLayout.dname_pipeline_output ;;
  ret (d / Pathlib.of_string o)%path.

(** [get_dpath_bids_db]. *)
Definition get_dpath_bids_db (pipeline_name pipeline_version : string)
    (participant session : option string) : M Path :=
  let dname := get_pipeline_tag pipeline_name pipeline_version
                                participant session in
  v <- __getattribute__ "dpath_bids_db" ;;
  d <- lift (as_path v) ;;
  ret (d / Pathlib.of_string dname)%path.

(** *** Running a sequence of calls *)

(** The object after a call, whatever the call returned or raised. *)
Definition after {A : Type} (m : M A) (l : DatasetLayout) : DatasetLayout :=
  snd (m l).

Definition step (l : DatasetLayout) (op : Op) : DatasetLayout :=
  match op with
  | Getattr name => after (__getattribute__ name) l
  | GetFullPath path => after (get_full_path path) l
  | GetPaths d o => after (get_paths d o) l
  | FindMissingPaths fs => after (_find_missing_paths fs) l
  | Validate fs => after (validate fs) l
  | GetDpathPipeline n v => after (get_dpath_pipeline n v) l
  | GetDpathPipelineWork n v p s => after (get_dpath_pipeline_work n v p s) l
  | GetDpathPipelineOutput n v => after (get_dpath_pipeline_output n v) l
  | GetDpathBidsDb n v p s => after (get_dpath_bids_db n v p s) l
  end.

Definition run (ops : list Op) (l : DatasetLayout) : DatasetLayout :=
  fold_left step ops l.

(** *** What the calls are compared with *)

(** The schema entries, in declaration order. *)
Definition entries (l : DatasetLayout) : list PathInfo :=
  dict_values (LayoutConfig.field_values (DatasetLayout.config l)).

Definition labels (l : DatasetLayout) : list string :=
  dict_keys (LayoutConfig.field_values (DatasetLayout.config l)).

(** The entries of one kind, required ones only unless optional ones are
    asked for. *)
Definition select (directory include_optional : bool)
    (infos : list PathInfo) : list PathInfo :=
  filter (fun i => Bool.eqb directory (_is_directory i)
                   && (include_optional || _is_required i)) infos.

(** The root joined with the relative path of an entry. *)
Definition resolved (l : DatasetLayout) (i : PathInfo) : Path :=
  (DatasetLayout.dpath_root l / path i)%path.

(** The loaded schema has exactly the declared fields, each of its
    declared class. *)
Definition conforms (c : LayoutConfig) : Prop :=
  map (fun kv => (fst kv, info_class (snd kv))) (LayoutConfig.field_values c)
  = LayoutConfig.model_fields.

(** A cache slot is empty or holds the value it is meant to hold. *)
Definition holds {A : Type} (slot : option A) (v : A) : Prop :=
  slot = None \/ slot = Some v.

Definition config_cached (c : LayoutConfig) : Prop :=
  holds (LayoutConfig.path_labels_cache c)
        (dict_keys (LayoutConfig.field_values c))
  /\ holds (LayoutConfig.path_infos_cache c)
           (dict_values (LayoutConfig.field_values c)).

Definition cached (l : DatasetLayout) : Prop :=
  config_cached (DatasetLayout.config l)
  /\ holds (DatasetLayout.dpaths_cache l)
           (map (resolved l) (select true false (entries l)))
  /\ holds (DatasetLayout.fpaths_cache l)
           (map (resolved l) (select false false (entries l)))
  /\ holds (DatasetLayout.dpath_descriptions_cache l)
           (describe (DatasetLayout.dpath_root l) (entries l)).

Definition good (l : DatasetLayout) : Prop :=
  conforms (DatasetLayout.config l) /\ cached l.

(** The part of the object that no call is meant to change. *)
Definition core (l : DatasetLayout)
  : Path * Path * dict PathInfo * string * string :=
  (DatasetLayout.dpath_root l, DatasetLayout.fpath_spec l,
   LayoutConfig.field_values (DatasetLayout.config l),
   DatasetLayout.dname_pipeline_work l,
   DatasetLayout.dname_pipeline_output l).

(** The names that ordinary lookup finds on a resolver: what [__init__]
    binds, the cached properties and the functions of the class, and
    whatever is inherited. *)
Definition instance_attributes : list string :=
  [ "dpath_root"; "fpath_spec"; "config"; "dname_pipeline_work";
    "dname_pipeline_output" ].

Definition cached_properties : list string :=
  [ "dpaths"; "fpaths"; "dpath_descriptions" ].

Definition defined_here (name : string) : bool :=
  str_in name instance_attributes || str_in name cached_properties
  || str_in name methods.

Definition concrete (name : string) : bool :=
  defined_here name || Base_attribute name.

(** The base class defines none of the schema labels. *)
Definition Base_free_of_labels : Prop :=
  forall name, In name (map fst LayoutConfig.model_fields) ->
               Base_attribute name = false.

(** A document entry of the expected shape: a mapping whose [path] is a
    string and whose [description], if present, is a string or null. *)
Definition well_shaped (v : json) : bool :=
  match v with
  | JObject members =>
      match dict_get members "path" with
      | Some (JString _) =>
          match dict_get members "description" with
          | None | Some JNull | Some (JString _) => true
          | Some _ => false
          end
      | _ => false
      end
  | _ => false
  end.

(** A document that declares every label with a well-shaped entry and
    declares nothing else. *)
Definition well_formed_document (data : dict json) : bool :=
  forallb (fun name => match dict_get data name with
                       | Some v => well_shaped v
                       | None => false
                       end)
          (map fst LayoutConfig.model_fields)
  && forallb (fun k => str_in k (map fst LayoutConfig.model_fields))
             (dict_keys data).

(** The paths of a list that are not on disk, in the order of the list. *)
Definition absent (fs : FileSystem) (paths : list Path) : list Path :=
  filter (fun p => negb (Path_exists fs p)) paths.

(** The resolved paths of the required directories and of the required
    files, each in declaration order. *)
Definition required_dpaths (l : DatasetLayout) : list Path :=
  map (resolved l) (select true false (entries l)).

Definition required_fpaths (l : DatasetLayout) : list Path :=
  map (resolved l) (select false false (entries l)).

(** The listing as the specification words it: the labelled entries
    of the schema, filtered by kind and by requiredness, each looked up
    on the resolver by its label. *)
Definition listPaths (l : DatasetLayout) (directory includeOptional : bool)
  : list (Outcome Value) :=
  map (fun kv => fst (__getattribute__ (fst kv) l))
      (filter (fun kv => Bool.eqb directory (_is_directory (snd kv))
                         && (includeOptional || _is_required (snd kv)))
              (LayoutConfig.field_values (DatasetLayout.config l))).

(** The path of the schema document a construction reads. *)
Definition document_path (fpath_config : option Pathlib.PathLike) : Path :=
  Pathlib.make match fpath_config with
               | None => FPATH_DEFAULT_LAYOUT
               | Some given => given
               end.

(** A schema that no assignment can change. *)
Definition immutable (c : LayoutConfig) : Prop :=
  forall (name : string) (value : PathInfo) (c' : LayoutConfig),
    LayoutConfig_setattr c name value = Return c' ->
    LayoutConfig.field_values c' = LayoutConfig.field_values c.



(** A duplicate-free list of strings, decided by computation. *)
Fixpoint distinct (l : list string) : bool :=
  match l with
  | [] => true
  | x :: l' => negb (str_in x l') && distinct l'
  end.

(** The description listing with a filter on required entries added. *)
Definition describe_required (root : Path) (infos : list PathInfo)
  : list (Path * string) :=
  describe root (filter _is_required infos).

(** One list is obtained from another by leaving elements out, the order
    of the others kept. *)
Inductive Subsequence {A : Type} : list A -> list A -> Prop :=
| Subsequence_nil : Subsequence [] []
| Subsequence_skip (x : A) (l l' : list A) :
    Subsequence l l' -> Subsequence l (x :: l')
| Subsequence_keep (x : A) (l l' : list A) :
    Subsequence l l' -> Subsequence (x :: l) (x :: l').

(** ** Properties *)

(** *** Dictionaries *)

Lemma str_in_true (x : string) (l : list string) :
  str_in x l = true <-> In x l.
Proof.
  unfold str_in. rewrite existsb_exists. split.
  - intros [y [Hy Heq]]. apply String.eqb_eq in Heq. now subst.
  - intros H. exists x. split; [assumption | apply String.eqb_refl].
Qed.

Lemma str_in_false (x : string) (l : list string) :
  str_in x l = false <-> ~ In x l.
Proof.
  rewrite <- str_in_true. destruct (str_in x l); split; intros; easy.
Qed.

Lemma dict_get_In {V : Type} (d : dict V) (k : string) (v : V) :
  NoDup (dict_keys d) -> In (k, v) d -> dict_get d k = Some v.
Proof.
  induction d as [| [k0 v0] d IH]; simpl; intros Hnd Hin; [contradiction |].
  inversion Hnd as [| ? ? Hnotin Hnd']; subst.
  destruct Hin as [Heq | Hin].
  - inversion Heq; subst. now rewrite String.eqb_refl.
  - destruct (String.eqb_spec k0 k) as [-> | _].
    + exfalso. apply Hnotin. change (In (fst (k, v)) (map fst d)).
      now apply in_map.
    + now apply IH.
Qed.

Lemma dict_get_Some_In {V : Type} (d : dict V) (k : string) (v : V) :
  dict_get d k = Some v -> In (k, v) d.
Proof.
  induction d as [| [k0 v0] d IH]; simpl; [discriminate |].
  destruct (String.eqb_spec k0 k) as [-> | _].
  - intros [= ->]. now left.
  - intros H. right. now apply IH.
Qed.

Lemma dict_get_None {V : Type} (d : dict V) (k : string) :
  dict_get d k = None <-> ~ In k (dict_keys d).
Proof.
  induction d as [| [k0 v0] d IH]; simpl; [tauto |].
  destruct (String.eqb_spec k0 k) as [-> | Hne].
  - split; [discriminate | intros H; exfalso; apply H; now left].
  - rewrite IH. split; [intros H [Heq | Hin]; auto | intros H Hin; auto].
Qed.

Lemma distinct_NoDup (l : list string) : distinct l = true -> NoDup l.
Proof.
  induction l as [| x l IH]; simpl; intros H; [constructor |].
  apply andb_true_iff in H as [Hx Hl]. constructor.
  - apply str_in_false. now destruct (str_in x l).
  - now apply IH.
Qed.

(** *** The loaded schema *)

Lemma conforms_keys (c : LayoutConfig) :
  conforms c ->
  dict_keys (LayoutConfig.field_values c) = map fst LayoutConfig.model_fields.
Proof.
  unfold conforms, dict_keys. intros <-. rewrite map_map. reflexivity.
Qed.

Lemma model_fields_NoDup : NoDup (map fst LayoutConfig.model_fields).
Proof. apply distinct_NoDup. vm_compute. reflexivity. Qed.

Lemma conforms_NoDup (c : LayoutConfig) :
  conforms c -> NoDup (dict_keys (LayoutConfig.field_values c)).
Proof. intros H. rewrite (conforms_keys c H). apply model_fields_NoDup. Qed.

Lemma getattr_each_suffix (c : LayoutConfig) (d : dict PathInfo) :
  (forall k v, In (k, v) d ->
               dict_get (LayoutConfig.field_values c) k = Some v) ->
  getattr_each c (dict_keys d) = Return (dict_values d).
Proof.
  induction d as [| [k v] d IH]; simpl; intros H; [reflexivity |].
  unfold get_path_info. rewrite (H k v (or_introl eq_refl)).
  rewrite IH; [reflexivity |]. intros k' v' Hin. apply H. now right.
Qed.

Lemma getattr_each_keys (c : LayoutConfig) :
  NoDup (dict_keys (LayoutConfig.field_values c)) ->
  getattr_each c (dict_keys (LayoutConfig.field_values c))
  = Return (dict_values (LayoutConfig.field_values c)).
Proof.
  intros Hnd. apply getattr_each_suffix. intros k v Hin.
  now apply dict_get_In.
Qed.

Lemma model_dump_keys (c : LayoutConfig) :
  dict_keys (model_dump c) = dict_keys (LayoutConfig.field_values c).
Proof. unfold model_dump, dict_keys. rewrite map_map. reflexivity. Qed.

(** [path_labels] gives the field names in declaration order and only
    fills its own cache. *)
Lemma path_labels_spec (c : LayoutConfig) :
  config_cached c ->
  fst (path_labels c) = dict_keys (LayoutConfig.field_values c)
  /\ LayoutConfig.field_values (snd (path_labels c))
     = LayoutConfig.field_values c
  /\ config_cached (snd (path_labels c)).
Proof.
  intros [Hl Hi]. unfold path_labels.
  destruct (LayoutConfig.path_labels_cache c) as [ls |] eqn:E.
  - destruct Hl as [Hl | Hl]; [discriminate |]. inversion Hl; subst.
    simpl. repeat split; [right; assumption | assumption].
  - simpl. rewrite model_dump_keys.
    repeat split; [right; reflexivity | assumption].
Qed.

(** [path_infos] gives the entries in declaration order. *)
Lemma path_infos_spec (c : LayoutConfig) :
  NoDup (dict_keys (LayoutConfig.field_values c)) ->
  config_cached c ->
  fst (path_infos c) = Return (dict_values (LayoutConfig.field_values c))
  /\ LayoutConfig.field_values (snd (path_infos c))
     = LayoutConfig.field_values c
  /\ config_cached (snd (path_infos c)).
Proof.
  intros Hnd Hc. unfold path_infos.
  destruct (LayoutConfig.path_infos_cache c) as [infos |] eqn:E.
  - destruct Hc as [Hl [Hi | Hi]]; [congruence |].
    rewrite E in Hi. inversion Hi; subst. simpl.
    repeat split; [assumption | right; assumption].
  - destruct (path_labels_spec c Hc) as [H1 [H2 [H3 H4]]].
    destruct (path_labels c) as [ls c1]. simpl in *. subst ls.
    rewrite <- H2. rewrite getattr_each_keys by (rewrite H2; assumption).
    simpl. repeat split; [assumption | right; reflexivity].
Qed.

(** *** Calls keep the object good *)

Definition preserves {A : Type} (m : M A) : Prop :=
  forall l, good l -> good (after m l) /\ core (after m l) = core l.

Lemma core_fields (l l' : DatasetLayout) :
  core l' = core l ->
  DatasetLayout.dpath_root l' = DatasetLayout.dpath_root l
  /\ LayoutConfig.field_values (DatasetLayout.config l')
     = LayoutConfig.field_values (DatasetLayout.config l)
  /\ DatasetLayout.dname_pipeline_work l' = DatasetLayout.dname_pipeline_work l
  /\ DatasetLayout.dname_pipeline_output l'
     = DatasetLayout.dname_pipeline_output l.
Proof. unfold core. intros H. inversion H. auto. Qed.

Lemma core_entries (l l' : DatasetLayout) :
  core l' = core l -> entries l' = entries l.
Proof.
  intros H. apply core_fields in H as [_ [H _]]. unfold entries. now rewrite H.
Qed.

Lemma core_resolved (l l' : DatasetLayout) :
  core l' = core l -> resolved l' = resolved l.
Proof.
  intros H. apply core_fields in H as [H _]. unfold resolved. now rewrite H.
Qed.

Lemma preserves_ret {A : Type} (a : A) : preserves (ret a).
Proof. intros l Hl. split; [exact Hl | reflexivity]. Qed.

Lemma preserves_raise {A : Type} (e : Exception) : preserves (@raise A e).
Proof. intros l Hl. split; [exact Hl | reflexivity]. Qed.

Lemma preserves_read {A : Type} (f : DatasetLayout -> A) : preserves (read f).
Proof. intros l Hl. split; [exact Hl | reflexivity]. Qed.

Lemma preserves_lift {A : Type} (o : Outcome A) : preserves (lift o).
Proof. intros l Hl. split; [exact Hl | reflexivity]. Qed.

Lemma preserves_bind {A B : Type} (m : M A) (k : A -> M B) :
  preserves m -> (forall a, preserves (k a)) -> preserves (bind m k).
Proof.
  intros Hm Hk l Hl. destruct (Hm l Hl) as [Hg Hc].
  unfold after, bind in *. destruct (m l) as [[a | e] l1]; simpl in *.
  - destruct (Hk a l1 Hg) as [Hg' Hc']. unfold after in *.
    split; [assumption | congruence].
  - split; assumption.
Qed.

(** Replacing the schema object by one with the same fields and good
    caches keeps the resolver good. *)
Lemma good_set_config (l : DatasetLayout) (c : LayoutConfig) :
  good l ->
  LayoutConfig.field_values c
  = LayoutConfig.field_values (DatasetLayout.config l) ->
  config_cached c ->
  good (DatasetLayout.set_config l c)
  /\ core (DatasetLayout.set_config l c) = core l.
Proof.
  intros [Hconf [_ [Hd [Hf Hdesc]]]] Hfv Hcc.
  destruct Hcc as [Hcl Hci].
  unfold good, cached, config_cached, conforms, core, entries, resolved in *.
  simpl. rewrite Hfv in *. repeat split; assumption.
Qed.

Lemma preserves_config_path_labels : preserves config_path_labels.
Proof.
  intros l Hl. unfold after, config_path_labels.
  destruct Hl as [Hconf Hc] eqn:E. clear E.
  destruct (path_labels_spec (DatasetLayout.config l) (proj1 Hc))
    as [_ [Hfv Hcc]].
  destruct (path_labels (DatasetLayout.config l)) as [ls c]. simpl in *.
  apply good_set_config; [split; assumption | assumption | assumption].
Qed.

Lemma preserves_config_path_infos : preserves config_path_infos.
Proof.
  intros l Hl. unfold after, config_path_infos.
  destruct Hl as [Hconf Hc] eqn:E. clear E.
  destruct (path_infos_spec (DatasetLayout.config l)
              (conforms_NoDup _ Hconf) (proj1 Hc)) as [_ [Hfv Hcc]].
  destruct (path_infos (DatasetLayout.config l)) as [r c]. simpl in *.
  apply good_set_config; [split; assumption | assumption | assumption].
Qed.

Lemma config_path_labels_value (l : DatasetLayout) :
  good l -> fst (config_path_labels l) = Return (labels l).
Proof.
  intros [_ [Hc _]]. unfold config_path_labels, labels.
  destruct (path_labels_spec _ Hc) as [H _].
  destruct (path_labels (DatasetLayout.config l)). simpl in *. now subst.
Qed.

Lemma config_path_infos_value (l : DatasetLayout) :
  good l -> fst (config_path_infos l) = Return (entries l).
Proof.
  intros [Hconf [Hc _]]. unfold config_path_infos, entries.
  destruct (path_infos_spec _ (conforms_NoDup _ Hconf) Hc) as [H _].
  destruct (path_infos (DatasetLayout.config l)). simpl in *. now subst.
Qed.

(** The value of a sequence of two calls. *)
Lemma bind_value {A B : Type} (m : M A) (k : A -> M B) (l : DatasetLayout)
    (a : A) :
  fst (m l) = Return a -> bind m k l = k a (after m l).
Proof.
  unfold bind, after. destruct (m l) as [r l1]. simpl. now intros ->.
Qed.

Lemma bind_raise {A B : Type} (m : M A) (k : A -> M B) (l : DatasetLayout)
    (e : Exception) :
  fst (m l) = Raise e -> fst (bind m k l) = Raise e.
Proof.
  unfold bind. destruct (m l) as [r l1]. simpl. now intros ->.
Qed.

(** [get_paths] *)

Lemma preserves_get_paths (d o : bool) : preserves (get_paths d o).
Proof.
  apply preserves_bind; [apply preserves_config_path_infos |].
  intros infos. apply preserves_read.
Qed.

Lemma get_paths_value (d o : bool) (l : DatasetLayout) :
  good l ->
  fst (get_paths d o l) = Return (map (resolved l) (select d o (entries l))).
Proof.
  intros Hl. unfold get_paths.
  rewrite (bind_value _ _ l _ (config_path_infos_value l Hl)).
  destruct (preserves_config_path_infos l Hl) as [_ Hc].
  unfold read. simpl. apply core_fields in Hc as [Hr _].
  unfold resolved, select. now rewrite Hr.
Qed.

(** The cached properties *)

Lemma good_set_dpaths (l : DatasetLayout) :
  good l ->
  good (DatasetLayout.set_dpaths l
          (map (resolved l) (select true false (entries l))))
  /\ core (DatasetLayout.set_dpaths l
             (map (resolved l) (select true false (entries l)))) = core l.
Proof.
  intros [Hconf [Hc [Hd [Hf Hdesc]]]].
  split; [| reflexivity]. split; [exact Hconf |].
  split; [exact Hc |]. split; [right; reflexivity |].
  split; assumption.
Qed.

Lemma good_set_fpaths (l : DatasetLayout) :
  good l ->
  good (DatasetLayout.set_fpaths l
          (map (resolved l) (select false false (entries l))))
  /\ core (DatasetLayout.set_fpaths l
             (map (resolved l) (select false false (entries l)))) = core l.
Proof.
  intros [Hconf [Hc [Hd [Hf Hdesc]]]].
  split; [| reflexivity]. split; [exact Hconf |].
  split; [exact Hc |]. split; [exact Hd |].
  split; [right; reflexivity | assumption].
Qed.

Lemma good_set_dpath_descriptions (l : DatasetLayout) :
  good l ->
  good (DatasetLayout.set_dpath_descriptions l
          (describe (DatasetLayout.dpath_root l) (entries l)))
  /\ core (DatasetLayout.set_dpath_descriptions l
             (describe (DatasetLayout.dpath_root l) (entries l))) = core l.
Proof.
  intros [Hconf [Hc [Hd [Hf Hdesc]]]].
  split; [| reflexivity]. split; [exact Hconf |].
  split; [exact Hc |]. split; [exact Hd |].
  split; [exact Hf | right; reflexivity].
Qed.

(** A cached property whose computation returns [expected] behaves as the
    computation, and keeps the object good. *)
Lemma cached_property_spec {A : Type} (slot : DatasetLayout -> option A)
    (store : DatasetLayout -> A -> DatasetLayout) (compute : M A)
    (expected : DatasetLayout -> A) (l : DatasetLayout) :
  preserves compute ->
  (forall l, good l -> fst (compute l) = Return (expected l)) ->
  (forall l, good l -> holds (slot l) (expected l)) ->
  (forall l l', core l' = core l -> expected l' = expected l) ->
  (forall l, good l ->
             good (store l (expected l))
             /\ core (store l (expected l)) = core l) ->
  good l ->
  fst (cached_property slot store compute l) = Return (expected l)
  /\ good (after (cached_property slot store compute) l)
  /\ core (after (cached_property slot store compute) l) = core l.
Proof.
  intros Hp Hv Hslot Hext Hstore Hl. unfold after, cached_property.
  destruct (slot l) as [v |] eqn:E.
  - destruct (Hslot l Hl) as [H | H]; [congruence |].
    rewrite E in H. inversion H; subst. simpl. auto.
  - specialize (Hv l Hl). destruct (Hp l Hl) as [Hg Hc]. unfold after in *.
    destruct (compute l) as [r l1]. simpl in *. subst r. simpl.
    rewrite <- (Hext l l1 Hc). destruct (Hstore l1 Hg) as [Hg' Hc'].
    split; [reflexivity | split; [assumption | congruence]].
Qed.

Lemma select_ext (d o : bool) (l l' : DatasetLayout) :
  core l' = core l ->
  map (resolved l') (select d o (entries l'))
  = map (resolved l) (select d o (entries l)).
Proof.
  intros H. now rewrite (core_entries l l' H), (core_resolved l l' H).
Qed.

Lemma dpaths_spec (l : DatasetLayout) :
  good l ->
  fst (dpaths l) = Return (map (resolved l) (select true false (entries l)))
  /\ good (after dpaths l) /\ core (after dpaths l) = core l.
Proof.
  apply (cached_property_spec _ _ _
           (fun l => map (resolved l) (select true false (entries l)))).
  - apply preserves_get_paths.
  - intros l0 H. now apply get_paths_value.
  - intros l0 [_ [_ [H _]]]. exact H.
  - intros l0 l' H. now apply select_ext.
  - apply good_set_dpaths.
Qed.

Lemma fpaths_spec (l : DatasetLayout) :
  good l ->
  fst (fpaths l) = Return (map (resolved l) (select false false (entries l)))
  /\ good (after fpaths l) /\ core (after fpaths l) = core l.
Proof.
  apply (cached_property_spec _ _ _
           (fun l => map (resolved l) (select false false (entries l)))).
  - apply preserves_get_paths.
  - intros l0 H. now apply get_paths_value.
  - intros l0 [_ [_ [_ [H _]]]]. exact H.
  - intros l0 l' H. now apply select_ext.
  - apply good_set_fpaths.
Qed.

Lemma dpath_descriptions_spec (l : DatasetLayout) :
  good l ->
  fst (dpath_descriptions l)
  = Return (describe (DatasetLayout.dpath_root l) (entries l))
  /\ good (after dpath_descriptions l)
  /\ core (after dpath_descriptions l) = core l.
Proof.
  apply (cached_property_spec _ _ _
           (fun l => describe (DatasetLayout.dpath_root l) (entries l))).
  - apply preserves_bind; [apply preserves_config_path_infos |].
    intros infos. apply preserves_read.
  - intros l0 H.
    rewrite (bind_value _ _ l0 _ (config_path_infos_value l0 H)).
    destruct (preserves_config_path_infos l0 H) as [_ Hc].
    unfold read. simpl. apply core_fields in Hc as [Hr _]. now rewrite Hr.
  - intros l0 [_ [_ [_ [_ H]]]]. exact H.
  - intros l0 l' H. rewrite (core_entries l0 l' H).
    apply core_fields in H as [Hr _]. now rewrite Hr.
  - apply good_set_dpath_descriptions.
Qed.

Lemma preserves_dpaths : preserves dpaths.
Proof. intros l Hl. now destruct (dpaths_spec l Hl) as [_ H]. Qed.

Lemma preserves_fpaths : preserves fpaths.
Proof. intros l Hl. now destruct (fpaths_spec l Hl) as [_ H]. Qed.

Lemma preserves_dpath_descriptions : preserves dpath_descriptions.
Proof. intros l Hl. now destruct (dpath_descriptions_spec l Hl) as [_ H]. Qed.

(** *** Attribute lookup *)

Lemma label_not_defined_here (name : string) :
  In name (map fst LayoutConfig.model_fields) -> defined_here name = false.
Proof.
  assert (H : forallb (fun n => negb (defined_here n))
                      (map fst LayoutConfig.model_fields) = true)
    by (vm_compute; reflexivity).
  rewrite forallb_forall in H. intros Hin. specialize (H name Hin).
  now destruct (defined_here name).
Qed.

(** A name that nothing defines makes the ordinary lookup raise, and
    leaves the object as it is. *)
Lemma object_getattribute_undefined (name : string) (l : DatasetLayout) :
  concrete name = false ->
  object_getattribute name l = (Raise (AttributeError name), l).
Proof.
  unfold concrete, defined_here. intros H.
  apply orb_false_iff in H as [H HB].
  apply orb_false_iff in H as [H Hm].
  apply orb_false_iff in H as [Hi Hp].
  unfold str_in, instance_attributes, cached_properties in Hi, Hp.
  simpl in Hi, Hp.
  repeat match goal with
         | H : (_ || _)%bool = false |- _ =>
             apply orb_false_iff in H; destruct H
         end.
  unfold object_getattribute, instance_dict.
  repeat match goal with
         | H : (name =? _) = false |- _ => rewrite H; clear H
         end.
  rewrite Hm, HB. reflexivity.
Qed.

(** The instance attributes are found by the ordinary lookup, whatever
    the schema holds. *)
Lemma object_getattribute_instance (name : string) (l : DatasetLayout)
    (v : Value) :
  instance_dict l name = Some v ->
  object_getattribute name l = (Return v, l).
Proof. unfold object_getattribute. now intros ->. Qed.

(** When the ordinary lookup succeeds its result is the result. *)
Lemma getattribute_found (name : string) (l : DatasetLayout) (v : Value) :
  fst (object_getattribute name l) = Return v ->
  __getattribute__ name l = object_getattribute name l.
Proof.
  unfold __getattribute__. destruct (object_getattribute name l) as [r l1].
  simpl. now intros ->.
Qed.

Lemma preserves_object_getattribute (name : string) :
  preserves (object_getattribute name).
Proof.
  intros l Hl. unfold after, object_getattribute.
  destruct (instance_dict l name); [split; [exact Hl | reflexivity] |].
  destruct (name =? "dpaths").
  { apply (preserves_bind dpaths (fun v => ret (VPaths v)));
      [apply preserves_dpaths | intros; apply preserves_ret | exact Hl]. }
  destruct (name =? "fpaths").
  { apply (preserves_bind fpaths (fun v => ret (VPaths v)));
      [apply preserves_fpaths | intros; apply preserves_ret | exact Hl]. }
  destruct (name =? "dpath_descriptions").
  { apply (preserves_bind dpath_descriptions
                          (fun v => ret (VDescriptions v)));
      [apply preserves_dpath_descriptions | intros; apply preserves_ret
      | exact Hl]. }
  destruct (str_in name methods); [split; [exact Hl | reflexivity] |].
  destruct (Base_attribute name); split; first [exact Hl | reflexivity].
Qed.

Lemma preserves_get_full_path (p : Pathlib.PathLike) :
  preserves (get_full_path p).
Proof. apply preserves_read. Qed.

Lemma preserves_getattribute (name : string) : preserves (__getattribute__ name).
Proof.
  intros l Hl. unfold after, __getattribute__.
  pose proof (preserves_object_getattribute name l Hl) as [Hg Hc].
  unfold after in *.
  destruct (object_getattribute name l) as [[v | e] l1]; simpl in *;
    [split; assumption |].
  destruct e as [| | attr | | | |]; try (split; assumption).
  assert (Hk : preserves
            (labels <- config_path_labels ;;
             if str_in name labels then
               info <- (fun l => (get_path_info (DatasetLayout.config l) name, l)) ;;
               p <- get_full_path (Pathlib.OfPath (path info)) ;;
               ret (VPath p)
             else raise (AttributeError attr))).
  { apply preserves_bind; [apply preserves_config_path_labels |].
    intros ls. destruct (str_in name ls); [| apply preserves_raise].
    apply preserves_bind.
    - intros l' Hl'. split; [exact Hl' | reflexivity].
    - intros info. apply preserves_bind; [apply preserves_get_full_path |].
      intros p. apply preserves_ret. }
  destruct (Hk l1 Hg) as [Hg' Hc']. unfold after in *.
  split; [assumption | congruence].
Qed.

(** A schema label that nothing else defines resolves to the root joined
    with the path of its entry. *)
Lemma getattribute_label (name : string) (info : PathInfo)
    (l : DatasetLayout) :
  concrete name = false ->
  good l ->
  In (name, info) (LayoutConfig.field_values (DatasetLayout.config l)) ->
  fst (__getattribute__ name l) = Return (VPath (resolved l info)).
Proof.
  intros Hn Hl Hin. unfold __getattribute__.
  rewrite (object_getattribute_undefined name l Hn).
  rewrite (bind_value _ _ l _ (config_path_labels_value l Hl)).
  destruct (preserves_config_path_labels l Hl) as [Hg Hc].
  assert (Hlab : str_in name (labels l) = true).
  { apply str_in_true. unfold labels, dict_keys.
    change name with (fst (name, info)). now apply in_map. }
  rewrite Hlab.
  apply core_fields in Hc as [Hr [Hfv _]].
  assert (Hinfo : get_path_info
                    (DatasetLayout.config (after config_path_labels l)) name
                  = Return info).
  { unfold get_path_info. rewrite Hfv.
    rewrite (dict_get_In _ name info); [reflexivity | | exact Hin].
    apply conforms_NoDup. apply Hl. }
  unfold bind at 1. rewrite Hinfo. simpl. unfold resolved. now rewrite Hr.
Qed.

(** A name that is neither defined nor a label is an [AttributeError]. *)
Lemma getattribute_unknown (name : string) (l : DatasetLayout) :
  concrete name = false ->
  good l ->
  str_in name (labels l) = false ->
  fst (__getattribute__ name l) = Raise (AttributeError name).
Proof.
  intros Hn Hl Hlab. unfold __getattribute__.
  rewrite (object_getattribute_undefined name l Hn).
  rewrite (bind_value _ _ l _ (config_path_labels_value l Hl)).
  rewrite Hlab. reflexivity.
Qed.

(** *** Loading the schema *)

Lemma validate_PathInfo_class (cls : InfoClass) (loc : list string)
    (v : json) (i : PathInfo) :
  validate_PathInfo cls loc v = Valid i -> info_class i = cls.
Proof.
  unfold validate_PathInfo. destruct v; try discriminate.
  destruct (validate_path loc (dict_get members "path"));
    destruct (validate_description loc (dict_get members "description"));
    try discriminate.
  now intros [= <-].
Qed.

Lemma validate_PathInfo_shape (cls : InfoClass) (loc : list string)
    (v : json) :
  well_shaped v = true <-> exists i, validate_PathInfo cls loc v = Valid i.
Proof.
  unfold validate_PathInfo, well_shaped, validate_path, validate_description.
  destruct v; try (split; [discriminate | intros [i H]; discriminate]).
  destruct (dict_get members "path") as [[] |];
    destruct (dict_get members "description") as [[] |]; simpl;
    split; intros H; try discriminate; try reflexivity;
    try (destruct H; discriminate); eauto.
Qed.

Lemma validate_PathInfo_errors (cls : InfoClass) (loc : list string)
    (v : json) (es : list ErrorDetail) :
  validate_PathInfo cls loc v = Invalid es -> es <> [].
Proof.
  unfold validate_PathInfo, validate_path, validate_description.
  destruct v; try (intros [= <-]; discriminate).
  destruct (dict_get members "path") as [[] |];
    destruct (dict_get members "description") as [[] |]; simpl;
    intros [= <-]; discriminate.
Qed.

(** Without errors every field has a value of its declared class. *)
Lemma validate_fields_conforms (fields : list (string * InfoClass))
    (data : dict json) :
  fst (validate_fields fields data) = [] ->
  map (fun kv => (fst kv, info_class (snd kv)))
      (snd (validate_fields fields data)) = fields.
Proof.
  induction fields as [| [name cls] rest IH]; simpl; [reflexivity |].
  destruct (validate_fields rest data) as [errs vals]. simpl in *.
  destruct (dict_get data name) as [v |]; [| discriminate].
  destruct (validate_PathInfo cls [name] v) as [i | es] eqn:E; simpl.
  - intros H. rewrite (IH H).
    now rewrite (validate_PathInfo_class _ _ _ _ E).
  - intros H. apply app_eq_nil in H as [H _].
    now apply validate_PathInfo_errors in E.
Qed.

Lemma validate_fields_missing (fields : list (string * InfoClass))
    (data : dict json) (name : string) :
  In name (map fst fields) -> dict_get data name = None ->
  In (mkError [name] missing) (fst (validate_fields fields data)).
Proof.
  induction fields as [| [n cls] rest IH]; simpl; [contradiction |].
  intros [-> | Hin] Hnone.
  - destruct (validate_fields rest data) as [errs vals]. rewrite Hnone.
    now left.
  - specialize (IH Hin Hnone).
    destruct (validate_fields rest data) as [errs vals]. simpl in *.
    destruct (dict_get data n) as [v |]; [| now right].
    destruct (validate_PathInfo cls [n] v); simpl; [assumption |].
    apply in_or_app. now right.
Qed.

Lemma validate_fields_no_errors (fields : list (string * InfoClass))
    (data : dict json) :
  fst (validate_fields fields data) = [] <->
  forallb (fun name => match dict_get data name with
                       | Some v => well_shaped v
                       | None => false
                       end) (map fst fields) = true.
Proof.
  induction fields as [| [n cls] rest IH]; simpl; [tauto |].
  destruct (validate_fields rest data) as [errs vals]. simpl in *.
  destruct (dict_get data n) as [v |];
    [| split; [discriminate | intros H; discriminate]].
  destruct (validate_PathInfo cls [n] v) as [i | es] eqn:E; simpl.
  - assert (Hw : well_shaped v = true)
      by (apply (validate_PathInfo_shape cls [n]); eauto).
    rewrite Hw. simpl. exact IH.
  - assert (Hw : well_shaped v = false).
    { destruct (well_shaped v) eqn:W; [| reflexivity].
      apply (validate_PathInfo_shape cls [n]) in W as [i Hi]. congruence. }
    rewrite Hw. simpl. split; [| discriminate].
    intros H. apply app_eq_nil in H as [H _].
    now apply validate_PathInfo_errors in E.
Qed.

Lemma extra_errors_none (data : dict json) :
  extra_errors LayoutConfig.model_config LayoutConfig.model_fields data = []
  <-> forallb (fun k => str_in k (map fst LayoutConfig.model_fields))
              (dict_keys data) = true.
Proof.
  unfold extra_errors. simpl extra. cbv iota.
  induction (dict_keys data) as [| k ks IH]; [simpl; tauto |].
  cbn [filter forallb].
  destruct (str_in k (map fst LayoutConfig.model_fields)); simpl.
  - exact IH.
  - split; discriminate.
Qed.

Lemma extra_errors_In (data : dict json) (k : string) :
  In k (dict_keys data) -> ~ In k (map fst LayoutConfig.model_fields) ->
  In (mkError [k] extra_forbidden)
     (extra_errors LayoutConfig.model_config LayoutConfig.model_fields data).
Proof.
  intros Hin Hnot. unfold extra_errors. simpl extra. cbv iota.
  apply (in_map (fun k => mkError [k] extra_forbidden)).
  apply filter_In. split; [exact Hin |].
  apply str_in_false in Hnot. now rewrite Hnot.
Qed.

(** The constructor raises exactly when there is an error, with all of
    them. *)
Lemma LayoutConfig_init_errors (data : dict json) (e : ErrorDetail) :
  In e (fst (validate_fields LayoutConfig.model_fields data)
        ++ extra_errors LayoutConfig.model_config
                        LayoutConfig.model_fields data) ->
  LayoutConfig_init data
  = Raise (ValidationError
             (fst (validate_fields LayoutConfig.model_fields data)
              ++ extra_errors LayoutConfig.model_config
                              LayoutConfig.model_fields data)).
Proof.
  unfold LayoutConfig_init.
  destruct (validate_fields LayoutConfig.model_fields data) as [errs vals].
  cbn [fst].
  destruct (errs ++ extra_errors LayoutConfig.model_config
                                 LayoutConfig.model_fields data);
    [contradiction | reflexivity].
Qed.

Lemma LayoutConfig_init_Return (data : dict json) (c : LayoutConfig) :
  LayoutConfig_init data = Return c ->
  well_formed_document data = true
  /\ c = LayoutConfig.mk
           (snd (validate_fields LayoutConfig.model_fields data)) None None
  /\ conforms c.
Proof.
  unfold LayoutConfig_init, well_formed_document.
  pose proof (validate_fields_no_errors LayoutConfig.model_fields data) as Hv.
  pose proof (validate_fields_conforms LayoutConfig.model_fields data) as Hc.
  pose proof (extra_errors_none data) as Hx.
  destruct (validate_fields LayoutConfig.model_fields data) as [errs vals].
  cbn [fst snd] in *.
  destruct (errs ++ extra_errors LayoutConfig.model_config
                                 LayoutConfig.model_fields data) eqn:E;
    [| discriminate].
  apply app_eq_nil in E as [E1 E2]. intros [= <-].
  split; [| split; [reflexivity | exact (Hc E1)]].
  apply andb_true_iff. split; [now apply Hv | now apply Hx].
Qed.

Lemma LayoutConfig_init_well_formed (data : dict json) :
  well_formed_document data = true ->
  LayoutConfig_init data
  = Return (LayoutConfig.mk
              (snd (validate_fields LayoutConfig.model_fields data))
              None None).
Proof.
  unfold LayoutConfig_init, well_formed_document. intros H.
  apply andb_true_iff in H as [H1 H2].
  apply validate_fields_no_errors in H1. apply extra_errors_none in H2.
  destruct (validate_fields LayoutConfig.model_fields data) as [errs vals].
  cbn [fst snd] in *. now rewrite H1, H2.
Qed.

(** *** Construction *)

(** What a successful construction leaves behind. *)
Lemma DatasetLayout_init_Return (fs : FileSystem)
    (dpath_root : Pathlib.PathLike) (fpath_config : option Pathlib.PathLike)
    (l : DatasetLayout) :
  DatasetLayout_init fs dpath_root fpath_config = Return l ->
  good l
  /\ DatasetLayout.dpath_root l = Pathlib.make dpath_root
  /\ DatasetLayout.dname_pipeline_work l = "work"
  /\ DatasetLayout.dname_pipeline_output l = "output".
Proof.
  unfold DatasetLayout_init.
  destruct (negb (Path_exists fs _)); [discriminate |].
  destruct (load_json fs _) as [[] | e]; try discriminate.
  destruct (LayoutConfig_init members) as [c | e] eqn:E; [| discriminate].
  intros [= <-]. apply LayoutConfig_init_Return in E as [_ [-> Hc]].
  repeat split; simpl; try assumption; left; reflexivity.
Qed.

(** *** Every sequence of calls keeps the object good *)

Lemma preserves_find_missing_paths (fs : FileSystem) :
  preserves (_find_missing_paths fs).
Proof.
  apply preserves_bind; [apply preserves_dpaths |]. intros ds.
  apply preserves_bind; [apply preserves_fpaths |]. intros fs_.
  apply preserves_ret.
Qed.

Lemma preserves_validate (fs : FileSystem) : preserves (validate fs).
Proof.
  apply preserves_bind; [apply preserves_find_missing_paths |].
  intros missing_paths.
  destruct (negb (length missing_paths =? 0)%nat);
    [apply preserves_raise | apply preserves_ret].
Qed.

Lemma preserves_get_dpath_pipeline (n v : string) :
  preserves (get_dpath_pipeline n v).
Proof.
  apply preserves_bind; [apply preserves_getattribute |]. intros x.
  apply preserves_bind; [apply preserves_lift |]. intros d.
  apply preserves_ret.
Qed.

Lemma preserves_get_dpath_pipeline_work (n v : string)
    (p s : option string) :
  preserves (get_dpath_pipeline_work n v p s).
Proof.
  apply preserves_bind; [apply preserves_get_dpath_pipeline |]. intros d.
  apply preserves_bind; [apply preserves_read |]. intros w.
  apply preserves_ret.
Qed.

Lemma preserves_get_dpath_pipeline_output (n v : string) :
  preserves (get_dpath_pipeline_output n v).
Proof.
  apply preserves_bind; [apply preserves_get_dpath_pipeline |]. intros d.
  apply preserves_bind; [apply preserves_read |]. intros w.
  apply preserves_ret.
Qed.

Lemma preserves_get_dpath_bids_db (n v : string) (p s : option string) :
  preserves (get_dpath_bids_db n v p s).
Proof.
  apply preserves_bind; [apply preserves_getattribute |]. intros x.
  apply preserves_bind; [apply preserves_lift |]. intros d.
  apply preserves_ret.
Qed.

Lemma step_good (op : Op) (l : DatasetLayout) :
  good l -> good (step l op) /\ core (step l op) = core l.
Proof.
  destruct op; simpl.
  - apply preserves_getattribute.
  - apply preserves_get_full_path.
  - apply preserves_get_paths.
  - apply preserves_find_missing_paths.
  - apply preserves_validate.
  - apply preserves_get_dpath_pipeline.
  - apply preserves_get_dpath_pipeline_work.
  - apply preserves_get_dpath_pipeline_output.
  - apply preserves_get_dpath_bids_db.
Qed.

Lemma run_good (ops : list Op) (l : DatasetLayout) :
  good l -> good (run ops l) /\ core (run ops l) = core l.
Proof.
  revert l. induction ops as [| op ops IH]; intros l Hl; simpl.
  - split; [exact Hl | reflexivity].
  - destruct (step_good op l Hl) as [Hg Hc].
    destruct (IH (step l op) Hg) as [Hg' Hc'].
    split; [exact Hg' | congruence].
Qed.

(** *** Paths *)

Lemma split_sep_no_sep (s : string) :
  forallb (fun x => negb (Pathlib.has_sep x)) (Pathlib.split_sep s) = true.
Proof.
  induction s as [| c s IH]; simpl; [reflexivity |].
  destruct (Ascii.eqb c Pathlib.sep) eqn:E; simpl; [exact IH |].
  destruct (Pathlib.split_sep s) as [| x xs]; simpl in *.
  - now rewrite E.
  - now rewrite E.
Qed.

Lemma splitroot_valid (s : string) :
  Pathlib.valid_root (fst (Pathlib.splitroot s)) = true.
Proof.
  unfold Pathlib.splitroot. destruct s as [| c s]; [reflexivity |].
  destruct (Ascii.eqb c Pathlib.sep); [| reflexivity].
  destruct (Nat.eqb _ 2); reflexivity.
Qed.

(** Parsing gives a well-formed path. *)
Lemma wf_of_string (s : string) : Pathlib.wf (Pathlib.of_string s) = true.
Proof.
  unfold Pathlib.of_string, Pathlib.wf.
  pose proof (splitroot_valid s) as Hr.
  destruct (Pathlib.splitroot s) as [r rel]. simpl in *. rewrite Hr. simpl.
  pose proof (split_sep_no_sep rel) as Hs.
  induction (Pathlib.split_sep rel) as [| x xs IH]; simpl in *;
    [reflexivity |].
  apply andb_true_iff in Hs as [Hx Hxs].
  destruct (Pathlib.keeps x) eqn:K; simpl; [| now apply IH].
  unfold Pathlib.valid_name. rewrite K, Hx. simpl. now apply IH.
Qed.

Example of_string_normalises :
  Pathlib.of_string "//a/b/./c/" = Pathlib.mkPath "//" ["a"; "b"; "c"]
  /\ Pathlib.of_string "///a//b" = Pathlib.mkPath "/" ["a"; "b"]
  /\ Pathlib.of_string "." = Pathlib.mkPath "" []
  /\ Pathlib.str (Pathlib.of_string "a/../b/") = "a/../b".
Proof. repeat split. Qed.

Example truediv_discards_left :
  (Pathlib.of_string "/data/study1" / Pathlib.of_string "/etc")%path
  = Pathlib.of_string "/etc".
Proof. reflexivity. Qed.

(** Joining well-formed paths gives a well-formed path. *)
Lemma wf_truediv (p q : Path) :
  Pathlib.wf p = true -> Pathlib.wf q = true ->
  Pathlib.wf (p / q)%path = true.
Proof.
  unfold Pathlib.truediv. destruct (Pathlib.is_absolute q); [auto |].
  unfold Pathlib.wf. simpl. intros Hp Hq.
  apply andb_true_iff in Hp as [Hr Hp]. apply andb_true_iff in Hq as [_ Hq].
  rewrite Hr, forallb_app, Hp, Hq. reflexivity.
Qed.

Lemma is_prefix_app (l l' : list string) : Pathlib.is_prefix l (l ++ l') = true.
Proof.
  induction l as [| x l IH]; simpl; [reflexivity |].
  now rewrite String.eqb_refl.
Qed.

(** Joining a relative path stays below the left operand. *)
Lemma truediv_is_relative_to (p q : Path) :
  Pathlib.is_absolute q = false ->
  Pathlib.is_relative_to (p / q)%path p = true.
Proof.
  intros H. unfold Pathlib.truediv, Pathlib.is_relative_to. rewrite H. simpl.
  now rewrite String.eqb_refl, is_prefix_app.
Qed.

Lemma relative_root (q : Path) :
  Pathlib.is_absolute q = false -> Pathlib.root q = "".
Proof.
  unfold Pathlib.is_absolute. destruct (String.eqb_spec (Pathlib.root q) "");
    [auto | discriminate].
Qed.

(** Joining distinct relative paths gives distinct paths. *)
Lemma truediv_relative_inj (p q1 q2 : Path) :
  Pathlib.is_absolute q1 = false -> Pathlib.is_absolute q2 = false ->
  (p / q1)%path = (p / q2)%path -> q1 = q2.
Proof.
  intros H1 H2. unfold Pathlib.truediv. rewrite H1, H2.
  apply relative_root in H1, H2. intros [= H]. apply app_inv_head in H.
  destruct q1, q2. simpl in *. congruence.
Qed.

(** An anchored right operand discards the left one. *)
Lemma truediv_absolute (p q : Path) :
  Pathlib.is_absolute q = true -> (p / q)%path = q.
Proof. unfold Pathlib.truediv. now intros ->. Qed.

(** [str] is injective on well-formed paths. *)

Lemma split_sep_single (x : string) :
  Pathlib.has_sep x = false -> Pathlib.split_sep x = [x].
Proof.
  induction x as [| c x IH]; simpl; [reflexivity |].
  intros H. apply orb_false_iff in H as [Hc Hx]. rewrite Hc.
  now rewrite (IH Hx).
Qed.

Lemma split_sep_cons (x rest : string) :
  Pathlib.has_sep x = false ->
  Pathlib.split_sep (x ++ String Pathlib.sep rest)
  = x :: Pathlib.split_sep rest.
Proof.
  induction x as [| c x IH]; simpl; intros H.
  - reflexivity.
  - apply orb_false_iff in H as [Hc Hx]. rewrite Hc. now rewrite (IH Hx).
Qed.

Lemma valid_name_no_sep (x : string) :
  Pathlib.valid_name x = true -> Pathlib.has_sep x = false.
Proof.
  unfold Pathlib.valid_name. intros H. apply andb_true_iff in H as [_ H].
  now destruct (Pathlib.has_sep x).
Qed.

Lemma split_sep_concat (t : list string) :
  forallb Pathlib.valid_name t = true -> t <> [] ->
  Pathlib.split_sep (String.concat "/" t) = t.
Proof.
  induction t as [| x t IH]; [congruence |].
  simpl. intros H _. apply andb_true_iff in H as [Hx Ht].
  apply valid_name_no_sep in Hx.
  destruct t as [| y t]; [now apply split_sep_single |].
  change ("/" ++ String.concat "/" (y :: t))%string
    with (String Pathlib.sep (String.concat "/" (y :: t))).
  rewrite (split_sep_cons _ _ Hx). f_equal. apply IH; [exact Ht | congruence].
Qed.

Lemma valid_name_head (x : string) :
  Pathlib.valid_name x = true ->
  exists c x', x = String c x' /\ Ascii.eqb c Pathlib.sep = false.
Proof.
  destruct x as [| c x']; [discriminate |]. intros H.
  apply valid_name_no_sep in H. simpl in H.
  apply orb_false_iff in H as [H _]. eauto.
Qed.

Lemma concat_head (t : list string) :
  forallb Pathlib.valid_name t = true -> t <> [] ->
  exists c s, String.concat "/" t = String c s
              /\ Ascii.eqb c Pathlib.sep = false.
Proof.
  destruct t as [| x t]; [congruence |]. simpl. intros H _.
  apply andb_true_iff in H as [Hx _].
  destruct (valid_name_head x Hx) as [c [x' [-> Hc]]].
  destruct t; simpl; eauto.
Qed.

Lemma concat_inj (t1 t2 : list string) :
  forallb Pathlib.valid_name t1 = true ->
  forallb Pathlib.valid_name t2 = true ->
  String.concat "/" t1 = String.concat "/" t2 -> t1 = t2.
Proof.
  intros H1 H2 E.
  destruct t1 as [| x1 t1], t2 as [| x2 t2]; [reflexivity | | |].
  - destruct (concat_head (x2 :: t2) H2) as [c [s [Hs _]]]; [congruence |].
    rewrite Hs in E. discriminate.
  - destruct (concat_head (x1 :: t1) H1) as [c [s [Hs _]]]; [congruence |].
    rewrite Hs in E. discriminate.
  - rewrite <- (split_sep_concat (x1 :: t1) H1) by congruence.
    rewrite <- (split_sep_concat (x2 :: t2) H2) by congruence.
    now rewrite E.
Qed.

Lemma valid_root_cases (r : string) :
  Pathlib.valid_root r = true -> r = "" \/ r = "/" \/ r = "//".
Proof.
  unfold Pathlib.valid_root. intros H.
  apply orb_true_iff in H as [H | H];
    [apply orb_true_iff in H as [H | H] |];
    apply String.eqb_eq in H; auto.
Qed.

Lemma str_relative (t : list string) :
  Pathlib.str (Pathlib.mkPath "" t)
  = match t with [] => "." | _ => String.concat "/" t end.
Proof. destruct t; reflexivity. Qed.

Lemma str_rooted (t : list string) :
  Pathlib.str (Pathlib.mkPath "/" t)
  = String Pathlib.sep (String.concat "/" t).
Proof. reflexivity. Qed.

Lemma str_rooted_twice (t : list string) :
  Pathlib.str (Pathlib.mkPath "//" t)
  = String Pathlib.sep (String Pathlib.sep (String.concat "/" t)).
Proof. reflexivity. Qed.

Lemma concat_not_sep (t : list string) (s : string) :
  forallb Pathlib.valid_name t = true ->
  String.concat "/" t <> String Pathlib.sep s.
Proof.
  intros H E. destruct t as [| x t]; [discriminate |].
  destruct (concat_head (x :: t) H) as [c [s' [Hs Hc]]]; [congruence |].
  rewrite Hs in E. injection E as -> _. now rewrite Ascii.eqb_refl in Hc.
Qed.

Lemma concat_not_dot (t : list string) :
  forallb Pathlib.valid_name t = true -> t <> [] ->
  String.concat "/" t <> ".".
Proof.
  intros H Hne E. pose proof (split_sep_concat t H Hne) as Hs.
  rewrite E in Hs. simpl in Hs. subst t. discriminate.
Qed.

Lemma str_relative_not_sep (t : list string) (s : string) :
  forallb Pathlib.valid_name t = true ->
  Pathlib.str (Pathlib.mkPath "" t) <> String Pathlib.sep s.
Proof.
  intros H. rewrite str_relative. destruct t as [| x t]; [discriminate |].
  now apply concat_not_sep.
Qed.

Theorem str_inj (p q : Path) :
  Pathlib.wf p = true -> Pathlib.wf q = true ->
  Pathlib.str p = Pathlib.str q -> p = q.
Proof.
  destruct p as [r1 t1], q as [r2 t2]. unfold Pathlib.wf. simpl.
  intros Hp Hq. apply andb_true_iff in Hp as [Hr1 Ht1].
  apply andb_true_iff in Hq as [Hr2 Ht2].
  destruct (valid_root_cases r1 Hr1) as [-> | [-> | ->]];
    destruct (valid_root_cases r2 Hr2) as [-> | [-> | ->]];
    rewrite ?str_rooted, ?str_rooted_twice; intros E.
  - f_equal. rewrite !str_relative in E.
    destruct t1 as [| x1 t1], t2 as [| x2 t2]; [reflexivity | | |].
    + symmetry in E. now apply concat_not_dot in E.
    + now apply concat_not_dot in E.
    + now apply concat_inj.
  - now apply str_relative_not_sep in E.
  - now apply str_relative_not_sep in E.
  - symmetry in E. now apply str_relative_not_sep in E.
  - injection E as E. f_equal. now apply concat_inj.
  - injection E as E. now apply concat_not_sep in E.
  - symmetry in E. now apply str_relative_not_sep in E.
  - injection E as E. symmetry in E. now apply concat_not_sep in E.
  - injection E as E. f_equal. now apply concat_inj.
Qed.

(** *** Validation *)

Lemma fold_missing (fs : FileSystem) (fpaths_ missing_ : list Path) :
  fold_left (fun missing fpath =>
               if negb (Path_exists fs fpath)
               then missing ++ [fpath] else missing)
            fpaths_ missing_
  = missing_ ++ absent fs fpaths_.
Proof.
  revert missing_. induction fpaths_ as [| f fpaths_ IH]; intros acc; simpl.
  - now rewrite app_nil_r.
  - rewrite IH. destruct (negb (Path_exists fs f)); [| reflexivity].
    now rewrite <- app_assoc.
Qed.

(** The missing directories come first, then the missing files. *)
Lemma find_missing_paths_value (fs : FileSystem) (l : DatasetLayout) :
  good l ->
  fst (_find_missing_paths fs l)
  = Return (absent fs (required_dpaths l) ++ absent fs (required_fpaths l)).
Proof.
  intros Hl. unfold _find_missing_paths.
  destruct (dpaths_spec l Hl) as [Hd [Hg Hc]].
  rewrite (bind_value _ _ l _ Hd).
  destruct (fpaths_spec (after dpaths l) Hg) as [Hf _].
  rewrite (bind_value _ _ _ _ Hf). unfold ret. simpl.
  rewrite fold_missing. unfold absent, required_dpaths, required_fpaths.
  now rewrite (select_ext false false l (after dpaths l) Hc).
Qed.

Lemma validate_value (fs : FileSystem) (l : DatasetLayout) :
  good l ->
  fst (validate fs l)
  = match absent fs (required_dpaths l) ++ absent fs (required_fpaths l) with
    | [] => Return true
    | missing_ =>
        Raise (FileNotFoundError
                 (MissingPaths (length missing_)
                               (map Pathlib.str missing_)))
    end.
Proof.
  intros Hl. unfold validate.
  rewrite (bind_value _ _ l _ (find_missing_paths_value fs l Hl)).
  destruct (absent fs (required_dpaths l) ++ absent fs (required_fpaths l));
    reflexivity.
Qed.

(** *** A resolver that has been constructed and then used *)

Lemma reached (fs : FileSystem) (dpath_root : Pathlib.PathLike)
    (fpath_config : option Pathlib.PathLike) (l0 : DatasetLayout)
    (ops : list Op) :
  DatasetLayout_init fs dpath_root fpath_config = Return l0 ->
  good (run ops l0)
  /\ core (run ops l0) = core l0
  /\ DatasetLayout.dpath_root (run ops l0) = Pathlib.make dpath_root
  /\ entries (run ops l0) = entries l0
  /\ resolved (run ops l0)
     = (fun i => (Pathlib.make dpath_root / path i)%path).
Proof.
  intros H. apply DatasetLayout_init_Return in H as [Hg [Hr _]].
  destruct (run_good ops l0 Hg) as [Hg' Hc].
  split; [exact Hg' |]. split; [exact Hc |].
  pose proof (core_fields _ _ Hc) as [Hr' _].
  split; [congruence |]. split; [now apply core_entries |].
  unfold resolved. now rewrite Hr', Hr.
Qed.

Lemma label_not_concrete (name : string) :
  Base_free_of_labels ->
  In name (map fst LayoutConfig.model_fields) -> concrete name = false.
Proof.
  intros HB Hin. unfold concrete.
  now rewrite (label_not_defined_here name Hin), (HB name Hin).
Qed.

Lemma declared_label (l : DatasetLayout) (name : string) (info : PathInfo) :
  good l ->
  In (name, info) (LayoutConfig.field_values (DatasetLayout.config l)) ->
  In name (map fst LayoutConfig.model_fields).
Proof.
  intros [Hc _] Hin. rewrite <- (conforms_keys _ Hc).
  unfold dict_keys. change name with (fst (name, info)). now apply in_map.
Qed.

(** C1.  For every label declared in the loaded schema, attribute lookup
    of the label on the resolver returns the root joined with the
    relative path the schema declares for it, after any sequence of
    earlier calls; and whenever the ordinary lookup finds a name (as it
    does for [dpath_root], [config] and [fpath_spec]) that result is
    returned and the schema is not consulted. *)
Theorem resolve_declared_label (fs : FileSystem)
    (dpath_root : Pathlib.PathLike) (fpath_config : option Pathlib.PathLike)
    (l0 : DatasetLayout) (ops : list Op) (name : string) (info : PathInfo) :
  Base_free_of_labels ->
  DatasetLayout_init fs dpath_root fpath_config = Return l0 ->
  In (name, info) (LayoutConfig.field_values (DatasetLayout.config l0)) ->
  fst (__getattribute__ name (run ops l0))
  = Return (VPath (Pathlib.make dpath_root / path info)%path)
  /\ (forall (l : DatasetLayout) (n : string) (v : Value),
        fst (object_getattribute n l) = Return v ->
        fst (__getattribute__ n l) = Return v)
  /\ (forall l : DatasetLayout,
        fst (__getattribute__ "dpath_root" l)
        = Return (VPath (DatasetLayout.dpath_root l))
        /\ fst (__getattribute__ "config" l)
           = Return (VConfig (DatasetLayout.config l))
        /\ fst (__getattribute__ "fpath_spec" l)
           = Return (VPath (DatasetLayout.fpath_spec l))).
Proof.
  intros HB Hinit Hin.
  destruct (reached fs dpath_root fpath_config l0 ops Hinit)
    as [Hg [Hc [_ [_ Hres]]]].
  split; [| split].
  - pose proof (DatasetLayout_init_Return _ _ _ _ Hinit) as [Hg0 _].
    assert (Hin' : In (name, info)
              (LayoutConfig.field_values
                 (DatasetLayout.config (run ops l0)))).
    { apply core_fields in Hc as [_ [Hfv _]]. now rewrite Hfv. }
    rewrite (getattribute_label name info (run ops l0)); try assumption.
    + now rewrite Hres.
    + apply label_not_concrete; [exact HB |].
      now apply (declared_label l0 name info).
  - intros l n v H. now rewrite (getattribute_found n l v H).
  - intros l. repeat split;
      (erewrite getattribute_found;
       [| rewrite object_getattribute_instance; reflexivity]);
      rewrite object_getattribute_instance; reflexivity.
Qed.

(** C5.  Attribute lookup of a name that is neither defined on the
    resolver nor a label of the schema raises [AttributeError]; no path is
    returned for it. *)
Theorem unknown_attribute_raises (fs : FileSystem)
    (dpath_root : Pathlib.PathLike) (fpath_config : option Pathlib.PathLike)
    (l0 : DatasetLayout) (ops : list Op) (name : string) :
  DatasetLayout_init fs dpath_root fpath_config = Return l0 ->
  concrete name = false ->
  ~ In name (labels l0) ->
  fst (__getattribute__ name (run ops l0)) = Raise (AttributeError name)
  /\ forall p : Path,
       fst (__getattribute__ name (run ops l0)) <> Return (VPath p).
Proof.
  intros Hinit Hn Hlab.
  destruct (reached fs dpath_root fpath_config l0 ops Hinit)
    as [Hg [Hc _]].
  assert (H : fst (__getattribute__ name (run ops l0))
              = Raise (AttributeError name)).
  { apply getattribute_unknown; try assumption.
    apply str_in_false. unfold labels in *.
    apply core_fields in Hc as [_ [Hfv _]]. now rewrite Hfv. }
  split; [exact H |]. intros p. rewrite H. discriminate.
Qed.

(** *** Listing *)

Lemma filter_values {V : Type} (f : V -> bool) (d : dict V) :
  dict_values (filter (fun kv => f (snd kv)) d) = filter f (dict_values d).
Proof.
  unfold dict_values. induction d as [| [k v] d IH]; simpl; [reflexivity |].
  destruct (f v); simpl; now rewrite IH.
Qed.

(** Looking each selected label up on the resolver gives the listing. *)
Lemma listPaths_value (l : DatasetLayout) (d o : bool) :
  Base_free_of_labels -> good l ->
  listPaths l d o
  = map (fun i => Return (VPath (resolved l i))) (select d o (entries l)).
Proof.
  intros HB Hl. unfold listPaths, select, entries.
  rewrite <- (filter_values
                (fun i => Bool.eqb d (_is_directory i)
                          && (o || _is_required i))).
  unfold dict_values. rewrite map_map. apply map_ext_in.
  intros [name info] Hin. apply filter_In in Hin as [Hin _]. simpl.
  apply getattribute_label; try assumption.
  apply label_not_concrete; [exact HB |].
  now apply (declared_label l name info).
Qed.

(** C4.  For both values of each flag, [get_paths] returns the schema
    entries of the asked kind, required ones only unless optional ones
    are asked for, each as the path that lookup of its label gives, in
    declaration order; [dpaths] and [fpaths] are [get_paths(True, False)]
    and [get_paths(False, False)]. *)
Theorem get_paths_lists_selected_entries (fs : FileSystem)
    (dpath_root : Pathlib.PathLike) (fpath_config : option Pathlib.PathLike)
    (l0 : DatasetLayout) (ops : list Op) (directory include_optional : bool) :
  DatasetLayout_init fs dpath_root fpath_config = Return l0 ->
  labels l0 = map fst LayoutConfig.model_fields
  /\ fst (get_paths directory include_optional (run ops l0))
     = Return (map (fun i => (Pathlib.make dpath_root / path i)%path)
                   (filter (fun i =>
                              Bool.eqb directory (_is_directory i)
                              && (include_optional || _is_required i))
                           (entries l0)))
  /\ (Base_free_of_labels ->
      forall paths,
        fst (get_paths directory include_optional (run ops l0))
        = Return paths ->
        map (fun p => Return (VPath p)) paths
        = listPaths (run ops l0) directory include_optional)
  /\ fst (dpaths (run ops l0)) = fst (get_paths true false (run ops l0))
  /\ fst (fpaths (run ops l0)) = fst (get_paths false false (run ops l0)).
Proof.
  intros Hinit.
  destruct (reached fs dpath_root fpath_config l0 ops Hinit)
    as [Hg [Hc [_ [He Hres]]]].
  pose proof (DatasetLayout_init_Return _ _ _ _ Hinit) as [[Hconf _] _].
  split; [exact (conforms_keys _ Hconf) |].
  split; [| split; [| split]].
  - rewrite (get_paths_value _ _ _ Hg), Hres, He. reflexivity.
  - intros HB paths. rewrite (get_paths_value _ _ _ Hg). intros [= <-].
    rewrite (listPaths_value _ _ _ HB Hg). now rewrite map_map.
  - destruct (dpaths_spec _ Hg) as [-> _].
    now rewrite (get_paths_value _ _ _ Hg).
  - destruct (fpaths_spec _ Hg) as [-> _].
    now rewrite (get_paths_value _ _ _ Hg).
Qed.

(** *** Entry kinds *)

Lemma directory_is_required (i : PathInfo) :
  _is_directory i = true -> _is_required i = true.
Proof. unfold _is_directory, _is_required. now destruct (info_class i). Qed.

Lemma select_directories (o : bool) (infos : list PathInfo) :
  select true o infos = select true false infos.
Proof.
  unfold select. apply filter_ext. intros i.
  destruct (_is_directory i) eqn:E; simpl; [| reflexivity].
  rewrite (directory_is_required i E). now destruct o.
Qed.

Lemma optional_fields (name : string) (cls : InfoClass) :
  In (name, cls) LayoutConfig.model_fields ->
  (cls = OptionalFpathInfo
   <-> name = "fpath_doughnut" \/ name = "fpath_imaging_bagel").
Proof.
  unfold LayoutConfig.model_fields. simpl.
  intros H.
  repeat (destruct H as [H | H];
          [injection H as <- <-;
           split; [try discriminate; auto
                  | intros [E | E]; try discriminate E; reflexivity] |]).
  contradiction.
Qed.

Lemma describe_required_same (root : Path) (infos : list PathInfo) :
  describe_required root infos = describe root infos.
Proof.
  unfold describe_required, describe.
  induction infos as [| i infos IH]; simpl; [reflexivity |].
  destruct (_is_required i) eqn:R; simpl; [now rewrite IH |].
  destruct (_is_directory i) eqn:D; [| exact IH].
  rewrite (directory_is_required i D) in R. discriminate.
Qed.

(** C9.  No entry class is an optional directory: a directory entry is
    always required, and in a loaded schema the optional entries are
    exactly [fpath_doughnut] and [fpath_imaging_bagel].  So
    [get_paths(True, True)] and [get_paths(True, False)] return the same
    list, and filtering [dpath_descriptions] on required entries would
    not change it. *)
Theorem no_optional_directory (fs : FileSystem)
    (dpath_root : Pathlib.PathLike) (fpath_config : option Pathlib.PathLike)
    (l0 : DatasetLayout) (ops : list Op) :
  DatasetLayout_init fs dpath_root fpath_config = Return l0 ->
  (forall i : PathInfo, _is_directory i = true -> _is_required i = true)
  /\ (forall name i,
        In (name, i) (LayoutConfig.field_values (DatasetLayout.config l0)) ->
        (_is_required i = false
         <-> name = "fpath_doughnut" \/ name = "fpath_imaging_bagel"))
  /\ fst (get_paths true true (run ops l0))
     = fst (get_paths true false (run ops l0))
  /\ fst (dpath_descriptions (run ops l0))
     = Return (describe_required (Pathlib.make dpath_root) (entries l0)).
Proof.
  intros Hinit.
  destruct (reached fs dpath_root fpath_config l0 ops Hinit)
    as [Hg [Hc [Hr [He Hres]]]].
  pose proof (DatasetLayout_init_Return _ _ _ _ Hinit) as [[Hconf _] _].
  split; [exact directory_is_required |]. split; [| split].
  - intros name i Hin.
    assert (Hf : In (name, info_class i) LayoutConfig.model_fields).
    { rewrite <- Hconf.
      change (name, info_class i)
        with ((fun kv : string * PathInfo =>
                 (fst kv, info_class (snd kv))) (name, i)).
      now apply in_map. }
    rewrite <- (optional_fields name (info_class i) Hf).
    unfold _is_required. destruct (info_class i); split; congruence.
  - rewrite !(get_paths_value _ _ _ Hg). now rewrite select_directories.
  - destruct (dpath_descriptions_spec _ Hg) as [-> _].
    now rewrite describe_required_same, Hr, He.
Qed.

(** *** Missing paths *)

Lemma select_required_directories (infos : list PathInfo) :
  select true false infos
  = filter (fun i => _is_directory i && _is_required i) infos.
Proof.
  unfold select. apply filter_ext. intros i.
  now destruct (_is_directory i).
Qed.

Lemma select_required_files (infos : list PathInfo) :
  select false false infos
  = filter (fun i => negb (_is_directory i) && _is_required i) infos.
Proof.
  unfold select. apply filter_ext. intros i.
  now destruct (_is_directory i).
Qed.

(** C10.  The list of missing paths holds the missing required
    directories, in declaration order, followed by the missing required
    files, in declaration order; the error raised by [validate] carries
    that list. *)
Theorem missing_directories_before_files (fs0 : FileSystem)
    (dpath_root : Pathlib.PathLike) (fpath_config : option Pathlib.PathLike)
    (l0 : DatasetLayout) (ops : list Op) (fs : FileSystem) :
  DatasetLayout_init fs0 dpath_root fpath_config = Return l0 ->
  let resolve := fun i => (Pathlib.make dpath_root / path i)%path in
  let missing_dpaths :=
    filter (fun p => negb (Path_exists fs p))
           (map resolve
                (filter (fun i => _is_directory i && _is_required i)
                        (entries l0))) in
  let missing_fpaths :=
    filter (fun p => negb (Path_exists fs p))
           (map resolve
                (filter (fun i => negb (_is_directory i) && _is_required i)
                        (entries l0))) in
  fst (_find_missing_paths fs (run ops l0))
  = Return (missing_dpaths ++ missing_fpaths)
  /\ forall count paths,
       fst (validate fs (run ops l0))
       = Raise (FileNotFoundError (MissingPaths count paths)) ->
       paths = map Pathlib.str (missing_dpaths ++ missing_fpaths).
Proof.
  intros Hinit resolve missing_dpaths missing_fpaths.
  destruct (reached fs0 dpath_root fpath_config l0 ops Hinit)
    as [Hg [_ [_ [He Hres]]]].
  assert (Hd : absent fs (required_dpaths (run ops l0)) = missing_dpaths).
  { unfold required_dpaths, absent.
    now rewrite Hres, He, select_required_directories. }
  assert (Hf : absent fs (required_fpaths (run ops l0)) = missing_fpaths).
  { unfold required_fpaths, absent.
    now rewrite Hres, He, select_required_files. }
  split.
  - rewrite (find_missing_paths_value fs _ Hg). now rewrite Hd, Hf.
  - intros count paths. rewrite (validate_value fs _ Hg), Hd, Hf.
    destruct (missing_dpaths ++ missing_fpaths); [discriminate |].
    now intros [= _ <-].
Qed.

Lemma validate_PathInfo_wf (cls : InfoClass) (loc : list string)
    (v : json) (i : PathInfo) :
  validate_PathInfo cls loc v = Valid i -> Pathlib.wf (path i) = true.
Proof.
  unfold validate_PathInfo, validate_path. destruct v; try discriminate.
  destruct (dict_get members "path") as [[] |];
    destruct (validate_description loc (dict_get members "description"));
    try discriminate.
  intros [= <-]. simpl. apply wf_of_string.
Qed.

Lemma validate_fields_wf (fields : list (string * InfoClass))
    (data : dict json) (k : string) (i : PathInfo) :
  In (k, i) (snd (validate_fields fields data)) ->
  Pathlib.wf (path i) = true.
Proof.
  induction fields as [| [name cls] rest IH]; simpl; [contradiction |].
  destruct (validate_fields rest data) as [errs vals]. simpl in *.
  destruct (dict_get data name) as [v |]; [| exact IH].
  destruct (validate_PathInfo cls [name] v) as [i' | es] eqn:E; simpl;
    [| exact IH].
  intros [[= _ <-] | Hin]; [| now apply IH].
  now apply validate_PathInfo_wf in E.
Qed.

(** The relative paths of a loaded schema are parsed paths. *)
Lemma loaded_entries_wf (fs : FileSystem) (dpath_root : Pathlib.PathLike)
    (fpath_config : option Pathlib.PathLike) (l0 : DatasetLayout)
    (i : PathInfo) :
  DatasetLayout_init fs dpath_root fpath_config = Return l0 ->
  In i (entries l0) -> Pathlib.wf (path i) = true.
Proof.
  unfold DatasetLayout_init.
  destruct (negb (Path_exists fs _)); [discriminate |].
  destruct (load_json fs _) as [[] | e]; try discriminate.
  destruct (LayoutConfig_init members) as [c | e] eqn:E; [| discriminate].
  intros [= <-]. apply LayoutConfig_init_Return in E as [_ [-> _]].
  unfold entries, dict_values.
  cbn [DatasetLayout.config LayoutConfig.field_values]. intros Hin.
  apply in_map_iff in Hin as [[k i'] [<- Hin]].
  now apply validate_fields_wf in Hin.
Qed.

(** [validate] on a constructed resolver, by the required paths that are
    absent. *)
Lemma validate_reached (fs0 : FileSystem) (dpath_root : Pathlib.PathLike)
    (fpath_config : option Pathlib.PathLike) (l0 : DatasetLayout)
    (ops : list Op) (fs : FileSystem) :
  DatasetLayout_init fs0 dpath_root fpath_config = Return l0 ->
  fst (validate fs (run ops l0))
  = match absent fs
            (map (fun i => (Pathlib.make dpath_root / path i)%path)
                 (filter (fun i => _is_directory i && _is_required i)
                         (entries l0))
             ++ map (fun i => (Pathlib.make dpath_root / path i)%path)
                    (filter (fun i => negb (_is_directory i)
                                      && _is_required i)
                            (entries l0))) with
    | [] => Return true
    | missing_ =>
        Raise (FileNotFoundError
                 (MissingPaths (length missing_)
                               (map Pathlib.str missing_)))
    end.
Proof.
  intros Hinit.
  destruct (reached fs0 dpath_root fpath_config l0 ops Hinit)
    as [Hg [_ [_ [He Hres]]]].
  rewrite (validate_value fs _ Hg). unfold required_dpaths, required_fpaths.
  rewrite Hres, He, select_required_directories, select_required_files.
  unfold absent. now rewrite filter_app.
Qed.

Lemma absent_nil (fs : FileSystem) (paths : list Path) :
  (forall p, In p paths -> Path_exists fs p = true) -> absent fs paths = [].
Proof.
  induction paths as [| p paths IH]; simpl; intros H; [reflexivity |].
  rewrite (H p (or_introl eq_refl)). simpl. apply IH.
  intros q Hq. apply H. now right.
Qed.

Lemma absent_In (fs : FileSystem) (paths : list Path) (p : Path) :
  In p (absent fs paths) <-> In p paths /\ Path_exists fs p = false.
Proof.
  unfold absent. rewrite filter_In.
  destruct (Path_exists fs p); simpl; intuition discriminate.
Qed.

(** C2.  [validate] returns [True] when every required directory and
    file path exists.  When one is missing it raises the
    [FileNotFoundError] that lists the missing paths: every missing
    required path is in the list, every path in the list is a missing
    required path, and the list has no duplicate when the required paths
    are pairwise distinct.  Whether an optional entry exists has no
    effect on the result. *)
Theorem validate_reports_missing_required_paths (fs0 : FileSystem)
    (dpath_root : Pathlib.PathLike) (fpath_config : option Pathlib.PathLike)
    (l0 : DatasetLayout) (ops : list Op) (fs : FileSystem) :
  DatasetLayout_init fs0 dpath_root fpath_config = Return l0 ->
  let resolve := fun i => (Pathlib.make dpath_root / path i)%path in
  let required :=
    map resolve (filter (fun i => _is_directory i && _is_required i)
                        (entries l0))
    ++ map resolve (filter (fun i => negb (_is_directory i)
                                     && _is_required i)
                           (entries l0)) in
  ((forall p, In p required -> Path_exists fs p = true) ->
   fst (validate fs (run ops l0)) = Return true)
  /\ ((exists p, In p required /\ Path_exists fs p = false) ->
      exists paths,
        fst (validate fs (run ops l0))
        = Raise (FileNotFoundError (MissingPaths (length paths) paths))
        /\ (forall p, In p required -> Path_exists fs p = false ->
                      In (Pathlib.str p) paths)
        /\ (forall s, In s paths ->
                      exists i, In i (entries l0)
                                /\ _is_required i = true
                                /\ Path_exists fs (resolve i) = false
                                /\ s = Pathlib.str (resolve i))
        /\ (Pathlib.wf (Pathlib.make dpath_root) = true ->
            NoDup required -> NoDup paths))
  /\ (forall fs' : FileSystem,
        (forall p, In p required ->
                   Path_exists fs' p = Path_exists fs p) ->
        fst (validate fs' (run ops l0)) = fst (validate fs (run ops l0))).
Proof.
  intros Hinit resolve required.
  pose proof (validate_reached fs0 dpath_root fpath_config l0 ops fs Hinit)
    as Hv.
  fold resolve in Hv. fold required in Hv.
  assert (Hreq : forall p, In p required ->
                   exists i, In i (entries l0) /\ _is_required i = true
                             /\ p = resolve i).
  { intros p Hp. unfold required in Hp. apply in_app_or in Hp.
    destruct Hp as [Hp | Hp]; apply in_map_iff in Hp as [i [<- Hi]];
      apply filter_In in Hi as [Hi Hb];
      apply andb_true_iff in Hb as [_ Hb]; eauto. }
  split; [| split].
  - intros Hall. rewrite Hv. now rewrite (absent_nil fs required Hall).
  - intros [p [Hp Hmiss]]. exists (map Pathlib.str (absent fs required)).
    assert (Hne : In p (absent fs required)) by now apply absent_In.
    split; [| split; [| split]].
    + rewrite Hv, length_map.
      destruct (absent fs required); [contradiction | reflexivity].
    + intros q Hq Hqm. apply in_map. now apply absent_In.
    + intros s Hs. apply in_map_iff in Hs as [q [<- Hq]].
      apply absent_In in Hq as [Hq Hqm].
      destruct (Hreq q Hq) as [i [Hi [Hr ->]]]. eauto.
    + intros Hwf Hnd. apply NoDup_map_NoDup_ForallPairs.
      * intros a b Ha Hb. apply absent_In in Ha as [Ha _].
        apply absent_In in Hb as [Hb _].
        destruct (Hreq a Ha) as [ia [Hia [_ ->]]].
        destruct (Hreq b Hb) as [ib [Hib [_ ->]]].
        apply str_inj; apply wf_truediv; try assumption;
          eapply loaded_entries_wf; eassumption.
      * unfold absent. now apply NoDup_filter.
  - intros fs' Hsame. rewrite Hv.
    rewrite (validate_reached fs0 dpath_root fpath_config l0 ops fs' Hinit).
    fold resolve. fold required.
    assert (E : absent fs' required = absent fs required).
    { unfold absent. apply filter_ext_in. intros q Hq.
      now rewrite (Hsame q Hq). }
    now rewrite E.
Qed.

(** *** Pipeline directories *)

Lemma conforms_has_label (c : LayoutConfig) (name : string) :
  conforms c -> In name (map fst LayoutConfig.model_fields) ->
  exists info, In (name, info) (LayoutConfig.field_values c).
Proof.
  intros Hc Hin. rewrite <- (conforms_keys c Hc) in Hin.
  unfold dict_keys in Hin. apply in_map_iff in Hin as [[k i] [<- Hin]].
  now exists i.
Qed.

Lemma get_dpath_pipeline_value (n v : string) (info : PathInfo)
    (l : DatasetLayout) :
  Base_free_of_labels -> good l ->
  In ("dpath_derivatives", info)
     (LayoutConfig.field_values (DatasetLayout.config l)) ->
  fst (get_dpath_pipeline n v l)
  = Return (resolved l info / Pathlib.of_string n
                            / Pathlib.of_string v)%path.
Proof.
  intros HB Hl Hin. unfold get_dpath_pipeline.
  assert (Hv : fst (__getattribute__ "dpath_derivatives" l)
               = Return (VPath (resolved l info))).
  { apply getattribute_label; try assumption.
    apply label_not_concrete; [exact HB |].
    now apply (declared_label l _ info). }
  rewrite (bind_value _ _ l _ Hv). reflexivity.
Qed.

Lemma get_dpath_pipeline_work_value (n v : string) (p s : option string)
    (d : Path) (l : DatasetLayout) :
  good l -> fst (get_dpath_pipeline n v l) = Return d ->
  fst (get_dpath_pipeline_work n v p s l)
  = Return (d / Pathlib.of_string (DatasetLayout.dname_pipeline_work l)
              / Pathlib.of_string (get_pipeline_tag n v p s))%path.
Proof.
  intros Hl Hd. unfold get_dpath_pipeline_work.
  rewrite (bind_value _ _ l _ Hd).
  destruct (preserves_get_dpath_pipeline n v l Hl) as [_ Hc].
  apply core_fields in Hc as [_ [_ [Hw _]]].
  unfold bind, read, ret. simpl. now rewrite Hw.
Qed.

Lemma get_dpath_pipeline_output_value (n v : string) (d : Path)
    (l : DatasetLayout) :
  good l -> fst (get_dpath_pipeline n v l) = Return d ->
  fst (get_dpath_pipeline_output n v l)
  = Return (d / Pathlib.of_string (DatasetLayout.dname_pipeline_output l))%path.
Proof.
  intros Hl Hd. unfold get_dpath_pipeline_output.
  rewrite (bind_value _ _ l _ Hd).
  destruct (preserves_get_dpath_pipeline n v l Hl) as [_ Hc].
  apply core_fields in Hc as [_ [_ [_ Ho]]].
  unfold bind, read, ret. simpl. now rewrite Ho.
Qed.

(** On a constructed resolver the pipeline directory is the same path
    after every sequence of calls. *)
Lemma get_dpath_pipeline_reached (fs : FileSystem)
    (dpath_root : Pathlib.PathLike) (fpath_config : option Pathlib.PathLike)
    (l0 : DatasetLayout) (n v : string) :
  Base_free_of_labels ->
  DatasetLayout_init fs dpath_root fpath_config = Return l0 ->
  exists d : Path, forall ops : list Op,
    fst (get_dpath_pipeline n v (run ops l0)) = Return d.
Proof.
  intros HB Hinit.
  pose proof (DatasetLayout_init_Return _ _ _ _ Hinit) as [[Hconf _] _].
  destruct (conforms_has_label _ "dpath_derivatives" Hconf) as [info Hin].
  { apply str_in_true. vm_compute. reflexivity. }
  exists (Pathlib.make dpath_root / path info / Pathlib.of_string n
                                  / Pathlib.of_string v)%path.
  intros ops.
  destruct (reached fs dpath_root fpath_config l0 ops Hinit)
    as [Hg [Hc [_ [_ Hres]]]].
  rewrite (get_dpath_pipeline_value n v info _ HB Hg).
  - now rewrite Hres.
  - apply core_fields in Hc as [_ [Hfv _]]. now rewrite Hfv.
Qed.

Lemma reached_names (fs : FileSystem) (dpath_root : Pathlib.PathLike)
    (fpath_config : option Pathlib.PathLike) (l0 : DatasetLayout)
    (ops : list Op) :
  DatasetLayout_init fs dpath_root fpath_config = Return l0 ->
  DatasetLayout.dname_pipeline_work (run ops l0) = "work"
  /\ DatasetLayout.dname_pipeline_output (run ops l0) = "output".
Proof.
  intros Hinit.
  pose proof (DatasetLayout_init_Return _ _ _ _ Hinit) as [Hg [_ [Hw Ho]]].
  destruct (run_good ops l0 Hg) as [_ Hc].
  apply core_fields in Hc as [_ [_ [Hw' Ho']]]. split; congruence.
Qed.

(** A name that is a single component parses to that component. *)
Lemma of_string_valid_name (x : string) :
  Pathlib.valid_name x = true ->
  Pathlib.of_string x = Pathlib.mkPath "" [x].
Proof.
  intros H. pose proof (valid_name_no_sep x H) as Hs.
  destruct (valid_name_head x H) as [c [x' [-> Hc]]].
  unfold Pathlib.of_string, Pathlib.splitroot. rewrite Hc.
  rewrite (split_sep_single _ Hs). cbn [filter].
  unfold Pathlib.valid_name in H. apply andb_true_iff in H as [-> _].
  reflexivity.
Qed.


(** C7.  The output directory of a pipeline is its pipeline directory
    joined with ["output"]; it is one path for a name and a version,
    whatever calls (for whatever participants and sessions) were made
    on the resolver before. *)
Theorem pipeline_output_directory (fs : FileSystem)
    (dpath_root : Pathlib.PathLike) (fpath_config : option Pathlib.PathLike)
    (l0 : DatasetLayout) (pipeline_name pipeline_version : string) :
  Base_free_of_labels ->
  DatasetLayout_init fs dpath_root fpath_config = Return l0 ->
  exists d : Path, forall ops : list Op,
    fst (get_dpath_pipeline pipeline_name pipeline_version (run ops l0))
    = Return d
    /\ fst (get_dpath_pipeline_output pipeline_name pipeline_version
                                      (run ops l0))
       = Return (d / Pathlib.of_string "output")%path.
Proof.
  intros HB Hinit.
  destruct (get_dpath_pipeline_reached fs dpath_root fpath_config l0
              pipeline_name pipeline_version HB Hinit) as [d Hd].
  exists d. intros ops. split; [apply Hd |].
  destruct (reached fs dpath_root fpath_config l0 ops Hinit) as [Hg _].
  destruct (reached_names fs dpath_root fpath_config l0 ops Hinit)
    as [_ Ho].
  rewrite (get_dpath_pipeline_output_value _ _ d _ Hg (Hd ops)).
  now rewrite Ho.
Qed.

(** *** Construction and the file system *)

(** C8.  Without a document path the packaged default document is the
    one that is read: a resolver constructed that way holds the schema
    loaded from the document at the default path.  Construction raises
    [FileNotFoundError] when the document path, given or default, does not
    exist.  The outcome depends on the file system at the document path
    only, so with a well-formed document there construction succeeds
    whether or not the dataset root exists, and gives the resolver whose
    schema is the one loaded from that document. *)
Theorem construction_reads_only_the_document :
  (forall fs dpath_root,
     DatasetLayout_init fs dpath_root None
     = DatasetLayout_init fs dpath_root (Some FPATH_DEFAULT_LAYOUT))
  /\ (forall fs dpath_root (l : DatasetLayout),
        DatasetLayout_init fs dpath_root None = Return l ->
        exists data,
          fs (Pathlib.make FPATH_DEFAULT_LAYOUT)
          = Some (File (JsonDocument (JObject data)))
          /\ LayoutConfig_init data = Return (DatasetLayout.config l)
          /\ DatasetLayout.fpath_spec l = Pathlib.make FPATH_DEFAULT_LAYOUT
          /\ DatasetLayout.dpath_root l = Pathlib.make dpath_root)
  /\ (forall fs dpath_root fpath_config,
        Path_exists fs (document_path fpath_config) = false ->
        DatasetLayout_init fs dpath_root fpath_config
        = Raise (FileNotFoundError
                   (LayoutConfigNotFound
                      (Pathlib.str (document_path fpath_config)))))
  /\ (forall (fs fs' : FileSystem) dpath_root fpath_config,
        fs' (document_path fpath_config) = fs (document_path fpath_config) ->
        DatasetLayout_init fs' dpath_root fpath_config
        = DatasetLayout_init fs dpath_root fpath_config)
  /\ (forall fs dpath_root fpath_config data,
        fs (document_path fpath_config)
        = Some (File (JsonDocument (JObject data))) ->
        well_formed_document data = true ->
        exists c,
          LayoutConfig_init data = Return c
          /\ DatasetLayout_init fs dpath_root fpath_config
             = Return (DatasetLayout.mk
                         (Pathlib.make dpath_root)
                         (document_path fpath_config)
                         c "work" "output" None None None)).
Proof.
  split; [reflexivity |]. split; [| split; [| split]].
  - intros fs dpath_root l. unfold DatasetLayout_init.
    unfold Path_exists, load_json.
    destruct (fs (Pathlib.make FPATH_DEFAULT_LAYOUT)) as [[| [[] |]] |];
      try discriminate.
    cbn [negb].
    destruct (LayoutConfig_init members) as [c | e] eqn:E; [| discriminate].
    intros [= <-]. exists members. auto.
  - intros fs dpath_root fpath_config H. unfold DatasetLayout_init.
    fold (document_path fpath_config). now rewrite H.
  - intros fs fs' dpath_root fpath_config H. unfold DatasetLayout_init.
    fold (document_path fpath_config). unfold Path_exists, load_json.
    now rewrite H.
  - intros fs dpath_root fpath_config data H Hw. unfold DatasetLayout_init.
    fold (document_path fpath_config). unfold Path_exists, load_json.
    rewrite H. cbn [negb]. rewrite (LayoutConfig_init_well_formed data Hw).
    eexists. split; reflexivity.
Qed.

(** *** The schema after loading *)

Lemma LayoutConfig_setattr_field (c : LayoutConfig) (name : string)
    (value : PathInfo) :
  In name (map fst LayoutConfig.model_fields) ->
  LayoutConfig_setattr c name value
  = Return (LayoutConfig.mk
              (dict_set (LayoutConfig.field_values c) name value)
              (LayoutConfig.path_labels_cache c)
              (LayoutConfig.path_infos_cache c)).
Proof.
  intros H. apply str_in_true in H. unfold LayoutConfig_setattr.
  cbn [frozen LayoutConfig.model_config]. now rewrite H.
Qed.

(** C3 (amended).  Loading a document that lacks a declared label, or
    that holds a key that is not a declared label, raises a
    [ValidationError] that names it; loading a document that declares
    every label with a well-shaped entry and nothing else succeeds, the
    schema has the declared fields, reading its derived views leaves the
    fields as loaded, and so does every sequence of calls on a resolver
    constructed from it. *)
Theorem schema_loading (data : dict json) :
  (forall name,
     In name (map fst LayoutConfig.model_fields) ->
     dict_get data name = None ->
     exists errors,
       LayoutConfig_init data = Raise (ValidationError errors)
       /\ In (mkError [name] missing) errors)
  /\ (forall key,
        In key (dict_keys data) ->
        ~ In key (map fst LayoutConfig.model_fields) ->
        exists errors,
          LayoutConfig_init data = Raise (ValidationError errors)
          /\ In (mkError [key] extra_forbidden) errors)
  /\ (well_formed_document data = true ->
      exists c,
        LayoutConfig_init data = Return c
        /\ conforms c
        /\ LayoutConfig.field_values (snd (path_labels c))
           = LayoutConfig.field_values c
        /\ LayoutConfig.field_values (snd (path_infos c))
           = LayoutConfig.field_values c)
  /\ (forall fs dpath_root fpath_config l0 ops,
        DatasetLayout_init fs dpath_root fpath_config = Return l0 ->
        LayoutConfig.field_values (DatasetLayout.config (run ops l0))
        = LayoutConfig.field_values (DatasetLayout.config l0)).
Proof.
  split; [| split; [| split]].
  - intros name Hin Hnone. eexists. split.
    + apply (LayoutConfig_init_errors data (mkError [name] missing)).
      apply in_or_app. left. now apply validate_fields_missing.
    + apply in_or_app. left. now apply validate_fields_missing.
  - intros key Hin Hnot. eexists. split.
    + apply (LayoutConfig_init_errors data (mkError [key] extra_forbidden)).
      apply in_or_app. right. now apply extra_errors_In.
    + apply in_or_app. right. now apply extra_errors_In.
  - intros Hw. pose proof (LayoutConfig_init_well_formed data Hw) as Hinit.
    eexists. split; [exact Hinit |].
    apply LayoutConfig_init_Return in Hinit as [_ [_ Hc]].
    split; [exact Hc |].
    assert (Hcc : config_cached
              (LayoutConfig.mk
                 (snd (validate_fields LayoutConfig.model_fields data))
                 None None))
      by (split; left; reflexivity).
    split.
    + now destruct (path_labels_spec _ Hcc) as [_ [H _]].
    + now destruct (path_infos_spec _ (conforms_NoDup _ Hc) Hcc)
        as [_ [H _]].
  - intros fs dpath_root fpath_config l0 ops Hinit.
    destruct (reached fs dpath_root fpath_config l0 ops Hinit)
      as [_ [Hc _]].
    now apply core_fields in Hc as [_ [H _]].
Qed.

(** ** Further properties *)

(** *** Printing and parsing paths *)

Lemma filter_keeps_valid (t : list string) :
  forallb Pathlib.valid_name t = true -> filter Pathlib.keeps t = t.
Proof.
  induction t as [| x t IH]; simpl; [reflexivity |]. intros H.
  apply andb_true_iff in H as [Hx Ht]. unfold Pathlib.valid_name in Hx.
  apply andb_true_iff in Hx as [-> _]. now rewrite (IH Ht).
Qed.

Lemma parts_of_concat (t : list string) :
  forallb Pathlib.valid_name t = true ->
  filter Pathlib.keeps (Pathlib.split_sep (String.concat "/" t)) = t.
Proof.
  intros H. destruct t as [| x t]; [reflexivity |].
  rewrite (split_sep_concat (x :: t) H) by congruence.
  now apply filter_keeps_valid.
Qed.

Lemma lstrip_sep_concat (t : list string) :
  forallb Pathlib.valid_name t = true ->
  Pathlib.lstrip_sep (String.concat "/" t) = String.concat "/" t.
Proof.
  intros H. destruct t as [| x t]; [reflexivity |].
  destruct (concat_head (x :: t) H) as [c [s [Hs Hc]]]; [congruence |].
  rewrite Hs. simpl. now rewrite Hc.
Qed.

Lemma length_succ_sub (n : nat) : S n - n = 1.
Proof. induction n as [| n IH]; [reflexivity | exact IH]. Qed.

Lemma length_succ_succ_sub (n : nat) : S (S n) - n = 2.
Proof. induction n as [| n IH]; [reflexivity | exact IH]. Qed.

(** Parsing the string of a well-formed path gives the path back. *)
Lemma of_string_str (p : Path) :
  Pathlib.wf p = true -> Pathlib.of_string (Pathlib.str p) = p.
Proof.
  destruct p as [r t]. unfold Pathlib.wf. simpl. intros H.
  apply andb_true_iff in H as [Hr Ht].
  destruct (valid_root_cases r Hr) as [-> | [-> | ->]].
  - rewrite str_relative. destruct t as [| x t]; [reflexivity |].
    destruct (concat_head (x :: t) Ht) as [c [s [Hs Hc]]]; [congruence |].
    unfold Pathlib.of_string, Pathlib.splitroot. rewrite Hs, Hc, <- Hs.
    now rewrite (parts_of_concat _ Ht).
  - rewrite str_rooted. unfold Pathlib.of_string, Pathlib.splitroot.
    rewrite Ascii.eqb_refl.
    change (Pathlib.lstrip_sep (String Pathlib.sep (String.concat "/" t)))
      with (Pathlib.lstrip_sep (String.concat "/" t)).
    rewrite (lstrip_sep_concat t Ht).
    change (String.length (String Pathlib.sep (String.concat "/" t)))
      with (S (String.length (String.concat "/" t))).
    rewrite length_succ_sub. cbn [Nat.eqb].
    now rewrite (parts_of_concat _ Ht).
  - rewrite str_rooted_twice. unfold Pathlib.of_string, Pathlib.splitroot.
    rewrite Ascii.eqb_refl.
    change (Pathlib.lstrip_sep
              (String Pathlib.sep (String Pathlib.sep (String.concat "/" t))))
      with (Pathlib.lstrip_sep (String.concat "/" t)).
    rewrite (lstrip_sep_concat t Ht).
    change (String.length
              (String Pathlib.sep (String Pathlib.sep (String.concat "/" t))))
      with (S (S (String.length (String.concat "/" t)))).
    rewrite length_succ_succ_sub. cbn [Nat.eqb].
    now rewrite (parts_of_concat _ Ht).
Qed.

Lemma is_prefix_app_both (l a b : list string) :
  Pathlib.is_prefix (l ++ a) (l ++ b) = Pathlib.is_prefix a b.
Proof.
  induction l as [| x l IH]; simpl; [reflexivity |].
  now rewrite String.eqb_refl.
Qed.

Lemma truediv_relative (p q : Path) :
  Pathlib.is_absolute q = false ->
  (p / q)%path = Pathlib.mkPath (Pathlib.root p) (Pathlib.tail p ++ Pathlib.tail q).
Proof. unfold Pathlib.truediv. now intros ->. Qed.

Lemma truediv_empty (p : Path) : (p / Pathlib.of_string "")%path = p.
Proof.
  destruct p as [r t]. unfold Pathlib.truediv. simpl. now rewrite app_nil_r.
Qed.

(** *** Labels on a constructed resolver *)

(** Every declared label has an entry, and lookup of the label gives the
    root joined with the entry's path after every sequence of calls. *)
Lemma label_reached (fs : FileSystem) (dpath_root : Pathlib.PathLike)
    (fpath_config : option Pathlib.PathLike) (l0 : DatasetLayout)
    (name : string) :
  Base_free_of_labels ->
  DatasetLayout_init fs dpath_root fpath_config = Return l0 ->
  In name (map fst LayoutConfig.model_fields) ->
  exists info,
    In (name, info) (LayoutConfig.field_values (DatasetLayout.config l0))
    /\ forall ops,
         fst (__getattribute__ name (run ops l0))
         = Return (VPath (Pathlib.make dpath_root / path info)%path).
Proof.
  intros HB Hinit Hname.
  pose proof (DatasetLayout_init_Return _ _ _ _ Hinit) as [[Hconf _] _].
  destruct (conforms_has_label _ name Hconf Hname) as [info Hin].
  exists info. split; [exact Hin |]. intros ops.
  destruct (reached fs dpath_root fpath_config l0 ops Hinit)
    as [Hg [Hc [_ [_ Hres]]]].
  rewrite (getattribute_label name info (run ops l0)).
  - now rewrite Hres.
  - now apply label_not_concrete.
  - exact Hg.
  - apply core_fields in Hc as [_ [Hfv _]]. now rewrite Hfv.
Qed.

(** *** The BIDS database directory *)

Lemma get_dpath_bids_db_value (n v : string) (p s : option string)
    (b : Path) (l : DatasetLayout) :
  fst (__getattribute__ "dpath_bids_db" l) = Return (VPath b) ->
  fst (get_dpath_bids_db n v p s l)
  = Return (b / Pathlib.of_string (get_pipeline_tag n v p s))%path.
Proof.
  intros Hb. unfold get_dpath_bids_db. now rewrite (bind_value _ _ l _ Hb).
Qed.

(** X1.  The BIDS database directory of a pipeline run is the resolved
    [dpath_bids_db] joined with the pipeline tag.  With a tag that is a
    relative path it lies below [dpath_bids_db].  Two participants whose
    tags are relative paths have the same database directory exactly when
    the two tags parse to the same path: tags that are different single
    path components give different directories, and tags that differ as
    strings only, as by a trailing separator, give the same one. *)
Theorem bids_db_directory (fs : FileSystem)
    (dpath_root : Pathlib.PathLike) (fpath_config : option Pathlib.PathLike)
    (l0 : DatasetLayout) (ops : list Op)
    (pipeline_name pipeline_version : string)
    (participant session : option string) :
  Base_free_of_labels ->
  DatasetLayout_init fs dpath_root fpath_config = Return l0 ->
  let tag := fun participant =>
    get_pipeline_tag pipeline_name pipeline_version participant session in
  let db := fun participant =>
    fst (get_dpath_bids_db pipeline_name pipeline_version participant session
                           (run ops l0)) in
  exists b : Path,
    fst (__getattribute__ "dpath_bids_db" (run ops l0)) = Return (VPath b)
    /\ db participant
       = Return (b / Pathlib.of_string (tag participant))%path
    /\ (Pathlib.is_absolute (Pathlib.of_string (tag participant)) = false ->
        Pathlib.is_relative_to
          (b / Pathlib.of_string (tag participant))%path b = true)
    /\ (forall other : option string,
          Pathlib.is_absolute (Pathlib.of_string (tag participant)) = false ->
          Pathlib.is_absolute (Pathlib.of_string (tag other)) = false ->
          (db participant = db other
           <-> Pathlib.of_string (tag participant)
               = Pathlib.of_string (tag other)))
    /\ (forall other : option string,
          Pathlib.valid_name (tag participant) = true ->
          Pathlib.valid_name (tag other) = true ->
          tag participant <> tag other ->
          db participant <> db other).
Proof.
  intros HB Hinit tag db.
  destruct (label_reached fs dpath_root fpath_config l0 "dpath_bids_db"
              HB Hinit) as [info [_ Hb]].
  { apply str_in_true. vm_compute. reflexivity. }
  exists (Pathlib.make dpath_root / path info)%path.
  assert (Hdb : forall q, db q
            = Return (Pathlib.make dpath_root / path info
                      / Pathlib.of_string (tag q))%path).
  { intros q. unfold db, tag.
    now rewrite (get_dpath_bids_db_value _ _ q session _ _ (Hb ops)). }
  assert (Hsame : forall other,
            Pathlib.is_absolute (Pathlib.of_string (tag participant)) = false ->
            Pathlib.is_absolute (Pathlib.of_string (tag other)) = false ->
            (db participant = db other
             <-> Pathlib.of_string (tag participant)
                 = Pathlib.of_string (tag other))).
  { intros other H1 H2. rewrite !Hdb. split.
    - intros [= E]. now apply (truediv_relative_inj _ _ _ H1 H2 E).
    - intros E. now rewrite E. }
  split; [apply Hb |]. split; [apply Hdb |].
  split; [apply truediv_is_relative_to |]. split; [exact Hsame |].
  intros other V1 V2 Hne E. apply Hne.
  assert (R1 : Pathlib.is_absolute (Pathlib.of_string (tag participant))
               = false)
    by (now rewrite (of_string_valid_name _ V1)).
  assert (R2 : Pathlib.is_absolute (Pathlib.of_string (tag other)) = false)
    by (now rewrite (of_string_valid_name _ V2)).
  apply (Hsame other R1 R2) in E.
  rewrite (of_string_valid_name _ V1), (of_string_valid_name _ V2) in E.
  now injection E.
Qed.

(** *** Work and output directories *)

Lemma work_output_apart (d q : Path) :
  Pathlib.is_absolute q = false ->
  let w := (d / Pathlib.of_string "work" / q)%path in
  let o := (d / Pathlib.of_string "output")%path in
  w <> o
  /\ Pathlib.is_relative_to w o = false
  /\ Pathlib.is_relative_to o w = false.
Proof.
  intros Hq w o. subst w o. rewrite (truediv_relative _ q Hq).
  change (Pathlib.of_string "work") with (Pathlib.mkPath "" ["work"]).
  change (Pathlib.of_string "output") with (Pathlib.mkPath "" ["output"]).
  destruct d as [r t]. unfold Pathlib.truediv, Pathlib.is_relative_to.
  cbn [Pathlib.is_absolute Pathlib.root Pathlib.tail String.eqb negb].
  rewrite <- app_assoc, !is_prefix_app_both, String.eqb_refl.
  split; [| split; reflexivity].
  intros [= E]. apply app_inv_head in E. discriminate E.
Qed.

(** X2.  With a tag that is a relative path, the work directory of a
    pipeline run and the output directory of the pipeline are different
    paths and neither lies below the other. *)
Theorem work_and_output_do_not_nest (fs : FileSystem)
    (dpath_root : Pathlib.PathLike) (fpath_config : option Pathlib.PathLike)
    (l0 : DatasetLayout) (ops : list Op)
    (pipeline_name pipeline_version : string)
    (participant session : option string) :
  Base_free_of_labels ->
  DatasetLayout_init fs dpath_root fpath_config = Return l0 ->
  Pathlib.is_absolute
    (Pathlib.of_string
       (get_pipeline_tag pipeline_name pipeline_version participant session))
  = false ->
  exists w o : Path,
    fst (get_dpath_pipeline_work pipeline_name pipeline_version
                                 participant session (run ops l0)) = Return w
    /\ fst (get_dpath_pipeline_output pipeline_name pipeline_version
                                      (run ops l0)) = Return o
    /\ w <> o
    /\ Pathlib.is_relative_to w o = false
    /\ Pathlib.is_relative_to o w = false.
Proof.
  intros HB Hinit Hrel.
  destruct (get_dpath_pipeline_reached fs dpath_root fpath_config l0
              pipeline_name pipeline_version HB Hinit) as [d Hd].
  destruct (reached fs dpath_root fpath_config l0 ops Hinit) as [Hg _].
  destruct (reached_names fs dpath_root fpath_config l0 ops Hinit)
    as [Hw Ho].
  exists (d / Pathlib.of_string "work"
            / Pathlib.of_string
                (get_pipeline_tag pipeline_name pipeline_version
                                  participant session))%path,
         (d / Pathlib.of_string "output")%path.
  split.
  { rewrite (get_dpath_pipeline_work_value _ _ participant session d _ Hg
               (Hd ops)). now rewrite Hw. }
  split.
  { rewrite (get_dpath_pipeline_output_value _ _ d _ Hg (Hd ops)).
    now rewrite Ho. }
  now apply work_output_apart.
Qed.

(** *** Joining with the root *)

(** X3.  [get_full_path] returns an absolute argument as it is, the root
    being dropped; a relative argument gives a path below the root, and
    the empty string gives the root itself.  The resolver is left as it
    was. *)
Theorem get_full_path_edges (l : DatasetLayout) (path : Pathlib.PathLike) :
  (Pathlib.is_absolute (Pathlib.make path) = true ->
   get_full_path path l = (Return (Pathlib.make path), l))
  /\ (Pathlib.is_absolute (Pathlib.make path) = false ->
      exists full,
        get_full_path path l = (Return full, l)
        /\ Pathlib.is_relative_to full (DatasetLayout.dpath_root l) = true)
  /\ get_full_path (Pathlib.OfStr "") l
     = (Return (DatasetLayout.dpath_root l), l).
Proof.
  unfold get_full_path, read. split; [| split].
  - intros H. now rewrite (truediv_absolute _ _ H).
  - intros H. eexists. split; [reflexivity |].
    now apply truediv_is_relative_to.
  - cbn [Pathlib.make]. now rewrite truediv_empty.
Qed.

(** *** The pipeline directory *)

(** X4.  The pipeline directory is the resolved [dpath_derivatives]
    joined with the name and the version.  With a relative name and
    version it lies below [dpath_derivatives]; an absolute version is
    returned as it is and an absolute name drops the dataset root; two
    versions that are distinct single components give distinct
    directories. *)
Theorem pipeline_directory_edges (fs : FileSystem)
    (dpath_root : Pathlib.PathLike) (fpath_config : option Pathlib.PathLike)
    (l0 : DatasetLayout) (ops : list Op)
    (pipeline_name pipeline_version : string) :
  Base_free_of_labels ->
  DatasetLayout_init fs dpath_root fpath_config = Return l0 ->
  let name := Pathlib.of_string pipeline_name in
  let version := Pathlib.of_string pipeline_version in
  exists derivatives : Path,
    fst (__getattribute__ "dpath_derivatives" (run ops l0))
    = Return (VPath derivatives)
    /\ fst (get_dpath_pipeline pipeline_name pipeline_version (run ops l0))
       = Return (derivatives / name / version)%path
    /\ (Pathlib.is_absolute name = false ->
        Pathlib.is_absolute version = false ->
        Pathlib.is_relative_to (derivatives / name / version)%path
                               derivatives = true)
    /\ (Pathlib.is_absolute version = true ->
        (derivatives / name / version)%path = version)
    /\ (Pathlib.is_absolute name = true ->
        (derivatives / name / version)%path = (name / version)%path)
    /\ (forall other : string,
          Pathlib.valid_name pipeline_version = true ->
          Pathlib.valid_name other = true ->
          pipeline_version <> other ->
          fst (get_dpath_pipeline pipeline_name pipeline_version (run ops l0))
          <> fst (get_dpath_pipeline pipeline_name other (run ops l0))).
Proof.
  intros HB Hinit name version.
  destruct (label_reached fs dpath_root fpath_config l0 "dpath_derivatives"
              HB Hinit) as [info [Hin Hd]].
  { apply str_in_true. vm_compute. reflexivity. }
  destruct (reached fs dpath_root fpath_config l0 ops Hinit)
    as [Hg [Hc [_ [_ Hres]]]].
  assert (Hpipe : forall v,
            fst (get_dpath_pipeline pipeline_name v (run ops l0))
            = Return (Pathlib.make dpath_root / path info / name
                        / Pathlib.of_string v)%path).
  { intros v. rewrite (get_dpath_pipeline_value pipeline_name v info _ HB Hg).
    - now rewrite Hres.
    - apply core_fields in Hc as [_ [Hfv _]]. now rewrite Hfv. }
  exists (Pathlib.make dpath_root / path info)%path.
  split; [apply Hd |]. split; [apply Hpipe |]. split; [| split; [| split]].
  - intros Hn Hv. rewrite (truediv_relative _ _ Hv), (truediv_relative _ _ Hn).
    unfold Pathlib.is_relative_to. cbn [Pathlib.root Pathlib.tail].
    now rewrite String.eqb_refl, <- app_assoc, is_prefix_app.
  - intros Hv. now apply truediv_absolute.
  - intros Hn. now rewrite (truediv_absolute _ _ Hn).
  - intros other V1 V2 Hne. rewrite !Hpipe. intros [= E].
    rewrite (of_string_valid_name _ V1), (of_string_valid_name _ V2) in E.
    apply truediv_relative_inj in E; [| reflexivity | reflexivity].
    injection E as E. now apply Hne.
Qed.

(** *** The derived views of the schema *)

Lemma keys_values_aligned {V : Type} (d : dict V) :
  NoDup (dict_keys d) ->
  Forall2 (fun k v => dict_get d k = Some v) (dict_keys d) (dict_values d).
Proof.
  intros Hnd.
  assert (H : forall s, incl s d ->
            Forall2 (fun k v => dict_get d k = Some v)
                    (dict_keys s) (dict_values s)).
  { induction s as [| [k v] s IH]; intros Hincl; simpl; constructor.
    - apply dict_get_In; [exact Hnd |]. apply Hincl. now left.
    - apply IH. intros x Hx. apply Hincl. now right. }
  apply H. apply incl_refl.
Qed.

Lemma path_infos_fills (c : LayoutConfig) :
  NoDup (dict_keys (LayoutConfig.field_values c)) ->
  config_cached c ->
  LayoutConfig.path_infos_cache (snd (path_infos c))
  = Some (dict_values (LayoutConfig.field_values c)).
Proof.
  intros Hnd Hc. unfold path_infos.
  destruct (LayoutConfig.path_infos_cache c) as [infos |] eqn:E.
  - destruct Hc as [_ [Hi | Hi]]; [congruence |]. simpl. congruence.
  - destruct (path_labels_spec c Hc) as [H1 [H2 _]].
    destruct (path_labels c) as [ls c1]. simpl in *. subst ls.
    rewrite <- H2. rewrite getattr_each_keys by (rewrite H2; assumption).
    reflexivity.
Qed.

Lemma loaded_config (data : dict json) (c : LayoutConfig) :
  LayoutConfig_init data = Return c ->
  conforms c /\ config_cached c
  /\ LayoutConfig.path_labels_cache c = None
  /\ LayoutConfig.path_infos_cache c = None.
Proof.
  intros H. apply LayoutConfig_init_Return in H as [_ [-> Hc]].
  split; [exact Hc |]. split; [split; left; reflexivity |].
  split; reflexivity.
Qed.

(** X5.  On a loaded schema [path_labels] gives the declared labels in
    declaration order and [path_infos] gives as many entries, the i-th
    being [get_path_info] of the i-th label; the two views give the same
    whichever is read first, and a second read gives the first result. *)
Theorem path_views_aligned (data : dict json) (c : LayoutConfig) :
  LayoutConfig_init data = Return c ->
  exists infos : list PathInfo,
    fst (path_labels c) = map fst LayoutConfig.model_fields
    /\ fst (path_infos c) = Return infos
    /\ length infos = length (fst (path_labels c))
    /\ Forall2 (fun label info => get_path_info c label = Return info)
               (fst (path_labels c)) infos
    /\ fst (path_infos (snd (path_labels c))) = Return infos
    /\ fst (path_labels (snd (path_infos c))) = fst (path_labels c)
    /\ fst (path_infos (snd (path_infos c))) = Return infos.
Proof.
  intros Hinit. destruct (loaded_config data c Hinit) as [Hconf [Hcc _]].
  pose proof (conforms_NoDup c Hconf) as Hnd.
  destruct (path_labels_spec c Hcc) as [Hl [Hlfv Hlc]].
  destruct (path_infos_spec c Hnd Hcc) as [Hi [Hifv Hic]].
  exists (dict_values (LayoutConfig.field_values c)).
  split; [rewrite Hl; now apply conforms_keys |].
  split; [exact Hi |]. split; [| split; [| split; [| split]]].
  - rewrite Hl. unfold dict_keys, dict_values. now rewrite !length_map.
  - rewrite Hl. unfold get_path_info.
    eapply Forall2_impl; [| apply keys_values_aligned; exact Hnd].
    intros k v Hk. cbn beta in Hk. now rewrite Hk.
  - destruct (path_infos_spec (snd (path_labels c))) as [H _];
      [now rewrite Hlfv | exact Hlc |]. now rewrite H, Hlfv.
  - destruct (path_labels_spec (snd (path_infos c)) Hic) as [H _].
    now rewrite H, Hifv, Hl.
  - destruct (path_infos_spec (snd (path_infos c))) as [H _];
      [now rewrite Hifv | exact Hic |]. now rewrite H, Hifv.
Qed.

Lemma dict_keys_set {V : Type} (d : dict V) (key : string) (v : V) :
  In key (dict_keys d) -> dict_keys (dict_set d key v) = dict_keys d.
Proof.
  induction d as [| [k w] d IH]; simpl; [contradiction |].
  destruct (String.eqb_spec k key) as [-> | Hne]; [reflexivity |].
  intros [H | H]; [contradiction |]. simpl. now rewrite (IH H).
Qed.

Lemma dict_values_set {V : Type} (d : dict V) (key : string) (v : V) :
  In key (dict_keys d) -> In v (dict_values (dict_set d key v)).
Proof.
  induction d as [| [k w] d IH]; simpl; [contradiction |].
  destruct (String.eqb_spec k key) as [-> | Hne]; [now left |].
  intros [H | H]; [contradiction |]. simpl. right. now apply IH.
Qed.

Lemma dict_get_set_same {V : Type} (d : dict V) (key : string) (v : V) :
  dict_get (dict_set d key v) key = Some v.
Proof.
  induction d as [| [k w] d IH]; simpl.
  - now rewrite String.eqb_refl.
  - destruct (String.eqb_spec k key) as [-> | Hne]; simpl.
    + now rewrite String.eqb_refl.
    + destruct (String.eqb_spec k key); [contradiction | exact IH].
Qed.

Lemma dict_get_set_other {V : Type} (d : dict V) (key other : string) (v : V) :
  other <> key -> dict_get (dict_set d key v) other = dict_get d other.
Proof.
  intros Hne. induction d as [| [k w] d IH]; simpl.
  - destruct (String.eqb_spec key other); [congruence | reflexivity].
  - destruct (String.eqb_spec k key) as [-> | Hk]; simpl.
    + destruct (String.eqb_spec key other); [congruence | reflexivity].
    + now rewrite IH.
Qed.

(** X6.  [path_infos] is computed once: after it has been read, an
    assignment to a field of the schema is seen by [get_path_info] but not
    by [path_infos], which still gives the entries from before the
    assignment; an assignment made before the first read is seen by
    both. *)
Theorem path_infos_is_stale_after_assignment (data : dict json)
    (c : LayoutConfig) (name : string) (value : PathInfo) :
  LayoutConfig_init data = Return c ->
  In name (map fst LayoutConfig.model_fields) ->
  (exists c2,
     LayoutConfig_setattr (snd (path_infos c)) name value = Return c2
     /\ get_path_info c2 name = Return value
     /\ fst (path_infos c2) = fst (path_infos c))
  /\ (exists c3 infos,
        LayoutConfig_setattr c name value = Return c3
        /\ get_path_info c3 name = Return value
        /\ fst (path_infos c3) = Return infos
        /\ In value infos).
Proof.
  intros Hinit Hname.
  destruct (loaded_config data c Hinit) as [Hconf [Hcc [Hln Hin]]].
  pose proof (conforms_NoDup c Hconf) as Hnd.
  destruct (path_infos_spec c Hnd Hcc) as [Hi [Hifv _]].
  pose proof (path_infos_fills c Hnd Hcc) as Hfill.
  assert (Hkey : In name (dict_keys (LayoutConfig.field_values c)))
    by now rewrite (conforms_keys c Hconf).
  split.
  - eexists. split; [now apply LayoutConfig_setattr_field |].
    split.
    + unfold get_path_info. cbn [LayoutConfig.field_values].
      now rewrite dict_get_set_same.
    + unfold path_infos at 1. cbn [LayoutConfig.path_infos_cache].
      rewrite Hfill. cbn [fst]. now rewrite Hi.
  - eexists. eexists. split; [now apply LayoutConfig_setattr_field |].
    split.
    + unfold get_path_info. cbn [LayoutConfig.field_values].
      now rewrite dict_get_set_same.
    + rewrite Hln, Hin.
      match goal with
      | |- fst (path_infos ?c3) = _ /\ _ =>
          destruct (path_infos_spec c3) as [H3 _]
      end.
      * cbn [LayoutConfig.field_values]. now rewrite dict_keys_set.
      * split; left; reflexivity.
      * split; [exact H3 |]. cbn [LayoutConfig.field_values].
        now apply dict_values_set.
Qed.

(** *** From the document to the schema *)

Lemma validate_PathInfo_Valid (cls : InfoClass) (loc : list string)
    (v : json) (i : PathInfo) :
  validate_PathInfo cls loc v = Valid i ->
  exists members s,
    v = JObject members
    /\ dict_get members "path" = Some (JString s)
    /\ i = mkPathInfo cls (Pathlib.of_string s)
             match dict_get members "description" with
             | Some (JString d) => Some d
             | _ => None
             end.
Proof.
  unfold validate_PathInfo, validate_path, validate_description.
  destruct v; try discriminate.
  destruct (dict_get members "path") as [[] |] eqn:Hp; try discriminate;
    destruct (dict_get members "description") as [[] |] eqn:Hd;
    try discriminate; intros [= <-]; exists members, s;
    rewrite Hd; auto.
Qed.

Lemma validate_fields_get (fields : list (string * InfoClass))
    (data : dict json) (name : string) (cls : InfoClass) :
  NoDup (map fst fields) ->
  fst (validate_fields fields data) = [] ->
  In (name, cls) fields ->
  exists v i,
    dict_get data name = Some v
    /\ validate_PathInfo cls [name] v = Valid i
    /\ dict_get (snd (validate_fields fields data)) name = Some i.
Proof.
  induction fields as [| [n k] rest IH]; simpl; [contradiction |].
  intros Hnd Herr Hin. inversion Hnd as [| ? ? Hnotin Hnd']; subst.
  destruct (validate_fields rest data) as [errs vals]. simpl in *.
  destruct (dict_get data n) as [v |] eqn:Hv; [| discriminate].
  destruct (validate_PathInfo k [n] v) as [i | es] eqn:E; simpl in *.
  - destruct Hin as [[= -> ->] | Hin].
    + exists v, i. rewrite String.eqb_refl. auto.
    + destruct (IH Hnd' Herr Hin) as [v' [i' [H1 [H2 H3]]]].
      exists v', i'. split; [exact H1 |]. split; [exact H2 |].
      destruct (String.eqb_spec n name) as [-> | _]; [| exact H3].
      exfalso. apply Hnotin. change name with (fst (name, cls)).
      now apply in_map.
  - apply app_eq_nil in Herr as [Herr _].
    now apply validate_PathInfo_errors in E.
Qed.

(** The field that loading stores for a declared label, read off the
    document. *)
Lemma loaded_field (data : dict json) (c : LayoutConfig)
    (name : string) (cls : InfoClass) :
  LayoutConfig_init data = Return c ->
  In (name, cls) LayoutConfig.model_fields ->
  exists members s,
    dict_get data name = Some (JObject members)
    /\ dict_get members "path" = Some (JString s)
    /\ dict_get (LayoutConfig.field_values c) name
       = Some (mkPathInfo cls (Pathlib.of_string s)
                 match dict_get members "description" with
                 | Some (JString d) => Some d
                 | _ => None
                 end).
Proof.
  intros Hinit Hin.
  pose proof (LayoutConfig_init_Return data c Hinit) as [Hw [-> _]].
  apply andb_true_iff in Hw as [Hw _].
  apply validate_fields_no_errors in Hw.
  destruct (validate_fields_get _ data name cls model_fields_NoDup Hw Hin)
    as [v [i [Hv [Hi Hget]]]].
  destruct (validate_PathInfo_Valid _ _ _ _ Hi) as [members [s [-> [Hp ->]]]].
  exists members, s. split; [exact Hv |]. split; [exact Hp |].
  cbn [LayoutConfig.field_values]. exact Hget.
Qed.

(** X7.  What the document declares for a label is what the loaded
    schema holds for it: the entry's path is the parsed [path] string, its
    description is the [description] string (none when it is absent or
    null), and its class is the class declared for the label. *)
Theorem document_entry_round_trip (data : dict json) (c : LayoutConfig)
    (name : string) (cls : InfoClass) :
  LayoutConfig_init data = Return c ->
  In (name, cls) LayoutConfig.model_fields ->
  exists members s,
    dict_get data name = Some (JObject members)
    /\ dict_get members "path" = Some (JString s)
    /\ get_path_info c name
       = Return (mkPathInfo cls (Pathlib.of_string s)
                   match dict_get members "description" with
                   | Some (JString d) => Some d
                   | _ => None
                   end).
Proof.
  intros Hinit Hin.
  destruct (loaded_field data c name cls Hinit Hin)
    as [members [s [Hd [Hp Hget]]]].
  exists members, s. split; [exact Hd |]. split; [exact Hp |].
  unfold get_path_info. now rewrite Hget.
Qed.

(** What a successful construction has read. *)
Lemma init_loads (fs : FileSystem) (dpath_root : Pathlib.PathLike)
    (fpath_config : option Pathlib.PathLike) (l0 : DatasetLayout) :
  DatasetLayout_init fs dpath_root fpath_config = Return l0 ->
  exists data,
    fs (document_path fpath_config)
    = Some (File (JsonDocument (JObject data)))
    /\ LayoutConfig_init data = Return (DatasetLayout.config l0)
    /\ DatasetLayout.fpath_spec l0 = document_path fpath_config.
Proof.
  unfold DatasetLayout_init. fold (document_path fpath_config).
  unfold Path_exists, load_json.
  destruct (fs (document_path fpath_config)) as [[| [[] |]] |];
    try discriminate.
  cbn [negb].
  destruct (LayoutConfig_init members) as [c | e] eqn:E; [| discriminate].
  intros [= <-]. exists members. auto.
Qed.

(** X8.  Lookup of a label on a constructed resolver gives the root
    joined with the path that the schema document read at construction
    declares for the label, after every sequence of calls. *)
Theorem lookup_resolves_document_path (fs : FileSystem)
    (dpath_root : Pathlib.PathLike) (fpath_config : option Pathlib.PathLike)
    (l0 : DatasetLayout) (data : dict json) (name : string) :
  Base_free_of_labels ->
  DatasetLayout_init fs dpath_root fpath_config = Return l0 ->
  fs (document_path fpath_config)
  = Some (File (JsonDocument (JObject data))) ->
  In name (map fst LayoutConfig.model_fields) ->
  exists members s,
    dict_get data name = Some (JObject members)
    /\ dict_get members "path" = Some (JString s)
    /\ forall ops,
         fst (__getattribute__ name (run ops l0))
         = Return (VPath (Pathlib.make dpath_root / Pathlib.of_string s)%path).
Proof.
  intros HB Hinit Hfs Hname.
  destruct (init_loads _ _ _ _ Hinit) as [data' [Hfs' [Hload _]]].
  rewrite Hfs in Hfs'. injection Hfs' as <-.
  pose proof Hname as Hcls. apply in_map_iff in Hcls as [[n cls] [Hn Hcls]].
  simpl in Hn. subst n.
  destruct (loaded_field data _ name cls Hload Hcls)
    as [members [s [Hd [Hp Hi]]]].
  exists members, s. split; [exact Hd |]. split; [exact Hp |]. intros ops.
  destruct (reached fs dpath_root fpath_config l0 ops Hinit)
    as [Hg [Hc [_ [_ Hres]]]].
  apply dict_get_Some_In in Hi.
  assert (Hin' : In (name,
                     mkPathInfo cls (Pathlib.of_string s)
                       match dict_get members "description" with
                       | Some (JString d) => Some d
                       | _ => None
                       end)
            (LayoutConfig.field_values (DatasetLayout.config (run ops l0)))).
  { apply core_fields in Hc as [_ [Hfv _]]. now rewrite Hfv. }
  rewrite (getattribute_label name _ (run ops l0)
             (label_not_concrete name HB Hname) Hg Hin').
  rewrite Hres. reflexivity.
Qed.

(** *** Keys of an entry that the schema does not know *)

Lemma dict_get_app_other {V : Type} (d : dict V) (k key : string) (v : V) :
  key <> k -> dict_get (d ++ [(k, v)]) key = dict_get d key.
Proof.
  intros Hne. induction d as [| [k0 w] d IH]; simpl.
  - destruct (String.eqb_spec k key); [congruence | reflexivity].
  - now rewrite IH.
Qed.

Lemma validate_PathInfo_extra_member (cls : InfoClass) (loc : list string)
    (members : dict json) (k : string) (v : json) :
  k <> "path" -> k <> "description" ->
  validate_PathInfo cls loc (JObject (members ++ [(k, v)]))
  = validate_PathInfo cls loc (JObject members).
Proof.
  intros Hp Hd. unfold validate_PathInfo.
  rewrite !dict_get_app_other by congruence. reflexivity.
Qed.

Lemma validate_fields_set (fields : list (string * InfoClass))
    (data : dict json) (name : string) (old new : json) :
  dict_get data name = Some old ->
  (forall cls loc, validate_PathInfo cls loc new
                   = validate_PathInfo cls loc old) ->
  validate_fields fields (dict_set data name new)
  = validate_fields fields data.
Proof.
  intros Hold Hsame. induction fields as [| [n cls] rest IH]; simpl;
    [reflexivity |].
  rewrite IH. destruct (String.eqb_spec n name) as [-> | Hne].
  - rewrite dict_get_set_same, Hold, Hsame. reflexivity.
  - now rewrite dict_get_set_other.
Qed.

(** X9.  A key of a document entry other than [path] and [description]
    is ignored: adding one (for instance ["_is_required"]) to the entry of
    a label leaves the outcome of loading the document unchanged, so the
    kind and the requiredness of an entry cannot be set from the
    document. *)
Theorem entry_extra_key_is_ignored (data members : dict json)
    (name key : string) (value : json) :
  dict_get data name = Some (JObject members) ->
  key <> "path" -> key <> "description" ->
  LayoutConfig_init
    (dict_set data name (JObject (members ++ [(key, value)])))
  = LayoutConfig_init data.
Proof.
  intros Hget Hp Hd. unfold LayoutConfig_init, extra_errors.
  rewrite (validate_fields_set _ data name (JObject members)); try assumption.
  - rewrite dict_keys_set; [reflexivity |].
    destruct (in_dec string_dec name (dict_keys data)) as [H | H];
      [exact H |].
    apply dict_get_None in H. congruence.
  - intros cls loc. now apply validate_PathInfo_extra_member.
Qed.

(** *** When construction succeeds *)

Lemma LayoutConfig_init_ill_formed (data : dict json) :
  well_formed_document data = false ->
  exists errors,
    LayoutConfig_init data = Raise (ValidationError errors) /\ errors <> [].
Proof.
  intros Hw. destruct (LayoutConfig_init data) as [c | e] eqn:E.
  - apply LayoutConfig_init_Return in E as [H _]. congruence.
  - unfold LayoutConfig_init in E.
    destruct (validate_fields LayoutConfig.model_fields data) as [errs vals].
    destruct (errs ++ extra_errors LayoutConfig.model_config
                                   LayoutConfig.model_fields data)
      as [| e0 es]; [discriminate |].
    injection E as <-. eexists. split; [reflexivity | discriminate].
Qed.

(** X10.  Construction succeeds exactly when the document path holds a
    JSON mapping that declares every label with a well-shaped entry and
    nothing else.  A mapping that is not of that form raises the
    [ValidationError] of the schema, with at least one error; a JSON value
    that is not a mapping raises [TypeError]. *)
Theorem construction_succeeds_iff (fs : FileSystem)
    (dpath_root : Pathlib.PathLike) (fpath_config : option Pathlib.PathLike) :
  ((exists l, DatasetLayout_init fs dpath_root fpath_config = Return l)
   <-> exists data,
         fs (document_path fpath_config)
         = Some (File (JsonDocument (JObject data)))
         /\ well_formed_document data = true)
  /\ (forall data,
        fs (document_path fpath_config)
        = Some (File (JsonDocument (JObject data))) ->
        well_formed_document data = false ->
        exists errors,
          DatasetLayout_init fs dpath_root fpath_config
          = Raise (ValidationError errors)
          /\ errors <> [])
  /\ (forall document,
        fs (document_path fpath_config)
        = Some (File (JsonDocument document)) ->
        (forall data, document <> JObject data) ->
        DatasetLayout_init fs dpath_root fpath_config = Raise TypeError).
Proof.
  split; [split |]; [| | split].
  - intros [l Hinit]. destruct (init_loads _ _ _ _ Hinit)
      as [data [Hfs [Hload _]]].
    exists data. split; [exact Hfs |].
    now apply LayoutConfig_init_Return in Hload as [H _].
  - intros [data [Hfs Hw]]. unfold DatasetLayout_init.
    fold (document_path fpath_config). unfold Path_exists, load_json.
    rewrite Hfs. cbn [negb].
    rewrite (LayoutConfig_init_well_formed data Hw). eauto.
  - intros data Hfs Hw. unfold DatasetLayout_init.
    fold (document_path fpath_config). unfold Path_exists, load_json.
    rewrite Hfs. cbn [negb].
    destruct (LayoutConfig_init_ill_formed data Hw) as [errors [-> Hne]].
    eauto.
  - intros document Hfs Hnot. unfold DatasetLayout_init.
    fold (document_path fpath_config). unfold Path_exists, load_json.
    rewrite Hfs. cbn [negb].
    destruct document; try reflexivity. now destruct (Hnot members).
Qed.

(** *** Names that are both attributes and labels *)

Lemma core_fpath_spec (l l' : DatasetLayout) :
  core l' = core l -> DatasetLayout.fpath_spec l' = DatasetLayout.fpath_spec l.
Proof. unfold core. intros H. now inversion H. Qed.

(** X11.  [__init__] does not bind [fpath_config]: on a constructed
    resolver lookup of [fpath_config] gives the root joined with the path
    of the schema entry of that label, while the document path given to
    the constructor is found under [fpath_spec]. *)
Theorem fpath_config_is_the_schema_entry (fs : FileSystem)
    (dpath_root : Pathlib.PathLike) (fpath_config : option Pathlib.PathLike)
    (l0 : DatasetLayout) :
  Base_free_of_labels ->
  DatasetLayout_init fs dpath_root fpath_config = Return l0 ->
  exists info,
    In ("fpath_config", info)
       (LayoutConfig.field_values (DatasetLayout.config l0))
    /\ forall ops,
         fst (__getattribute__ "fpath_config" (run ops l0))
         = Return (VPath (Pathlib.make dpath_root / path info)%path)
         /\ fst (__getattribute__ "fpath_spec" (run ops l0))
            = Return (VPath (document_path fpath_config)).
Proof.
  intros HB Hinit.
  destruct (label_reached fs dpath_root fpath_config l0 "fpath_config"
              HB Hinit) as [info [Hin Hlookup]].
  { apply str_in_true. vm_compute. reflexivity. }
  exists info. split; [exact Hin |]. intros ops. split; [apply Hlookup |].
  destruct (init_loads _ _ _ _ Hinit) as [data [_ [_ Hspec]]].
  destruct (reached fs dpath_root fpath_config l0 ops Hinit) as [_ [Hc _]].
  assert (Hobj : object_getattribute "fpath_spec" (run ops l0)
                 = (Return (VPath (DatasetLayout.fpath_spec (run ops l0))),
                    run ops l0))
    by (apply object_getattribute_instance; reflexivity).
  rewrite (getattribute_found "fpath_spec" (run ops l0)
             (VPath (DatasetLayout.fpath_spec (run ops l0))))
    by (now rewrite Hobj).
  rewrite Hobj. cbn [fst]. now rewrite (core_fpath_spec _ _ Hc), Hspec.
Qed.

Lemma object_getattribute_inherited (name : string) (l : DatasetLayout) :
  defined_here name = false -> Base_attribute name = true ->
  object_getattribute name l = (Return (VInherited name), l).
Proof.
  unfold defined_here. intros H HB.
  apply orb_false_iff in H as [H Hm].
  apply orb_false_iff in H as [Hi Hp].
  unfold str_in, instance_attributes, cached_properties in Hi, Hp.
  simpl in Hi, Hp.
  repeat match goal with
         | H : (_ || _)%bool = false |- _ =>
             apply orb_false_iff in H; destruct H
         end.
  unfold object_getattribute, instance_dict.
  repeat match goal with
         | H : (name =? _) = false |- _ => rewrite H; clear H
         end.
  rewrite Hm, HB. reflexivity.
Qed.

(** X12.  The schema is consulted only when the ordinary lookup fails: a
    label that the base class also defines is shadowed, and lookup of it
    gives the inherited attribute instead of a path. *)
Theorem inherited_attribute_shadows_label (fs : FileSystem)
    (dpath_root : Pathlib.PathLike) (fpath_config : option Pathlib.PathLike)
    (l0 : DatasetLayout) (ops : list Op) (name : string) :
  DatasetLayout_init fs dpath_root fpath_config = Return l0 ->
  In name (labels l0) ->
  Base_attribute name = true ->
  fst (__getattribute__ name (run ops l0)) = Return (VInherited name).
Proof.
  intros Hinit Hlabel HB.
  pose proof (DatasetLayout_init_Return _ _ _ _ Hinit) as [[Hconf _] _].
  unfold labels in Hlabel. rewrite (conforms_keys _ Hconf) in Hlabel.
  pose proof (object_getattribute_inherited name (run ops l0)
                (label_not_defined_here name Hlabel) HB) as H.
  rewrite (getattribute_found name _ (VInherited name)); now rewrite H.
Qed.

(** *** How many paths are listed *)

Lemma conforms_classes (c : LayoutConfig) :
  conforms c ->
  map info_class (dict_values (LayoutConfig.field_values c))
  = map snd LayoutConfig.model_fields.
Proof.
  unfold conforms, dict_values. intros <-. now rewrite !map_map.
Qed.

Lemma select_by_class (d o : bool) (infos : list PathInfo) :
  length (select d o infos)
  = length (filter (fun cls =>
                      Bool.eqb d match cls with
                                 | DpathInfo => true
                                 | _ => false
                                 end
                      && (o || match cls with
                               | OptionalFpathInfo => false
                               | _ => true
                               end))
                   (map info_class infos)).
Proof.
  unfold select, _is_directory, _is_required.
  induction infos as [| i infos IH]; [reflexivity |].
  cbn [filter map]. cbn beta.
  match goal with
  | |- context [if ?c then _ else _] => destruct c
  end; cbn [length]; now rewrite IH.
Qed.

Lemma select_size (d o : bool) (l : DatasetLayout) :
  good l ->
  length (select d o (entries l))
  = if d then 19 else if o then 4 else 2.
Proof.
  intros [Hconf _]. rewrite select_by_class. unfold entries.
  rewrite (conforms_classes _ Hconf). now destruct d, o.
Qed.

(** X13.  Whatever the document, a constructed resolver lists 19
    directory paths (optional ones asked for or not), 2 required file
    paths and 4 file paths when optional ones are asked for; together that
    is one path for each of the 23 labels. *)
Theorem listing_sizes (fs : FileSystem)
    (dpath_root : Pathlib.PathLike) (fpath_config : option Pathlib.PathLike)
    (l0 : DatasetLayout) (ops : list Op) (directory include_optional : bool) :
  DatasetLayout_init fs dpath_root fpath_config = Return l0 ->
  length (labels l0) = 23
  /\ exists paths,
       fst (get_paths directory include_optional (run ops l0)) = Return paths
       /\ length paths
          = if directory then 19 else if include_optional then 4 else 2.
Proof.
  intros Hinit.
  destruct (reached fs dpath_root fpath_config l0 ops Hinit) as [Hg _].
  pose proof (DatasetLayout_init_Return _ _ _ _ Hinit) as [[Hconf _] _].
  split.
  - unfold labels. now rewrite (conforms_keys _ Hconf).
  - eexists. split; [apply (get_paths_value _ _ _ Hg) |].
    rewrite length_map. now apply select_size.
Qed.

(** *** Listings as subsequences *)

Lemma Subsequence_filter {A : Type} (f g : A -> bool) (l : list A) :
  (forall x, f x = true -> g x = true) ->
  Subsequence (filter f l) (filter g l).
Proof.
  intros Himp. induction l as [| x l IH]; simpl; [constructor |].
  destruct (f x) eqn:F.
  - rewrite (Himp x F). now constructor.
  - destruct (g x); [now constructor | exact IH].
Qed.

Lemma Subsequence_filter_all {A : Type} (f : A -> bool) (l : list A) :
  Subsequence (filter f l) l.
Proof.
  induction l as [| x l IH]; simpl; [constructor |].
  destruct (f x); now constructor.
Qed.

Lemma Subsequence_map {A B : Type} (f : A -> B) (l l' : list A) :
  Subsequence l l' -> Subsequence (map f l) (map f l').
Proof. induction 1; simpl; constructor; assumption. Qed.

(** X14.  Asking for optional entries only adds paths: the listing of
    required paths of a kind is a subsequence of the listing with optional
    ones, which is a subsequence of the resolved paths of all entries in
    declaration order. *)
Theorem required_listing_is_subsequence (fs : FileSystem)
    (dpath_root : Pathlib.PathLike) (fpath_config : option Pathlib.PathLike)
    (l0 : DatasetLayout) (ops : list Op) (directory : bool) :
  DatasetLayout_init fs dpath_root fpath_config = Return l0 ->
  exists required every,
    fst (get_paths directory false (run ops l0)) = Return required
    /\ fst (get_paths directory true (run ops l0)) = Return every
    /\ Subsequence required every
    /\ Subsequence every
         (map (fun i => (Pathlib.make dpath_root / path i)%path)
              (entries l0)).
Proof.
  intros Hinit.
  destruct (reached fs dpath_root fpath_config l0 ops Hinit)
    as [Hg [_ [_ [He Hres]]]].
  do 2 eexists.
  split; [apply (get_paths_value _ _ _ Hg) |].
  split; [apply (get_paths_value _ _ _ Hg) |].
  rewrite Hres, He. split; apply Subsequence_map.
  - unfold select. apply Subsequence_filter. intros i H.
    apply andb_true_iff in H as [H1 _]. rewrite H1. reflexivity.
  - unfold select. apply Subsequence_filter_all.
Qed.

(** *** Descriptions *)

Lemma describe_Subsequence (root : Path) (infos : list PathInfo) :
  Subsequence (map fst (describe root infos))
              (map (fun i => (root / path i)%path)
                   (select true false infos)).
Proof.
  unfold describe, select. induction infos as [| i infos IH];
    [constructor |].
  cbn [flat_map filter].
  destruct (_is_directory i) eqn:D.
  - rewrite (directory_is_required i D). cbn [Bool.eqb orb andb map].
    destruct (description i); cbn [app map fst]; now constructor.
  - cbn [Bool.eqb andb app]. exact IH.
Qed.

Lemma describe_all (root : Path) (infos : list PathInfo) :
  (forall i, In i infos -> _is_directory i = true -> description i <> None) ->
  map fst (describe root infos)
  = map (fun i => (root / path i)%path) (select true false infos).
Proof.
  unfold describe, select. induction infos as [| i infos IH]; intros H;
    [reflexivity |].
  cbn [flat_map filter].
  assert (IH' := IH (fun j Hj => H j (or_intror Hj))).
  destruct (_is_directory i) eqn:D.
  - rewrite (directory_is_required i D). cbn [Bool.eqb orb andb map].
    destruct (description i) eqn:Ed.
    + cbn [app map fst]. now rewrite IH'.
    + exfalso. now apply (H i (or_introl eq_refl) D).
  - cbn [Bool.eqb andb app]. exact IH'.
Qed.

Lemma describe_In (root : Path) (infos : list PathInfo) (p : Path)
    (d : string) :
  In (p, d) (describe root infos)
  <-> exists i, In i infos /\ _is_directory i = true
                /\ description i = Some d /\ p = (root / path i)%path.
Proof.
  unfold describe. rewrite in_flat_map. split.
  - intros [i [Hi Hin]]. exists i.
    destruct (_is_directory i); [| contradiction].
    destruct (description i) as [d' |]; [| contradiction].
    destruct Hin as [[= <- <-] | []]. auto.
  - intros [i [Hi [D [Ed ->]]]]. exists i. split; [exact Hi |].
    rewrite D, Ed. now left.
Qed.

(** X15.  [dpath_descriptions] pairs the resolved path of each directory
    entry that has a description with that description, in declaration
    order: its paths are a subsequence of [dpaths], all of [dpaths] when
    every directory entry has a description, and a directory entry
    without a description is left out. *)
Theorem descriptions_follow_dpaths (fs : FileSystem)
    (dpath_root : Pathlib.PathLike) (fpath_config : option Pathlib.PathLike)
    (l0 : DatasetLayout) (ops : list Op) :
  DatasetLayout_init fs dpath_root fpath_config = Return l0 ->
  exists descriptions directories,
    fst (dpath_descriptions (run ops l0)) = Return descriptions
    /\ fst (dpaths (run ops l0)) = Return directories
    /\ Subsequence (map fst descriptions) directories
    /\ ((forall i, In i (entries l0) -> _is_directory i = true ->
                   description i <> None) ->
        map fst descriptions = directories)
    /\ (forall p d,
          In (p, d) descriptions
          <-> exists i, In i (entries l0) /\ _is_directory i = true
                        /\ description i = Some d
                        /\ p = (Pathlib.make dpath_root / path i)%path).
Proof.
  intros Hinit.
  destruct (reached fs dpath_root fpath_config l0 ops Hinit)
    as [Hg [_ [Hr [He Hres]]]].
  destruct (dpath_descriptions_spec _ Hg) as [Hd _].
  destruct (dpaths_spec _ Hg) as [Hp _].
  do 2 eexists. split; [exact Hd |]. split; [exact Hp |].
  rewrite Hres, He, Hr. split; [apply describe_Subsequence |].
  split; [apply describe_all | apply describe_In].
Qed.

(** *** Validation on particular disks *)

Lemma absent_all (fs : FileSystem) (paths : list Path) :
  (forall p, Path_exists fs p = false) -> absent fs paths = paths.
Proof.
  intros H. unfold absent. induction paths as [| p paths IH];
    [reflexivity |].
  simpl. now rewrite (H p), IH.
Qed.

(** X16.  On a disk where nothing exists [validate] raises the error
    that lists every required path: the 19 directory paths of [dpaths]
    followed by the 2 file paths of [fpaths], 21 in all. *)
Theorem validate_on_empty_disk (fs0 : FileSystem)
    (dpath_root : Pathlib.PathLike) (fpath_config : option Pathlib.PathLike)
    (l0 : DatasetLayout) (ops : list Op) (fs : FileSystem) :
  DatasetLayout_init fs0 dpath_root fpath_config = Return l0 ->
  (forall p, Path_exists fs p = false) ->
  exists directories files,
    fst (dpaths (run ops l0)) = Return directories
    /\ fst (fpaths (run ops l0)) = Return files
    /\ fst (validate fs (run ops l0))
       = Raise (FileNotFoundError
                  (MissingPaths 21 (map Pathlib.str (directories ++ files)))).
Proof.
  intros Hinit Hnone.
  destruct (reached fs0 dpath_root fpath_config l0 ops Hinit) as [Hg _].
  destruct (dpaths_spec _ Hg) as [Hd _].
  destruct (fpaths_spec _ Hg) as [Hf _].
  do 2 eexists. split; [exact Hd |]. split; [exact Hf |].
  rewrite (validate_value fs _ Hg). unfold required_dpaths, required_fpaths.
  rewrite !(absent_all fs _ Hnone).
  assert (Hlen : length (map (resolved (run ops l0))
                             (select true false (entries (run ops l0)))
                         ++ map (resolved (run ops l0))
                                (select false false (entries (run ops l0))))
                 = 21).
  { rewrite length_app, !length_map.
    now rewrite (select_size true false _ Hg), (select_size false false _ Hg). }
  destruct (map (resolved (run ops l0))
                (select true false (entries (run ops l0)))
            ++ map (resolved (run ops l0))
                   (select false false (entries (run ops l0))))
    as [| p ps] eqn:E; [discriminate |].
  now rewrite Hlen.
Qed.

Lemma filter_none {A : Type} (f : A -> bool) (l : list A) :
  (forall q, In q l -> f q = false) -> filter f l = [].
Proof.
  induction l as [| x l IH]; simpl; intros H; [reflexivity |].
  rewrite (H x (or_introl eq_refl)). apply IH.
  intros q Hq. apply H. now right.
Qed.

Lemma filter_single {A : Type} (f : A -> bool) (l : list A) (p : A) :
  NoDup l -> In p l -> f p = true ->
  (forall q, In q l -> q <> p -> f q = false) ->
  filter f l = [p].
Proof.
  induction l as [| x l IH]; simpl; [contradiction |].
  intros Hnd Hin Hp Hothers. inversion Hnd as [| ? ? Hnotin Hnd']; subst.
  destruct Hin as [-> | Hin].
  - rewrite Hp. f_equal. apply filter_none. intros q Hq.
    apply Hothers; [now right |]. intros ->. contradiction.
  - rewrite (Hothers x); [| now left | intros ->; contradiction].
    apply IH; try assumption. intros q Hq. apply Hothers. now right.
Qed.

(** X17.  When the required paths are pairwise distinct and exactly one
    of them is missing, [validate] raises the error that names that path
    alone, with count 1. *)
Theorem validate_names_the_single_missing_path (fs0 : FileSystem)
    (dpath_root : Pathlib.PathLike) (fpath_config : option Pathlib.PathLike)
    (l0 : DatasetLayout) (ops : list Op) (fs : FileSystem) (p : Path) :
  DatasetLayout_init fs0 dpath_root fpath_config = Return l0 ->
  let resolve := fun i => (Pathlib.make dpath_root / path i)%path in
  let required :=
    map resolve (filter (fun i => _is_directory i && _is_required i)
                        (entries l0))
    ++ map resolve (filter (fun i => negb (_is_directory i)
                                     && _is_required i)
                           (entries l0)) in
  NoDup required ->
  In p required ->
  Path_exists fs p = false ->
  (forall q, In q required -> q <> p -> Path_exists fs q = true) ->
  fst (validate fs (run ops l0))
  = Raise (FileNotFoundError (MissingPaths 1 [Pathlib.str p])).
Proof.
  intros Hinit resolve required Hnd Hin Hmiss Hothers.
  rewrite (validate_reached fs0 dpath_root fpath_config l0 ops fs Hinit).
  fold resolve. fold required. unfold absent.
  rewrite (filter_single _ required p Hnd Hin).
  - reflexivity.
  - now rewrite Hmiss.
  - intros q Hq Hne. now rewrite (Hothers q Hq Hne).
Qed.

(** X18.  The strings listed in the error of [validate] identify the
    missing paths: parsed as paths they give back the list of
    [_find_missing_paths], and the count in the message is their
    number. *)
Theorem reported_paths_parse_back (fs0 : FileSystem)
    (dpath_root : Pathlib.PathLike) (fpath_config : option Pathlib.PathLike)
    (l0 : DatasetLayout) (ops : list Op) (fs : FileSystem)
    (count : nat) (paths : list string) :
  DatasetLayout_init fs0 dpath_root fpath_config = Return l0 ->
  Pathlib.wf (Pathlib.make dpath_root) = true ->
  fst (validate fs (run ops l0))
  = Raise (FileNotFoundError (MissingPaths count paths)) ->
  fst (_find_missing_paths fs (run ops l0))
  = Return (map Pathlib.of_string paths)
  /\ count = length paths.
Proof.
  intros Hinit Hwf Hval.
  destruct (reached fs0 dpath_root fpath_config l0 ops Hinit)
    as [Hg [_ [_ [He Hres]]]].
  rewrite (validate_value fs _ Hg) in Hval.
  rewrite (find_missing_paths_value fs _ Hg).
  assert (Hall : forall q,
            In q (absent fs (required_dpaths (run ops l0))
                  ++ absent fs (required_fpaths (run ops l0))) ->
            Pathlib.wf q = true).
  { intros q Hq. apply in_app_or in Hq.
    assert (Hq' : exists i, In i (entries l0)
                            /\ q = (Pathlib.make dpath_root / path i)%path).
    { destruct Hq as [Hq | Hq]; apply absent_In in Hq as [Hq _];
        unfold required_dpaths, required_fpaths, select in Hq;
        rewrite Hres, He in Hq; apply in_map_iff in Hq as [i [<- Hi]];
        apply filter_In in Hi as [Hi _]; eauto. }
    destruct Hq' as [i [Hi ->]]. apply wf_truediv; [exact Hwf |].
    eapply loaded_entries_wf; eassumption. }
  destruct (absent fs (required_dpaths (run ops l0))
            ++ absent fs (required_fpaths (run ops l0))) as [| q qs];
    [discriminate |].
  cbv zeta in Hval. injection Hval as <- <-.
  change (Pathlib.str q :: map Pathlib.str qs)
    with (map Pathlib.str (q :: qs)).
  rewrite length_map, map_map. split; [| reflexivity].
  f_equal. symmetry.
  transitivity (map (fun x : Path => x) (q :: qs));
    [| apply map_id].
  apply map_ext_in. intros a Ha. apply of_string_str. now apply Hall.
Qed.

(** *** The root as a path or as a string *)

(** X19.  The constructor takes the root, and the document path, as a
    path or as a string: a well-formed path and its string give the same
    outcome. *)
Theorem construction_from_path_or_string (fs : FileSystem)
    (root document : Path) (dpath_root : Pathlib.PathLike)
    (fpath_config : option Pathlib.PathLike) :
  Pathlib.wf root = true -> Pathlib.wf document = true ->
  DatasetLayout_init fs (Pathlib.OfStr (Pathlib.str root)) fpath_config
  = DatasetLayout_init fs (Pathlib.OfPath root) fpath_config
  /\ DatasetLayout_init fs dpath_root
       (Some (Pathlib.OfStr (Pathlib.str document)))
     = DatasetLayout_init fs dpath_root (Some (Pathlib.OfPath document)).
Proof.
  intros Hr Hd. unfold DatasetLayout_init. cbn [Pathlib.make].
  now rewrite (of_string_str root Hr), (of_string_str document Hd).
Qed.

(** *** Caches do not show *)

(** X20.  The cached properties and the methods built on them return
    the same on a resolver that has been used, whatever was called on it,
    as on the freshly constructed one. *)
Theorem memoization_is_transparent (fs0 : FileSystem)
    (dpath_root : Pathlib.PathLike) (fpath_config : option Pathlib.PathLike)
    (l0 : DatasetLayout) (ops : list Op) (fs : FileSystem)
    (directory include_optional : bool) :
  DatasetLayout_init fs0 dpath_root fpath_config = Return l0 ->
  fst (get_paths directory include_optional (run ops l0))
  = fst (get_paths directory include_optional l0)
  /\ fst (dpaths (run ops l0)) = fst (dpaths l0)
  /\ fst (fpaths (run ops l0)) = fst (fpaths l0)
  /\ fst (dpath_descriptions (run ops l0)) = fst (dpath_descriptions l0)
  /\ fst (_find_missing_paths fs (run ops l0))
     = fst (_find_missing_paths fs l0)
  /\ fst (validate fs (run ops l0)) = fst (validate fs l0).
Proof.
  intros Hinit.
  destruct (reached fs0 dpath_root fpath_config l0 ops Hinit)
    as [Hg [Hc [_ [He _]]]].
  destruct (reached fs0 dpath_root fpath_config l0 [] Hinit) as [Hg0 _].
  change (run [] l0) with l0 in Hg0.
  pose proof (core_resolved _ _ Hc) as Hres.
  pose proof (core_fields _ _ Hc) as [Hroot _].
  split; [| split; [| split; [| split; [| split]]]].
  - rewrite (get_paths_value _ _ _ Hg), (get_paths_value _ _ _ Hg0).
    now rewrite Hres, He.
  - destruct (dpaths_spec _ Hg) as [-> _].
    destruct (dpaths_spec _ Hg0) as [-> _]. now rewrite Hres, He.
  - destruct (fpaths_spec _ Hg) as [-> _].
    destruct (fpaths_spec _ Hg0) as [-> _]. now rewrite Hres, He.
  - destruct (dpath_descriptions_spec _ Hg) as [-> _].
    destruct (dpath_descriptions_spec _ Hg0) as [-> _].
    now rewrite Hroot, He.
  - rewrite (find_missing_paths_value fs _ Hg),
      (find_missing_paths_value fs _ Hg0).
    unfold required_dpaths, required_fpaths. now rewrite Hres, He.
  - rewrite (validate_value fs _ Hg), (validate_value fs _ Hg0).
    unfold required_dpaths, required_fpaths. now rewrite Hres, He.
Qed.

End Resolver.

Lemma example_Base_free : Base_free_of_labels example_Base.
Proof.
  intros name H.
  assert (Hall : forallb (fun n => negb (example_Base n))
                         (map fst LayoutConfig.model_fields) = true)
    by (vm_compute; reflexivity).
  rewrite forallb_forall in Hall. specialize (Hall name H).
  now destruct (example_Base name).
Defined.

(** ** The schema object accepts assignments *)

Lemma dict_get_set {V : Type} (d : dict V) (key : string) (v : V) :
  dict_get (dict_set d key v) key = Some v.
Proof.
  induction d as [| [k w] d IH]; simpl.
  - now rewrite String.eqb_refl.
  - destruct (String.eqb_spec k key) as [-> | Hne]; simpl.
    + now rewrite String.eqb_refl.
    + destruct (String.eqb_spec k key); [contradiction | exact IH].
Qed.

(** [model_config] does not freeze the model: on every loaded schema the
    assignment of a new entry to a field goes through and changes it. *)
Lemma loaded_schema_accepts_assignment (data : dict json) (c : LayoutConfig) :
  LayoutConfig_init data = Return c ->
  exists (value : PathInfo) (c' : LayoutConfig),
    LayoutConfig_setattr c "dpath_bids" value = Return c'
    /\ LayoutConfig.field_values c' <> LayoutConfig.field_values c.
Proof.
  intros Hinit. apply LayoutConfig_init_Return in Hinit as [_ [_ Hc]].
  assert (Hlabel : In "dpath_bids" (map fst LayoutConfig.model_fields))
    by (left; reflexivity).
  destruct (conforms_has_label c "dpath_bids" Hc Hlabel) as [i Hin].
  pose proof (dict_get_In _ _ _ (conforms_NoDup c Hc) Hin) as Hget.
  exists (mkPathInfo (info_class i) (path i)
                     match description i with
                     | Some _ => None
                     | None => Some ""
                     end).
  eexists. split; [now apply LayoutConfig_setattr_field |].
  cbn [LayoutConfig.field_values]. intros E.
  pose proof (dict_get_set (LayoutConfig.field_values c) "dpath_bids"
                (mkPathInfo (info_class i) (path i)
                            match description i with
                            | Some _ => None
                            | None => Some ""
                            end)) as Hset.
  rewrite E, Hget in Hset. injection Hset as Hset.
  apply (f_equal description) in Hset. simpl in Hset.
  destruct (description i); discriminate.
Qed.

(** C3, as stated, fails: the schema loaded from a document that declares
    every label is not immutable. *)
Lemma loaded_schema_is_not_immutable :
  exists c : LayoutConfig,
    LayoutConfig_init example_document = Return c /\ ~ immutable c.
Proof.
  eexists. split; [vm_compute; reflexivity |].
  intros H.
  specialize (H "dpath_bids"
                (mkPathInfo DpathInfo (Pathlib.of_string "elsewhere") None)
                _ eq_refl).
  vm_compute in H. discriminate H.
Qed.

(** ** The work directory outside the pipeline directory *)


(** ** The statements on the example dataset *)

Lemma resolve_declared_label_witness :
  Base_free_of_labels example_Base
  /\ DatasetLayout_init example_default example_disk example_root None
     = Return example_layout
  /\ In ("dpath_bids",
         mkPathInfo DpathInfo (Pathlib.of_string "bids")
                    (Some "Location of bids"))
        (LayoutConfig.field_values (DatasetLayout.config example_layout))
  /\ fst (__getattribute__ example_Base "dpath_bids"
            (run example_Base example_tag example_calls example_layout))
     = Return (VPath (Pathlib.of_string "/data/study1/bids")).
Proof.
  assert (Hinit : DatasetLayout_init example_default example_disk
                    example_root None = Return example_layout)
    by (vm_compute; reflexivity).
  assert (Hin : In ("dpath_bids",
                    mkPathInfo DpathInfo (Pathlib.of_string "bids")
                               (Some "Location of bids"))
                   (LayoutConfig.field_values
                      (DatasetLayout.config example_layout)))
    by (left; vm_compute; reflexivity).
  split; [exact example_Base_free |].
  split; [exact Hinit |]. split; [exact Hin |].
  exact (proj1 (resolve_declared_label example_Base example_tag
                  example_default example_disk example_root None
                  example_layout example_calls "dpath_bids" _
                  example_Base_free Hinit Hin)).
Defined.

Lemma unknown_attribute_raises_witness :
  DatasetLayout_init example_default example_disk example_root None
  = Return example_layout
  /\ concrete example_Base "not_a_real_label" = false
  /\ ~ In "not_a_real_label" (labels example_layout)
  /\ fst (__getattribute__ example_Base "not_a_real_label"
            (run example_Base example_tag example_calls example_layout))
     = Raise (AttributeError "not_a_real_label").
Proof.
  assert (Hinit : DatasetLayout_init example_default example_disk
                    example_root None = Return example_layout)
    by (vm_compute; reflexivity).
  assert (Hn : concrete example_Base "not_a_real_label" = false)
    by (vm_compute; reflexivity).
  assert (Hl : ~ In "not_a_real_label" (labels example_layout))
    by (apply str_in_false; vm_compute; reflexivity).
  split; [exact Hinit |]. split; [exact Hn |]. split; [exact Hl |].
  exact (proj1 (unknown_attribute_raises example_Base example_tag
                  example_default example_disk example_root None
                  example_layout example_calls "not_a_real_label"
                  Hinit Hn Hl)).
Defined.

Lemma validate_reports_missing_required_paths_witness :
  DatasetLayout_init example_default example_disk example_root None
  = Return example_layout
  /\ fst (validate full_disk
            (run example_Base example_tag example_calls example_layout))
     = Return true
  /\ fst (validate example_disk
            (run example_Base example_tag example_calls example_layout))
     = fst (validate (fun _ => None)
              (run example_Base example_tag example_calls example_layout)).
Proof.
  assert (Hinit : DatasetLayout_init example_default example_disk
                    example_root None = Return example_layout)
    by (vm_compute; reflexivity).
  pose proof (validate_reports_missing_required_paths example_Base example_tag
                example_default example_disk example_root None
                example_layout example_calls full_disk Hinit) as Hfull.
  pose proof (validate_reports_missing_required_paths example_Base example_tag
                example_default example_disk example_root None
                example_layout example_calls (fun _ => None) Hinit) as Hnone.
  split; [exact Hinit |]. split.
  - apply (proj1 Hfull). intros p _. reflexivity.
  - apply (proj2 (proj2 Hnone)). intros p Hp. vm_compute in Hp.
    repeat (destruct Hp as [<- | Hp]; [vm_compute; reflexivity |]).
    contradiction.
Defined.

Lemma schema_loading_witness :
  (exists errors,
     LayoutConfig_init (tl example_document) = Raise (ValidationError errors)
     /\ In (mkError ["dpath_bids"] missing) errors)
  /\ (exists errors,
        LayoutConfig_init (("dpath_extra", example_entry "extra")
                           :: example_document)
        = Raise (ValidationError errors)
        /\ In (mkError ["dpath_extra"] extra_forbidden) errors)
  /\ well_formed_document example_document = true
  /\ (exists c, LayoutConfig_init example_document = Return c /\ conforms c).
Proof.
  split; [| split; [| split]].
  - apply (proj1 (schema_loading example_Base example_tag example_default
                    (tl example_document)) "dpath_bids").
    + left. reflexivity.
    + reflexivity.
  - apply (proj1 (proj2 (schema_loading example_Base example_tag
                           example_default
                           (("dpath_extra", example_entry "extra")
                            :: example_document))) "dpath_extra").
    + left. reflexivity.
    + apply str_in_false. vm_compute. reflexivity.
  - vm_compute. reflexivity.
  - destruct (proj1 (proj2 (proj2 (schema_loading example_Base example_tag
                                     example_default example_document))))
      as [c [Hc [Hconf _]]]; [vm_compute; reflexivity |].
    exists c. split; assumption.
Defined.

Lemma get_paths_lists_selected_entries_witness :
  DatasetLayout_init example_default example_disk example_root None
  = Return example_layout
  /\ fst (get_paths false true
            (run example_Base example_tag example_calls example_layout))
     = Return [ Pathlib.of_string "/data/study1/proc/global_configs.json";
                Pathlib.of_string "/data/study1/tabular/manifest.csv";
                Pathlib.of_string "/data/study1/scratch/raw_dicom/doughnut.csv";
                Pathlib.of_string "/data/study1/tabular/bagel.csv" ].
Proof.
  assert (Hinit : DatasetLayout_init example_default example_disk
                    example_root None = Return example_layout)
    by (vm_compute; reflexivity).
  split; [exact Hinit |].
  exact (proj1 (proj2 (get_paths_lists_selected_entries example_Base
                         example_tag example_default example_disk
                         example_root None example_layout example_calls
                         false true Hinit))).
Defined.

Lemma no_optional_directory_witness :
  DatasetLayout_init example_default example_disk example_root None
  = Return example_layout
  /\ fst (get_paths true true
            (run example_Base example_tag example_calls example_layout))
     = fst (get_paths true false
              (run example_Base example_tag example_calls example_layout)).
Proof.
  assert (Hinit : DatasetLayout_init example_default example_disk
                    example_root None = Return example_layout)
    by (vm_compute; reflexivity).
  split; [exact Hinit |].
  exact (proj1 (proj2 (proj2 (no_optional_directory example_Base example_tag
                                example_default example_disk example_root
                                None example_layout example_calls Hinit)))).
Defined.

Lemma missing_directories_before_files_witness :
  DatasetLayout_init example_default example_disk example_root None
  = Return example_layout
  /\ exists dpaths_ : list Path,
       length dpaths_ = 19
       /\ fst (_find_missing_paths example_disk
                 (run example_Base example_tag example_calls example_layout))
          = Return (dpaths_
                    ++ [ Pathlib.of_string
                           "/data/study1/proc/global_configs.json";
                         Pathlib.of_string
                           "/data/study1/tabular/manifest.csv" ]).
Proof.
  assert (Hinit : DatasetLayout_init example_default example_disk
                    example_root None = Return example_layout)
    by (vm_compute; reflexivity).
  split; [exact Hinit |].
  eexists. split;
    [| exact (proj1 (missing_directories_before_files example_Base
                       example_tag example_default example_disk example_root
                       None example_layout example_calls example_disk Hinit))].
  vm_compute. reflexivity.
Defined.


Lemma pipeline_output_directory_witness :
  Base_free_of_labels example_Base
  /\ DatasetLayout_init example_default example_disk example_root None
     = Return example_layout
  /\ fst (get_dpath_pipeline_output example_Base "fmriprep" "23.1.3"
            (run example_Base example_tag example_calls example_layout))
     = fst (get_dpath_pipeline_output example_Base "fmriprep" "23.1.3"
              example_layout).
Proof.
  assert (Hinit : DatasetLayout_init example_default example_disk
                    example_root None = Return example_layout)
    by (vm_compute; reflexivity).
  split; [exact example_Base_free |]. split; [exact Hinit |].
  destruct (pipeline_output_directory example_Base example_tag example_default
              example_disk example_root None example_layout
              "fmriprep" "23.1.3" example_Base_free Hinit) as [d H].
  rewrite (proj2 (H example_calls)). symmetry. exact (proj2 (H [])).
Defined.

Lemma construction_reads_only_the_document_witness :
  Path_exists example_disk (Pathlib.make example_root) = false
  /\ example_disk (document_path example_default None)
     = Some (File (JsonDocument (JObject example_document)))
  /\ well_formed_document example_document = true
  /\ DatasetLayout_init example_default example_disk example_root None
     = Return example_layout
  /\ In ("dpath_bids",
         mkPathInfo DpathInfo (Pathlib.of_string "bids")
                    (Some "Location of bids"))
        (LayoutConfig.field_values (DatasetLayout.config example_layout)).
Proof.
  assert (Hdoc : example_disk (document_path example_default None)
                 = Some (File (JsonDocument (JObject example_document))))
    by (vm_compute; reflexivity).
  assert (Hw : well_formed_document example_document = true)
    by (vm_compute; reflexivity).
  split; [vm_compute; reflexivity |].
  split; [exact Hdoc |]. split; [exact Hw |].
  split; [| left; vm_compute; reflexivity].
  destruct (proj2 (proj2 (proj2 (proj2 (construction_reads_only_the_document
                                          example_default))))
              example_disk example_root None example_document Hdoc Hw)
    as [c [Hc Hl]].
  vm_compute in Hc. injection Hc as <-. exact Hl.
Defined.

(** ** The further properties on the example dataset *)

Lemma bids_db_directory_witness :
  Base_free_of_labels example_Base
  /\ DatasetLayout_init example_default example_disk example_root None
     = Return example_layout
  /\ fst (get_dpath_bids_db example_Base example_tag
            "fmriprep" "23.1.3" (Some "sub-01") (Some "ses-1")
            (run example_Base example_tag example_calls example_layout))
     <> fst (get_dpath_bids_db example_Base example_tag
               "fmriprep" "23.1.3" (Some "sub-02") (Some "ses-1")
               (run example_Base example_tag example_calls example_layout))
  /\ fst (get_dpath_bids_db example_Base example_tag
            "fmriprep" "23.1.3" (Some "sub-01") None
            (run example_Base example_tag example_calls example_layout))
     = fst (get_dpath_bids_db example_Base example_tag
              "fmriprep" "23.1.3" (Some "sub-01/") None
              (run example_Base example_tag example_calls example_layout)).
Proof.
  assert (Hinit : DatasetLayout_init example_default example_disk
                    example_root None = Return example_layout)
    by (vm_compute; reflexivity).
  split; [exact example_Base_free |]. split; [exact Hinit |]. split.
  - destruct (bids_db_directory example_Base example_tag example_default
                example_disk example_root None example_layout example_calls
                "fmriprep" "23.1.3" (Some "sub-01") (Some "ses-1")
                example_Base_free Hinit) as [b [_ [_ [_ [_ H]]]]].
    apply (H (Some "sub-02")).
    + vm_compute. reflexivity.
    + vm_compute. reflexivity.
    + vm_compute. discriminate.
  - destruct (bids_db_directory example_Base example_tag example_default
                example_disk example_root None example_layout example_calls
                "fmriprep" "23.1.3" (Some "sub-01") None
                example_Base_free Hinit) as [b [_ [_ [_ [H _]]]]].
    apply (H (Some "sub-01/")).
    + vm_compute. reflexivity.
    + vm_compute. reflexivity.
    + vm_compute. reflexivity.
Defined.

Lemma work_and_output_do_not_nest_witness :
  Base_free_of_labels example_Base
  /\ DatasetLayout_init example_default example_disk example_root None
     = Return example_layout
  /\ Pathlib.is_absolute
       (Pathlib.of_string
          (example_tag "fmriprep" "23.1.3" (Some "sub-01") None)) = false
  /\ exists w o : Path,
       fst (get_dpath_pipeline_work example_Base example_tag
              "fmriprep" "23.1.3" (Some "sub-01") None
              (run example_Base example_tag example_calls example_layout))
       = Return w
       /\ fst (get_dpath_pipeline_output example_Base "fmriprep" "23.1.3"
                 (run example_Base example_tag example_calls example_layout))
          = Return o
       /\ w <> o
       /\ Pathlib.is_relative_to w o = false
       /\ Pathlib.is_relative_to o w = false.
Proof.
  assert (Hinit : DatasetLayout_init example_default example_disk
                    example_root None = Return example_layout)
    by (vm_compute; reflexivity).
  assert (Htag : Pathlib.is_absolute
                   (Pathlib.of_string
                      (example_tag "fmriprep" "23.1.3" (Some "sub-01") None))
                 = false)
    by (vm_compute; reflexivity).
  split; [exact example_Base_free |]. split; [exact Hinit |].
  split; [exact Htag |].
  exact (work_and_output_do_not_nest example_Base example_tag example_default
           example_disk example_root None example_layout example_calls
           "fmriprep" "23.1.3" (Some "sub-01") None
           example_Base_free Hinit Htag).
Defined.

Lemma get_full_path_edges_witness :
  Pathlib.is_absolute (Pathlib.make (Pathlib.OfStr "/etc/passwd")) = true
  /\ get_full_path (Pathlib.OfStr "/etc/passwd") example_layout
     = (Return (Pathlib.of_string "/etc/passwd"), example_layout)
  /\ get_full_path (Pathlib.OfStr "") example_layout
     = (Return (Pathlib.of_string "/data/study1"), example_layout).
Proof.
  assert (Habs : Pathlib.is_absolute
                   (Pathlib.make (Pathlib.OfStr "/etc/passwd")) = true)
    by (vm_compute; reflexivity).
  split; [exact Habs |]. split.
  - exact (proj1 (get_full_path_edges example_layout
                    (Pathlib.OfStr "/etc/passwd")) Habs).
  - exact (proj2 (proj2 (get_full_path_edges example_layout
                           (Pathlib.OfStr "/etc/passwd")))).
Defined.

Lemma pipeline_directory_edges_witness :
  Base_free_of_labels example_Base
  /\ DatasetLayout_init example_default example_disk example_root None
     = Return example_layout
  /\ fst (get_dpath_pipeline example_Base "fmriprep" "23.1.3"
            (run example_Base example_tag example_calls example_layout))
     <> fst (get_dpath_pipeline example_Base "fmriprep" "24.0.0"
               (run example_Base example_tag example_calls example_layout)).
Proof.
  assert (Hinit : DatasetLayout_init example_default example_disk
                    example_root None = Return example_layout)
    by (vm_compute; reflexivity).
  split; [exact example_Base_free |]. split; [exact Hinit |].
  destruct (pipeline_directory_edges example_Base example_tag example_default
              example_disk example_root None example_layout example_calls
              "fmriprep" "23.1.3" example_Base_free Hinit)
    as [d [_ [_ [_ [_ [_ H]]]]]].
  apply (H "24.0.0").
  - vm_compute. reflexivity.
  - vm_compute. reflexivity.
  - discriminate.
Defined.

Lemma path_views_aligned_witness :
  LayoutConfig_init example_document
  = Return (DatasetLayout.config example_layout)
  /\ exists infos : list PathInfo,
       fst (path_infos (DatasetLayout.config example_layout)) = Return infos
       /\ length infos = 23
       /\ Forall2 (fun label info =>
                     get_path_info (DatasetLayout.config example_layout) label
                     = Return info)
                  (fst (path_labels (DatasetLayout.config example_layout)))
                  infos.
Proof.
  assert (Hinit : LayoutConfig_init example_document
                  = Return (DatasetLayout.config example_layout))
    by (vm_compute; reflexivity).
  split; [exact Hinit |].
  destruct (path_views_aligned example_document
              (DatasetLayout.config example_layout) Hinit)
    as [infos [Hl [Hi [Hlen [Hall _]]]]].
  exists infos. split; [exact Hi |]. split; [| exact Hall].
  rewrite Hlen, Hl. reflexivity.
Defined.

Lemma path_infos_is_stale_after_assignment_witness :
  LayoutConfig_init example_document
  = Return (DatasetLayout.config example_layout)
  /\ In "dpath_bids" (map fst LayoutConfig.model_fields)
  /\ exists c2 : LayoutConfig,
       LayoutConfig_setattr
         (snd (path_infos (DatasetLayout.config example_layout)))
         "dpath_bids"
         (mkPathInfo DpathInfo (Pathlib.of_string "elsewhere") None)
       = Return c2
       /\ get_path_info c2 "dpath_bids"
          = Return (mkPathInfo DpathInfo (Pathlib.of_string "elsewhere") None)
       /\ fst (path_infos c2)
          = fst (path_infos (DatasetLayout.config example_layout)).
Proof.
  assert (Hinit : LayoutConfig_init example_document
                  = Return (DatasetLayout.config example_layout))
    by (vm_compute; reflexivity).
  assert (Hin : In "dpath_bids" (map fst LayoutConfig.model_fields))
    by (left; reflexivity).
  split; [exact Hinit |]. split; [exact Hin |].
  exact (proj1 (path_infos_is_stale_after_assignment example_document
                  (DatasetLayout.config example_layout) "dpath_bids"
                  (mkPathInfo DpathInfo (Pathlib.of_string "elsewhere") None)
                  Hinit Hin)).
Defined.

Lemma document_entry_round_trip_witness :
  LayoutConfig_init example_document
  = Return (DatasetLayout.config example_layout)
  /\ In ("fpath_doughnut", OptionalFpathInfo) LayoutConfig.model_fields
  /\ get_path_info (DatasetLayout.config example_layout) "fpath_doughnut"
     = Return (mkPathInfo OptionalFpathInfo
                 (Pathlib.of_string "scratch/raw_dicom/doughnut.csv")
                 (Some "Location of scratch/raw_dicom/doughnut.csv")).
Proof.
  assert (Hinit : LayoutConfig_init example_document
                  = Return (DatasetLayout.config example_layout))
    by (vm_compute; reflexivity).
  assert (Hin : In ("fpath_doughnut", OptionalFpathInfo)
                   LayoutConfig.model_fields)
    by (do 21 right; left; reflexivity).
  split; [exact Hinit |]. split; [exact Hin |].
  destruct (document_entry_round_trip example_document
              (DatasetLayout.config example_layout) "fpath_doughnut"
              OptionalFpathInfo Hinit Hin) as [members [s [Hd [Hp Hg]]]].
  vm_compute in Hd. injection Hd as <-.
  vm_compute in Hp. injection Hp as <-.
  exact Hg.
Defined.

Lemma lookup_resolves_document_path_witness :
  Base_free_of_labels example_Base
  /\ DatasetLayout_init example_default example_disk example_root None
     = Return example_layout
  /\ example_disk (document_path example_default None)
     = Some (File (JsonDocument (JObject example_document)))
  /\ In "fpath_manifest" (map fst LayoutConfig.model_fields)
  /\ fst (__getattribute__ example_Base "fpath_manifest"
            (run example_Base example_tag example_calls example_layout))
     = Return (VPath (Pathlib.of_string "/data/study1/tabular/manifest.csv")).
Proof.
  assert (Hinit : DatasetLayout_init example_default example_disk
                    example_root None = Return example_layout)
    by (vm_compute; reflexivity).
  assert (Hdoc : example_disk (document_path example_default None)
                 = Some (File (JsonDocument (JObject example_document))))
    by (vm_compute; reflexivity).
  assert (Hin : In "fpath_manifest" (map fst LayoutConfig.model_fields))
    by (do 20 right; left; reflexivity).
  split; [exact example_Base_free |]. split; [exact Hinit |].
  split; [exact Hdoc |]. split; [exact Hin |].
  destruct (lookup_resolves_document_path example_Base example_tag
              example_default example_disk example_root None example_layout
              example_document "fpath_manifest" example_Base_free Hinit
              Hdoc Hin) as [members [s [Hd [Hp Hg]]]].
  vm_compute in Hd. injection Hd as <-.
  vm_compute in Hp. injection Hp as <-.
  exact (Hg example_calls).
Defined.

Lemma entry_extra_key_is_ignored_witness :
  dict_get example_document "dpath_bids"
  = Some (JObject [("path", JString "bids");
                   ("description", JString "Location of bids")])
  /\ "comment" <> "path"
  /\ "comment" <> "description"
  /\ LayoutConfig_init commented_document
     = LayoutConfig_init example_document.
Proof.
  assert (Hget : dict_get example_document "dpath_bids"
                 = Some (JObject [("path", JString "bids");
                                  ("description",
                                   JString "Location of bids")]))
    by reflexivity.
  assert (Hp : "comment" <> "path") by discriminate.
  assert (Hd : "comment" <> "description") by discriminate.
  split; [exact Hget |]. split; [exact Hp |]. split; [exact Hd |].
  exact (entry_extra_key_is_ignored example_Base example_tag
           example_document _ "dpath_bids" "comment" (JString "raw data")
           Hget Hp Hd).
Defined.

Lemma construction_succeeds_iff_witness :
  example_disk (document_path example_default None)
  = Some (File (JsonDocument (JObject example_document)))
  /\ well_formed_document example_document = true
  /\ exists l : DatasetLayout,
       DatasetLayout_init example_default example_disk example_root None
       = Return l.
Proof.
  assert (Hdoc : example_disk (document_path example_default None)
                 = Some (File (JsonDocument (JObject example_document))))
    by (vm_compute; reflexivity).
  assert (Hw : well_formed_document example_document = true)
    by (vm_compute; reflexivity).
  split; [exact Hdoc |]. split; [exact Hw |].
  apply (proj2 (proj1 (construction_succeeds_iff example_default example_disk
                         example_root None))).
  exists example_document. split; [exact Hdoc | exact Hw].
Defined.

Lemma fpath_config_is_the_schema_entry_witness :
  Base_free_of_labels example_Base
  /\ DatasetLayout_init example_default example_disk example_root None
     = Return example_layout
  /\ exists info : PathInfo,
       In ("fpath_config", info)
          (LayoutConfig.field_values (DatasetLayout.config example_layout))
       /\ fst (__getattribute__ example_Base "fpath_config"
                 (run example_Base example_tag example_calls example_layout))
          = Return (VPath (Pathlib.of_string "/data/study1" / path info))
       /\ fst (__getattribute__ example_Base "fpath_spec"
                 (run example_Base example_tag example_calls example_layout))
          = Return (VPath (Pathlib.of_string
                             "/opt/nipoppy/data/layouts/layout-default.json")).
Proof.
  assert (Hinit : DatasetLayout_init example_default example_disk
                    example_root None = Return example_layout)
    by (vm_compute; reflexivity).
  split; [exact example_Base_free |]. split; [exact Hinit |].
  destruct (fpath_config_is_the_schema_entry example_Base example_tag
              example_default example_disk example_root None example_layout
              example_Base_free Hinit) as [info [Hin H]].
  exists info. split; [exact Hin |]. exact (H example_calls).
Defined.

Lemma inherited_attribute_shadows_label_witness :
  DatasetLayout_init example_default example_disk example_root None
  = Return example_layout
  /\ In "dpath_bids" (labels example_layout)
  /\ shadowing_Base "dpath_bids" = true
  /\ fst (__getattribute__ shadowing_Base "dpath_bids"
            (run shadowing_Base example_tag example_calls example_layout))
     = Return (VInherited "dpath_bids").
Proof.
  assert (Hinit : DatasetLayout_init example_default example_disk
                    example_root None = Return example_layout)
    by (vm_compute; reflexivity).
  assert (Hin : In "dpath_bids" (labels example_layout))
    by (left; vm_compute; reflexivity).
  assert (Hb : shadowing_Base "dpath_bids" = true) by reflexivity.
  split; [exact Hinit |]. split; [exact Hin |]. split; [exact Hb |].
  exact (inherited_attribute_shadows_label shadowing_Base example_tag
           example_default example_disk example_root None example_layout
           example_calls "dpath_bids" Hinit Hin Hb).
Defined.

Lemma listing_sizes_witness :
  DatasetLayout_init example_default example_disk example_root None
  = Return example_layout
  /\ length (labels example_layout) = 23
  /\ exists paths : list Path,
       fst (get_paths false false
              (run example_Base example_tag example_calls example_layout))
       = Return paths
       /\ length paths = 2.
Proof.
  assert (Hinit : DatasetLayout_init example_default example_disk
                    example_root None = Return example_layout)
    by (vm_compute; reflexivity).
  split; [exact Hinit |].
  exact (listing_sizes example_Base example_tag example_default example_disk
           example_root None example_layout example_calls false false Hinit).
Defined.

Lemma required_listing_is_subsequence_witness :
  DatasetLayout_init example_default example_disk example_root None
  = Return example_layout
  /\ exists required every : list Path,
       fst (get_paths false false
              (run example_Base example_tag example_calls example_layout))
       = Return required
       /\ fst (get_paths false true
                 (run example_Base example_tag example_calls example_layout))
          = Return every
       /\ Subsequence required every.
Proof.
  assert (Hinit : DatasetLayout_init example_default example_disk
                    example_root None = Return example_layout)
    by (vm_compute; reflexivity).
  split; [exact Hinit |].
  destruct (required_listing_is_subsequence example_Base example_tag
              example_default example_disk example_root None example_layout
              example_calls false Hinit) as [required [every [Hr [He [Hs _]]]]].
  exists required, every. split; [exact Hr |]. split; [exact He | exact Hs].
Defined.

Lemma descriptions_follow_dpaths_witness :
  DatasetLayout_init example_default example_disk example_root None
  = Return example_layout
  /\ exists (descriptions : list (Path * string)) (directories : list Path),
       fst (dpath_descriptions
              (run example_Base example_tag example_calls example_layout))
       = Return descriptions
       /\ fst (dpaths
                 (run example_Base example_tag example_calls example_layout))
          = Return directories
       /\ Subsequence (map fst descriptions) directories.
Proof.
  assert (Hinit : DatasetLayout_init example_default example_disk
                    example_root None = Return example_layout)
    by (vm_compute; reflexivity).
  split; [exact Hinit |].
  destruct (descriptions_follow_dpaths example_Base example_tag
              example_default example_disk example_root None example_layout
              example_calls Hinit) as [ds [dirs [Hd [Hp [Hs _]]]]].
  exists ds, dirs. split; [exact Hd |]. split; [exact Hp | exact Hs].
Defined.

Lemma validate_on_empty_disk_witness :
  DatasetLayout_init example_default example_disk example_root None
  = Return example_layout
  /\ (forall p : Path, Path_exists (fun _ => None) p = false)
  /\ exists directories files : list Path,
       fst (dpaths
              (run example_Base example_tag example_calls example_layout))
       = Return directories
       /\ fst (fpaths
                 (run example_Base example_tag example_calls example_layout))
          = Return files
       /\ fst (validate (fun _ => None)
                 (run example_Base example_tag example_calls example_layout))
          = Raise (FileNotFoundError
                     (MissingPaths 21
                        (map Pathlib.str (directories ++ files)))).
Proof.
  assert (Hinit : DatasetLayout_init example_default example_disk
                    example_root None = Return example_layout)
    by (vm_compute; reflexivity).
  assert (Hempty : forall p : Path, Path_exists (fun _ => None) p = false)
    by (intros p; reflexivity).
  split; [exact Hinit |]. split; [exact Hempty |].
  exact (validate_on_empty_disk example_Base example_tag example_default
           example_disk example_root None example_layout example_calls
           (fun _ => None) Hinit Hempty).
Defined.

Lemma validate_names_the_single_missing_path_witness :
  DatasetLayout_init example_default example_disk example_root None
  = Return example_layout
  /\ Path_exists disk_without_manifest
       (Pathlib.of_string "/data/study1/tabular/manifest.csv") = false
  /\ fst (validate disk_without_manifest
            (run example_Base example_tag example_calls example_layout))
     = Raise (FileNotFoundError
                (MissingPaths 1 ["/data/study1/tabular/manifest.csv"])).
Proof.
  assert (Hinit : DatasetLayout_init example_default example_disk
                    example_root None = Return example_layout)
    by (vm_compute; reflexivity).
  assert (Hmissing : Path_exists disk_without_manifest
                       (Pathlib.of_string "/data/study1/tabular/manifest.csv")
                     = false)
    by (vm_compute; reflexivity).
  split; [exact Hinit |]. split; [exact Hmissing |].
  apply (validate_names_the_single_missing_path example_Base example_tag
           example_default example_disk example_root None example_layout
           example_calls disk_without_manifest
           (Pathlib.of_string "/data/study1/tabular/manifest.csv") Hinit).
  - vm_compute.
    repeat (constructor;
            [simpl; intros H;
             repeat (destruct H as [H | H]; [discriminate H |]);
             exact H |]).
    constructor.
  - vm_compute. do 20 right. left. reflexivity.
  - exact Hmissing.
  - intros q Hq Hne. vm_compute in Hq.
    repeat (destruct Hq as [<- | Hq];
            [first [reflexivity | now elim Hne] |]).
    contradiction.
Defined.

Lemma reported_paths_parse_back_witness :
  DatasetLayout_init example_default example_disk example_root None
  = Return example_layout
  /\ Pathlib.wf (Pathlib.make example_root) = true
  /\ fst (validate disk_without_manifest
            (run example_Base example_tag example_calls example_layout))
     = Raise (FileNotFoundError
                (MissingPaths 1 ["/data/study1/tabular/manifest.csv"]))
  /\ fst (_find_missing_paths disk_without_manifest
            (run example_Base example_tag example_calls example_layout))
     = Return [Pathlib.of_string "/data/study1/tabular/manifest.csv"].
Proof.
  assert (Hinit : DatasetLayout_init example_default example_disk
                    example_root None = Return example_layout)
    by (vm_compute; reflexivity).
  assert (Hwf : Pathlib.wf (Pathlib.make example_root) = true)
    by (vm_compute; reflexivity).
  assert (Hval : fst (validate disk_without_manifest
                        (run example_Base example_tag example_calls
                           example_layout))
                 = Raise (FileNotFoundError
                            (MissingPaths 1
                               ["/data/study1/tabular/manifest.csv"])))
    by (vm_compute; reflexivity).
  split; [exact Hinit |]. split; [exact Hwf |]. split; [exact Hval |].
  exact (proj1 (reported_paths_parse_back example_Base example_tag
                  example_default example_disk example_root None
                  example_layout example_calls disk_without_manifest
                  1 ["/data/study1/tabular/manifest.csv"]
                  Hinit Hwf Hval)).
Defined.

Lemma construction_from_path_or_string_witness :
  Pathlib.wf (Pathlib.of_string "/data/study1") = true
  /\ Pathlib.wf (Pathlib.make example_default) = true
  /\ DatasetLayout_init example_default example_disk
       (Pathlib.OfPath (Pathlib.of_string "/data/study1")) None
     = Return example_layout
  /\ DatasetLayout_init example_default example_disk example_root
       (Some (Pathlib.OfPath (Pathlib.make example_default)))
     = Return example_layout.
Proof.
  assert (Hroot : Pathlib.wf (Pathlib.of_string "/data/study1") = true)
    by (vm_compute; reflexivity).
  assert (Hdoc : Pathlib.wf (Pathlib.make example_default) = true)
    by (vm_compute; reflexivity).
  split; [exact Hroot |]. split; [exact Hdoc |].
  destruct (construction_from_path_or_string example_default example_disk
              (Pathlib.of_string "/data/study1")
              (Pathlib.make example_default) example_root None Hroot Hdoc)
    as [H1 _].
  destruct (construction_from_path_or_string example_default example_disk
              (Pathlib.of_string "/data/study1")
              (Pathlib.make example_default) example_root
              (Some (Pathlib.OfPath (Pathlib.make example_default)))
              Hroot Hdoc)
    as [_ H2].
  split.
  - etransitivity; [symmetry; exact H1 | vm_compute; reflexivity].
  - etransitivity; [symmetry; exact H2 | vm_compute; reflexivity].
Defined.

Lemma memoization_is_transparent_witness :
  DatasetLayout_init example_default example_disk example_root None
  = Return example_layout
  /\ fst (validate example_disk
            (run example_Base example_tag example_calls example_layout))
     = fst (validate example_disk example_layout)
  /\ fst (dpath_descriptions
            (run example_Base example_tag example_calls example_layout))
     = fst (dpath_descriptions example_layout).
Proof.
  assert (Hinit : DatasetLayout_init example_default example_disk
                    example_root None = Return example_layout)
    by (vm_compute; reflexivity).
  split; [exact Hinit |].
  destruct (memoization_is_transparent example_Base example_tag
              example_default example_disk example_root None example_layout
              example_calls example_disk true false Hinit)
    as [_ [_ [_ [Hd [_ Hv]]]]].
  split; [exact Hv | exact Hd].
Defined.
